(** * Payment reconciliation core of the CRM backend

    A shallow embedding of [backend/app/api/v1/payments.py] (the four
    Razorpay endpoints), [backend/app/integration/razorpay.py] (signature
    verification and the paisa conversion), the request-scoped session and
    the guards of [backend/app/core/deps.py] and the rate limiter of
    [backend/app/middlewares/rate_limit.py], followed by the properties of
    the specification that concern them and by further properties of the
    code.

    Conventions of the embedding
    - Python [str] and [bytes] are [string] (byte sequences, UTF-8).
    - Python [float] is IEEE binary64, modelled with [spec_float] and the
      correctly rounded operations of [SpecFloat] at precision 53.
    - A parsed JSON document is a [json] tree; a Python [dict] is an
      association list with pairwise distinct keys, looked up from the front.
    - A table is the list of its rows in the order in which the database
      serves them to the request at hand; [db.scalar] of a [select] returns
      the first row that satisfies the filter.  No [select] of the sources
      has an ORDER BY, so nothing is assumed about that order from one
      request to the next: the statements that span several requests do not
      depend on it.
    - A raised exception is a [Raise] result; FastAPI turns an [HTTPException]
      into its status code and any other exception into a 500.
    - The SQLAlchemy session is a working copy of the database next to the
      last committed copy; closing the session drops the working copy.
      Pending changes reach the database when the handler flushes or
      commits, and a value that does not fit its column is refused there. *)

From Stdlib Require Import ZArith List String Ascii Bool Lia.
From Stdlib Require Import Floats.SpecFloat DecimalString.
Import ListNotations.

Local Open Scope string_scope.
Local Open Scope Z_scope.

(* ------------------------------------------------------------------ *)
(** ** Exceptions and results *)

Inductive Exn : Type :=
| HTTPException (status_code : Z) (detail : string)
| AttributeError
| KeyError
| TypeError
| ValueError
| OverflowError
| StatementError      (* the driver refuses a bound value, or a constraint fails *)
| DataError           (* the database refuses a value that does not fit its column *)
| CollaboratorError (what : string).  (* an exception raised by an external service *)

Inductive result (A : Type) : Type :=
| Ok (a : A)
| Raise (e : Exn).
Arguments Ok {A} a.
Arguments Raise {A} e.

Definition is_ok {A} (r : result A) : bool :=
  match r with Ok _ => true | Raise _ => false end.

Definition rbind {A B} (r : result A) (k : A -> result B) : result B :=
  match r with
  | Ok a => k a
  | Raise e => Raise e
  end.

Declare Scope res_scope.
Delimit Scope res_scope with res.
Notation "x <- c1 ;; c2" := (rbind c1 (fun x => c2))
  (at level 61, c1 at next level, right associativity) : res_scope.

(* ------------------------------------------------------------------ *)
(** ** Python floats (binary64) *)

Definition prec : Z := 53.
Definition emax : Z := 1024.

Definition float := spec_float.

Definition float_mul : float -> float -> float := SFmul prec emax.
Definition float_div : float -> float -> float := SFdiv prec emax.
Definition float_leb : float -> float -> bool := SFleb.

(** [float(n)] for an integer literal. *)
Definition float_of_Z (n : Z) : float := binary_normalize prec emax n 0 false.

(** The float closest to the decimal [units.cc], as the literal [units.cc]
    denotes it: a correctly rounded quotient of two exact integers. *)
Definition float_of_cents (c : Z) : float :=
  float_div (float_of_Z c) (float_of_Z 100).

(** [round(x)] with one argument: the nearest integer, ties to even;
    [ValueError] on NaN and [OverflowError] on an infinity. *)
Definition round_half_even (m : Z) (e : Z) : Z :=
  if 0 <=? e then m * 2 ^ e
  else
    let d := 2 ^ (- e) in
    let q := m / d in
    let r := m mod d in
    match 2 * r ?= d with
    | Lt => q
    | Gt => q + 1
    | Eq => if Z.even q then q else q + 1
    end.

Definition py_round (x : float) : result Z :=
  match x with
  | S754_zero _ => Ok 0
  | S754_infinity _ => Raise OverflowError
  | S754_nan => Raise ValueError
  | S754_finite s m e =>
      let n := round_half_even (Zpos m) e in
      Ok (if s then - n else n)
  end.

(** [rupees_to_paisa] of integration/razorpay.py:
    [int(round(float(amount_rupees) * 100))]. *)
Definition rupees_to_paisa (amount_rupees : float) : result Z :=
  py_round (float_mul amount_rupees (float_of_Z 100)).

(* ------------------------------------------------------------------ *)
(** ** JSON values and the Python operations the handlers apply to them *)

#[local] Set Warnings "-register-all".

Inductive json : Type :=
| JNull
| JBool (b : bool)
| JInt (n : Z)
| JFloat (f : float)
| JStr (s : string)
| JList (l : list json)
| JDict (kv : list (string * json)).

(** Truth value of a Python object ([if x], [x or y], [not x]). *)
Definition truthy (v : json) : bool :=
  match v with
  | JNull => false
  | JBool b => b
  | JInt n => negb (n =? 0)
  | JFloat (S754_zero _) => false
  | JFloat _ => true
  | JStr s => negb (s =? "")%string
  | JList l => match l with [] => false | _ => true end
  | JDict kv => match kv with [] => false | _ => true end
  end.

Fixpoint assoc (k : string) (kv : list (string * json)) : option json :=
  match kv with
  | [] => None
  | (k', v) :: rest => if (k =? k')%string then Some v else assoc k rest
  end.

(** [d.get(k, default)]; only a dict has [get]. *)
Definition py_get (d : json) (k : string) (default : json) : result json :=
  match d with
  | JDict kv => Ok (match assoc k kv with Some v => v | None => default end)
  | _ => Raise AttributeError
  end.

(** [d[k]]. *)
Definition py_getitem (d : json) (k : string) : result json :=
  match d with
  | JDict kv => match assoc k kv with Some v => Ok v | None => Raise KeyError end
  | _ => Raise TypeError
  end.

(** [v == "literal"] *)
Definition json_eq_str (v : json) (s : string) : bool :=
  match v with
  | JStr t => (t =? s)%string
  | _ => false
  end.

(** A value bound to a [String] column or compared with one must be a [str].
    What the driver does with another type is outside the sources; the model
    raises, and the properties below are stated for [str] values. *)
Definition bind_str (v : json) : result string :=
  match v with
  | JStr s => Ok s
  | _ => Raise StatementError
  end.

(** The same for a nullable column. *)
Definition bind_str_opt (v : json) : result (option string) :=
  match v with
  | JNull => Ok None
  | JStr s => Ok (Some s)
  | _ => Raise StatementError
  end.

Definition is_ascii (s : string) : bool :=
  forallb (fun c => (nat_of_ascii c <? 128)%nat) (list_ascii_of_string s).

(** [hmac.compare_digest(a, b)] on two [str]: [TypeError] unless both are
    ASCII, equality otherwise. *)
Definition compare_digest (a b : string) : result bool :=
  if is_ascii a && is_ascii b then Ok (a =? b)%string else Raise TypeError.

(** [len(s)] for a [str]: the number of code points, that is, of the bytes
    of its UTF-8 encoding that are no continuation bytes. *)
Definition is_continuation (c : ascii) : bool :=
  ((128 <=? nat_of_ascii c) && (nat_of_ascii c <? 192))%nat.

Fixpoint str_len (s : string) : nat :=
  match s with
  | EmptyString => 0%nat
  | String c rest => ((if is_continuation c then 0 else 1) + str_len rest)%nat
  end.

(* ------------------------------------------------------------------ *)
(** ** Data model *)

(** A [uuid.UUID], identified with its canonical text, so that [str(u)] is
    [u] itself. *)
Definition UUID := string.

(** app/models/payment.py *)
Inductive PaymentStatus : Type :=
| CREATED | AUTHORIZED | CAPTURED | FAILED | REFUNDED.

Inductive PaymentProvider : Type :=
| RAZORPAY | STRIPE.

Definition PaymentStatus_value (s : PaymentStatus) : string :=
  match s with
  | CREATED => "CREATED"
  | AUTHORIZED => "AUTHORIZED"
  | CAPTURED => "CAPTURED"
  | FAILED => "FAILED"
  | REFUNDED => "REFUNDED"
  end.

Definition PaymentProvider_value (p : PaymentProvider) : string :=
  match p with
  | RAZORPAY => "RAZORPAY"
  | STRIPE => "STRIPE"
  end.

Definition PaymentStatus_eqb (a b : PaymentStatus) : bool :=
  match a, b with
  | CREATED, CREATED | AUTHORIZED, AUTHORIZED | CAPTURED, CAPTURED
  | FAILED, FAILED | REFUNDED, REFUNDED => true
  | _, _ => false
  end.

Definition PaymentProvider_eqb (a b : PaymentProvider) : bool :=
  match a, b with
  | RAZORPAY, RAZORPAY | STRIPE, STRIPE => true
  | _, _ => false
  end.

(** Modelled from the spec: the enum [PaymentStatus] of app/models/appointment.py
    (imported as [ApptPayStatus]), whose module is not among the sources; the
    spec lists its values as UNPAID, PAID, FAILED, REFUNDED. *)
Inductive ApptPayStatus : Type :=
| UNPAID | PAID | APPT_FAILED | APPT_REFUNDED.

(** The mapped attributes of class [Payment].  The class declares no
    [customer_id] (the migration a1b2c3d4e5f6 adds that column to the table,
    the class does not map it); [created_at] plays no part here.  [amount]
    is the float image of the NUMERIC(10,2) column. *)
Record Payment : Type := mkPayment {
  pay_id : UUID;
  pay_tenant_id : UUID;
  pay_appointment_id : UUID;
  pay_provider : PaymentProvider;
  pay_provider_order_id : string;
  pay_provider_payment_id : option string;
  pay_amount : float;
  pay_currency : string;
  pay_status : PaymentStatus
}.

(** Modelled from the spec: the [payment_events] row of
    app/models/payment_event.py, whose module is not among the sources; the
    fields are those the handlers pass to the constructor.  No uniqueness
    constraint is assumed on the table: the only deduplication is the
    handler's own check. *)
Record PaymentEvent : Type := mkPaymentEvent {
  ev_tenant_id : UUID;
  ev_provider : PaymentProvider;
  ev_event_type : string;
  ev_provider_event_id : option string;
  ev_provider_order_id : option string;
  ev_provider_payment_id : option string;
  ev_payload : json
}.

(** Modelled from the spec: the fields of [Appointment] and [Customer] that
    the payment handlers read or write (their modules are not among the
    sources). *)
Record Appointment : Type := mkAppointment {
  appt_id : UUID;
  appt_tenant_id : UUID;
  appt_customer_id : UUID;
  appt_amount_due : option float;
  appt_currency : option string;
  appt_payment_status : ApptPayStatus
}.

Record Customer : Type := mkCustomer {
  cust_id : UUID;
  cust_tenant_id : UUID;
  cust_full_name : string;
  cust_email : string;
  cust_phone : string
}.

(** The attribute names of class [Payment], as models/payment.py declares
    them. *)
Definition Payment_attributes : list string :=
  ["id"; "tenant_id"; "appointment_id"; "provider"; "provider_order_id";
   "provider_payment_id"; "amount"; "currency"; "status"; "created_at"].

(** The constructor SQLAlchemy gives a declarative class: a keyword that
    names no attribute of the class is a [TypeError]. *)
Definition declarative_constructor (attributes kwargs : list string) : result unit :=
  if forallb (fun k => existsb (String.eqb k) attributes) kwargs
  then Ok tt else Raise TypeError.

(** The widths of the [String] columns of class [Payment]:
    [provider_order_id] and [provider_payment_id] are [String(255)],
    [currency] is [String(10)]. *)
Definition fits_column (width : nat) (v : option string) : bool :=
  match v with
  | None => true
  | Some s => (str_len s <=? width)%nat
  end.

Definition option_string_eqb (a b : option string) : bool :=
  match a, b with
  | None, None => true
  | Some x, Some y => (x =? y)%string
  | _, _ => false
  end.

(** A column is written back when its value differs from the loaded one;
    the database refuses the write when the new value is too long. *)
Definition column_refused (width : nat) (old new : option string) : bool :=
  negb (option_string_eqb old new) && negb (fits_column width new).

(** The UPDATE of a loaded row [old] whose attributes now read [new]. *)
Definition flush_refuses (old new : Payment) : bool :=
  column_refused 255 (Some (pay_provider_order_id old)) (Some (pay_provider_order_id new))
  || column_refused 255 (pay_provider_payment_id old) (pay_provider_payment_id new)
  || column_refused 10 (Some (pay_currency old)) (Some (pay_currency new)).

(** The INSERT of a new row. *)
Definition insert_refused (p : Payment) : bool :=
  negb (fits_column 255 (Some (pay_provider_order_id p))
        && fits_column 255 (pay_provider_payment_id p)
        && fits_column 10 (Some (pay_currency p))).

Definition set_pay_status (s : PaymentStatus) (p : Payment) : Payment :=
  mkPayment (pay_id p) (pay_tenant_id p) (pay_appointment_id p)
            (pay_provider p) (pay_provider_order_id p) (pay_provider_payment_id p)
            (pay_amount p) (pay_currency p) s.

Definition set_pay_provider_payment_id (v : option string) (p : Payment) : Payment :=
  mkPayment (pay_id p) (pay_tenant_id p) (pay_appointment_id p)
            (pay_provider p) (pay_provider_order_id p) v
            (pay_amount p) (pay_currency p) (pay_status p).

Definition set_pay_amount (amount : float) (p : Payment) : Payment :=
  mkPayment (pay_id p) (pay_tenant_id p) (pay_appointment_id p)
            (pay_provider p) (pay_provider_order_id p) (pay_provider_payment_id p)
            amount (pay_currency p) (pay_status p).

Definition set_appt_payment_status (s : ApptPayStatus) (a : Appointment) : Appointment :=
  mkAppointment (appt_id a) (appt_tenant_id a) (appt_customer_id a)
                (appt_amount_due a) (appt_currency a) s.

Definition set_appt_due (amount : float) (currency : string) (a : Appointment) : Appointment :=
  mkAppointment (appt_id a) (appt_tenant_id a) (appt_customer_id a)
                (Some amount) (Some currency) (appt_payment_status a).

Record DB : Type := mkDB {
  payments : list Payment;
  payment_events : list PaymentEvent;
  appointments : list Appointment;
  customers : list Customer
}.

(* ------------------------------------------------------------------ *)
(** ** External collaborators *)

(** What leaves the process during a request, in order. *)
Inductive Call : Type :=
| OrderCreate (data : json)
| PaymentFetch (payment_id : string)
| PaymentRefund (payment_id : string) (data : json)
| ReceiptPdf (receipt_no customer_name : string) (amount : float) (currency : string)
| EmailDelay (to_email subject body attachment : string).

(** Library functions that the sources call and do not define. *)
Record Lib : Type := mkLib {
  (* hmac.new(key, msg, hashlib.sha256).hexdigest() *)
  hmac_sha256_hexdigest : string -> string -> string;
  (* uuid.UUID(s); None stands for ValueError *)
  UUID_parse : string -> option UUID;
  (* what a NUMERIC(10,2) column hands back, as a float, for a float stored
     in it, or the error the database raises for it *)
  numeric_10_2 : float -> result float
}.

(** app/core/config.py [settings] (not among the sources). *)
Record Settings : Type := mkSettings {
  RAZORPAY_KEY_ID : string;
  RAZORPAY_KEY_SECRET : string;
  RAZORPAY_WEBHOOK_SECRET : string
}.

(** The world one request runs against: the provider behind the global
    [client] of app/integration/razorpay_client.py, the PDF renderer behind
    [generate_receipt_pdf], the broker behind [send_booking_email.delay], and
    the value [uuid.uuid4()] yields for a new primary key.  Each call either
    returns or raises.  (The verifier passes the PDF as [attachment=] while
    the task of workers/tasks.py declares [attachment_bytes]; whether the
    enqueue itself rejects that is decided by the Celery application, which
    is not among the sources, so the outcome of the enqueue is the world's.) *)
Record World : Type := mkWorld {
  client_order_create : json -> result json;
  client_payment_fetch : string -> result json;
  client_payment_refund : string -> json -> result json;
  generate_receipt_pdf : string -> string -> float -> string -> result string;
  send_booking_email_delay : string -> string -> string -> string -> result unit;
  uuid4 : UUID
}.

(* ------------------------------------------------------------------ *)
(** ** The request-scoped session (core/deps.py [get_db]) *)

(** Modelled from the spec: [SessionLocal] is built in app/db/session.py,
    which is not among the sources.  The session is taken as the
    spec's section 5 has it, a request-scoped unit of work: the handler's
    assignments stay pending until it flushes or commits.  Whether a query
    sends them first ([autoflush]) is decided in that module; here they are
    sent by [db.flush()] and [db.commit()], so that is where a value the
    database refuses surfaces.  A request that gets to its commit with
    such a value ends in that error with nothing stored, wherever the flush
    happens. *)
Record Session : Type := mkSession {
  stored : DB;       (* what the last commit wrote *)
  work : DB;         (* what the session sees: stored plus pending changes *)
  calls : list Call; (* external calls made so far, oldest first *)
  refused : bool     (* a pending change that the database will refuse *)
}.

Definition M (A : Type) : Type := Session -> result A * Session.

Definition ret {A} (a : A) : M A := fun s => (Ok a, s).

Definition raise {A} (e : Exn) : M A := fun s => (Raise e, s).

Definition bind {A B} (c : M A) (k : A -> M B) : M B :=
  fun s =>
    match c s with
    | (Ok a, s') => k a s'
    | (Raise e, s') => (Raise e, s')
    end.

Definition lift {A} (r : result A) : M A := fun s => (r, s).

(** [try: c except Exception: h] *)
Definition try_except {A} (c : M A) (h : M A) : M A :=
  fun s =>
    match c s with
    | (Ok a, s') => (Ok a, s')
    | (Raise _, s') => h s'
    end.

Declare Scope py_scope.
Delimit Scope py_scope with py.
Notation "x <- c1 ;; c2" := (bind c1 (fun x => c2))
  (at level 61, c1 at next level, right associativity) : py_scope.
Notation "c1 ;; c2" := (bind c1 (fun _ => c2))
  (at level 61, right associativity) : py_scope.
Local Open Scope py_scope.

(** [x or y], where [y] is evaluated only if [x] is falsy. *)
Definition py_or (x : json) (y : M json) : M json :=
  if truthy x then ret x else y.

Definition read {A} (f : DB -> A) : M A := fun s => (Ok (f (work s)), s).

Definition modify (f : DB -> DB) : M unit :=
  fun s => (Ok tt, mkSession (stored s) (f (work s)) (calls s) (refused s)).

Definition log (c : Call) : M unit :=
  fun s => (Ok tt, mkSession (stored s) (work s) (calls s ++ [c]) (refused s)).

(** A pending change that the flush will not get past. *)
Definition pending (b : bool) : M unit :=
  fun s => (Ok tt, mkSession (stored s) (work s) (calls s) (refused s || b)).

(** [db.commit()]: the pending changes are flushed and the transaction is
    committed.  When the database refuses one of them the commit raises and
    nothing is written; the objects keep their attributes. *)
Definition db_commit : M unit :=
  fun s =>
    if refused s then (Raise DataError, s)
    else (Ok tt, mkSession (work s) (work s) (calls s) false).

(** [db.scalar(select(T).where(...))]: the first row passing the filter, in
    the order in which the database serves the rows to this request. *)
Definition scalar_payment (f : Payment -> bool) : M (option Payment) :=
  read (fun db => find f (payments db)).

Definition scalar_event (f : PaymentEvent -> bool) : M (option PaymentEvent) :=
  read (fun db => find f (payment_events db)).

Definition scalar_appointment (f : Appointment -> bool) : M (option Appointment) :=
  read (fun db => find f (appointments db)).

Definition scalar_customer (f : Customer -> bool) : M (option Customer) :=
  read (fun db => find f (customers db)).

(** Attribute assignments on the row loaded as [old], which now reads [p]:
    the session holds one object per primary key, so the row with that key
    takes the new state, and the UPDATE it needs is pending. *)
Definition save_payment (old p : Payment) : M unit :=
  modify (fun db =>
    mkDB (map (fun q => if (pay_id q =? pay_id p)%string then p else q) (payments db))
         (payment_events db) (appointments db) (customers db)) ;;
  pending (flush_refuses old p).

Definition save_appointment (a : Appointment) : M unit :=
  modify (fun db =>
    mkDB (payments db) (payment_events db)
         (map (fun b => if (appt_id b =? appt_id a)%string then a else b) (appointments db))
         (customers db)).

(** [db.add(PaymentEvent(...))] *)
Definition add_event (e : PaymentEvent) : M unit :=
  modify (fun db =>
    mkDB (payments db) (payment_events db ++ [e]) (appointments db) (customers db)).

(** [db.flush()] *)
Definition db_flush : M unit :=
  fun s => if refused s then (Raise DataError, s) else (Ok tt, s).

(** [db.add(pay); db.flush()]: what is pending is flushed and the row is
    inserted; the insert fails on a primary key that is already taken and on
    a value that does not fit its column.  The row holds the amount as the
    NUMERIC(10,2) column keeps it. *)
Definition add_payment (L : Lib) (p : Payment) : M unit :=
  db_flush ;;
  taken <- read (fun db => existsb (fun q => (pay_id q =? pay_id p)%string) (payments db)) ;;
  if taken then raise StatementError else
  if insert_refused p then raise DataError else
  amount <- lift (numeric_10_2 L (pay_amount p)) ;;
  modify (fun db =>
    mkDB (payments db ++ [set_pay_amount amount p]) (payment_events db)
         (appointments db) (customers db)).

(** [db.refresh(pay)]: the row is read again by its primary key. *)
Definition db_refresh (p : Payment) : M Payment :=
  row <- read (fun db => find (fun q => (pay_id q =? pay_id p)%string) (payments db)) ;;
  match row with
  | Some q => ret q
  | None => raise StatementError
  end.

(** One request: [get_db] opens a session on the database, the handler runs,
    and the session is closed whether or not the handler raised.  What the
    database holds afterwards is what was last committed. *)
Definition open_session (db : DB) : Session := mkSession db db [] false.

Definition run {A} (h : M A) (db : DB) : result A * Session := h (open_session db).

Definition response {A} (h : M A) (db : DB) : result A := fst (run h db).

Definition persisted {A} (h : M A) (db : DB) : DB := stored (snd (run h db)).

Definition sent {A} (h : M A) (db : DB) : list Call := calls (snd (run h db)).

(* ------------------------------------------------------------------ *)
(** ** integration/razorpay.py *)

Definition verify_razorpay_webhook_signature (L : Lib)
    (raw_body signature webhook_secret : string) : result bool :=
  let digest := hmac_sha256_hexdigest L webhook_secret raw_body in
  compare_digest digest signature.

Definition verify_razorpay_checkout_signature (L : Lib)
    (order_id payment_id signature key_secret : string) : result bool :=
  let msg := order_id ++ "|" ++ payment_id in
  let expected := hmac_sha256_hexdigest L key_secret msg in
  compare_digest expected signature.

(** [uuid.UUID(v)]: a [str] is parsed ([ValueError] if it is no UUID), [None]
    is a [TypeError], and anything else has no [replace]. *)
Definition py_UUID (L : Lib) (v : json) : result UUID :=
  match v with
  | JStr s => match UUID_parse L s with Some u => Ok u | None => Raise ValueError end
  | JNull => Raise TypeError
  | _ => Raise AttributeError
  end.

(* ------------------------------------------------------------------ *)
(** ** api/v1/payments.py: POST /payments/razorpay/order *)

Record CreateRazorpayOrderIn : Type := mkCreateRazorpayOrderIn {
  co_appointment_id : UUID;
  co_amount : float;
  co_currency : string
}.

Definition order_request (tenant_id appt_id : UUID) (amount_paisa : Z) (currency : string) : json :=
  JDict [("amount", JInt amount_paisa);
         ("currency", JStr currency);
         ("receipt", JStr ("appt_" ++ appt_id));
         ("notes", JDict [("tenant_id", JStr tenant_id); ("appointment_id", JStr appt_id)])].

Definition order_created_event (tenant_id : UUID) (provider_order_id : string) (order : json)
    : PaymentEvent :=
  mkPaymentEvent tenant_id RAZORPAY "order.created"
                 (Some provider_order_id) (Some provider_order_id) None order.

(** The keywords of the call [Payment(...)] of lines 60-69. *)
Definition order_payment_kwargs : list string :=
  ["tenant_id"; "appointment_id"; "customer_id"; "provider"; "status";
   "amount"; "currency"; "provider_order_id"].

Definition create_razorpay_order (L : Lib) (cfg : Settings) (W : World)
    (body : CreateRazorpayOrderIn) (payload : json) : M json :=
  tenant_id_str <- lift (py_get payload "tenant_id" JNull) ;;
  if negb (truthy tenant_id_str) then raise (HTTPException 400 "Missing tenant_id in token") else
  tenant_id <- match py_UUID L tenant_id_str with
               | Raise ValueError => raise (HTTPException 400 "Invalid tenant_id format")
               | r => lift r
               end ;;
  let appt_id' := co_appointment_id body in
  appt <- scalar_appointment
            (fun a => (appt_tenant_id a =? tenant_id)%string && (appt_id a =? appt_id')%string) ;;
  match appt with
  | None => raise (HTTPException 404 "Appointment not found")
  | Some appt =>
      let appt := set_appt_payment_status UNPAID
                    (set_appt_due (co_amount body) (co_currency body) appt) in
      save_appointment appt ;;
      amount_paisa <- lift (py_round (float_mul (co_amount body) (float_of_Z 100))) ;;
      let data := order_request tenant_id appt_id' amount_paisa (co_currency body) in
      log (OrderCreate data) ;;
      order <- lift (client_order_create W data) ;;
      provider_order_id <- lift (py_getitem order "id") ;;
      customer <- scalar_customer
                    (fun c => (cust_tenant_id c =? tenant_id)%string
                              && (cust_id c =? appt_customer_id appt)%string) ;;
      lift (declarative_constructor Payment_attributes order_payment_kwargs) ;;
      oid <- lift (bind_str provider_order_id) ;;
      let pay := mkPayment (uuid4 W) tenant_id (appt_id appt)
                           RAZORPAY oid None (co_amount body) (co_currency body) CREATED in
      add_payment L pay ;;
      add_event (order_created_event tenant_id oid order) ;;
      db_commit ;;
      pay <- db_refresh pay ;;
      ret (JDict [("success", JBool true);
                  ("data", JDict [
                     ("payment_id", JStr (pay_id pay));
                     ("provider", JStr (PaymentProvider_value (pay_provider pay)));
                     ("provider_order_id", JStr (pay_provider_order_id pay));
                     ("amount", JFloat (pay_amount pay));
                     ("currency", JStr (pay_currency pay));
                     ("razorpay_key_id", JStr (RAZORPAY_KEY_ID cfg));
                     ("customer", JDict [
                        ("name", JStr (match customer with Some c => cust_full_name c | None => "" end));
                        ("email", JStr (match customer with Some c => cust_email c | None => "" end));
                        ("phone", JStr (match customer with Some c => cust_phone c | None => "" end))])])])
  end.

(* ------------------------------------------------------------------ *)
(** ** api/v1/payments.py: POST /payments/razorpay/webhook *)

(** The parts of the request the handler reads.  The body is taken to parse
    as JSON; [wh_json] is the parsed document. *)
Record WebhookRequest : Type := mkWebhookRequest {
  wh_raw : string;                 (* await request.body() *)
  wh_signature : option string;    (* the X-Razorpay-Signature header *)
  wh_json : json                   (* await request.json() *)
}.

(** [payload_json.get("payload", {}).get(kind, {}).get("entity", {}).get("id")] *)
Definition entity_id (payload_json : json) (kind : string) : result json :=
  (a <- py_get payload_json "payload" (JDict []) ;;
   b <- py_get a kind (JDict []) ;;
   c <- py_get b "entity" (JDict []) ;;
   py_get c "id" JNull)%res.

Definition or_empty (v : json) : json := if truthy v then v else JDict [].

(** [((payload_json.get("payload") or {}).get(kind) or {}).get("entity") or {}] *)
Definition safe_entity (payload_json : json) (kind : string) : result json :=
  (a <- py_get payload_json "payload" JNull ;;
   b <- py_get (or_empty a) kind JNull ;;
   c <- py_get (or_empty b) "entity" JNull ;;
   Ok (or_empty c))%res.

(** [x or y]: [y] is evaluated, and may raise, only if [x] is falsy. *)
Definition r_or (x : json) (y : result json) : result json :=
  if truthy x then Ok x else y.

(** The fields the webhook reads off the envelope (lines 115-151). *)
Record Envelope : Type := mkEnvelope {
  env_event_type : json;
  env_event_id : json;
  env_provider_order_id : json;
  env_provider_payment_id : json;
  env_status : json;
  env_tenant_id_str : json
}.

Definition extract_envelope (payload_json : json) : result Envelope :=
  (event_type <- py_get payload_json "event" (JStr "") ;;
   event_id <- entity_id payload_json "payment" ;;
   event_id <- (if negb (truthy event_id) then entity_id payload_json "order"
                else Ok event_id) ;;
   event_id <- (if negb (truthy event_id) then entity_id payload_json "refund"
                else Ok event_id) ;;
   payment_entity <- safe_entity payload_json "payment" ;;
   order_entity <- safe_entity payload_json "order" ;;
   refund_entity <- safe_entity payload_json "refund" ;;
   x <- py_get payment_entity "order_id" JNull ;;
   provider_order_id <-
     r_or x (y <- py_get order_entity "id" JNull ;;
             r_or y (z <- py_get refund_entity "order_id" JNull ;;
                     r_or z (Ok (JStr "")))) ;;
   x <- py_get payment_entity "id" JNull ;;
   provider_payment_id <-
     r_or x (y <- py_get refund_entity "payment_id" JNull ;;
             r_or y (Ok (JStr ""))) ;;
   x <- py_get payment_entity "status" JNull ;;
   status <-
     r_or x (y <- py_get order_entity "status" JNull ;;
             r_or y (z <- py_get refund_entity "status" JNull ;;
                     r_or z (Ok (JStr "")))) ;;
   x <- py_get payment_entity "notes" JNull ;;
   notes <- r_or x (y <- py_get order_entity "notes" JNull ;;
                    r_or y (Ok (JDict []))) ;;
   tenant_id_str <- py_get notes "tenant_id" JNull ;;
   Ok (mkEnvelope event_type event_id provider_order_id provider_payment_id
                  status tenant_id_str))%res.

(** Lines 153-166: the lookup by tenant hint, then the fallback by order id. *)
Definition resolve_payment (L : Lib) (tenant_id_str provider_order_id : json)
    : M (option Payment) :=
  pay <- (if truthy tenant_id_str && truthy provider_order_id then
            try_except
              (tenant_uuid <- lift (py_UUID L tenant_id_str) ;;
               oid <- lift (bind_str provider_order_id) ;;
               scalar_payment (fun p => (pay_tenant_id p =? tenant_uuid)%string
                                        && (pay_provider_order_id p =? oid)%string))
              (ret None)
          else ret None) ;;
  match pay with
  | Some _ => ret pay
  | None =>
      if truthy provider_order_id then
        oid <- lift (bind_str provider_order_id) ;;
        scalar_payment (fun p => (pay_provider_order_id p =? oid)%string)
      else ret None
  end.

Definition success : json := JDict [("success", JBool true)].

(** [v or None] bound to a nullable [String] column. *)
Definition or_none (v : json) : result (option string) :=
  if truthy v then
    match bind_str v with Ok s => Ok (Some s) | Raise e => Raise e end
  else Ok None.

Definition webhook_status (status : json) (pay : Payment) : Payment :=
  if json_eq_str status "authorized" then set_pay_status AUTHORIZED pay
  else if json_eq_str status "captured" then set_pay_status CAPTURED pay
  else if json_eq_str status "failed" then set_pay_status FAILED pay
  else if json_eq_str status "refunded" then set_pay_status REFUNDED pay
  else pay.

(** Lines 172-181: the idempotency check. *)
Definition idempotency_check (pay : Payment) (event_id : json) : M (option PaymentEvent) :=
  if truthy event_id then
    eid <- lift (bind_str event_id) ;;
    scalar_event (fun e => (ev_tenant_id e =? pay_tenant_id pay)%string
                           && match ev_provider_event_id e with
                              | Some x => (x =? eid)%string
                              | None => false
                              end)
  else ret None.

(** Lines 184-192: the [PaymentEvent] the webhook stores. *)
Definition webhook_event (pay : Payment) (env : Envelope) (payload_json : json)
    : result PaymentEvent :=
  (event_type <- bind_str (if truthy (env_event_type env)
                           then env_event_type env else JStr "unknown") ;;
   event_id <- bind_str_opt (env_event_id env) ;;
   order_id <- or_none (env_provider_order_id env) ;;
   payment_id <- or_none (env_provider_payment_id env) ;;
   Ok (mkPaymentEvent (pay_tenant_id pay) RAZORPAY event_type
                      event_id order_id payment_id payload_json))%res.

(** Lines 205-206. *)
Definition webhook_payment_id (env : Envelope) (e : PaymentEvent) (pay : Payment) : Payment :=
  if truthy (env_provider_payment_id env)
  then set_pay_provider_payment_id (ev_provider_payment_id e) pay
  else pay.

(** Lines 209-216. *)
Definition webhook_appointment (pay : Payment) : M unit :=
  appt <- scalar_appointment (fun a => (appt_id a =? pay_appointment_id pay)%string) ;;
  match appt with
  | Some appt =>
      match pay_status pay with
      | CAPTURED => save_appointment (set_appt_payment_status PAID appt)
      | FAILED => save_appointment (set_appt_payment_status APPT_FAILED appt)
      | REFUNDED => save_appointment (set_appt_payment_status APPT_REFUNDED appt)
      | _ => ret tt
      end
  | None => ret tt
  end.

Definition razorpay_webhook (L : Lib) (cfg : Settings) (req : WebhookRequest) : M json :=
  let sig := match wh_signature req with Some s => s | None => "" end in
  if (sig =? "")%string then raise (HTTPException 400 "Missing signature") else
  ok <- lift (verify_razorpay_webhook_signature L (wh_raw req) sig
                (RAZORPAY_WEBHOOK_SECRET cfg)) ;;
  if negb ok then raise (HTTPException 400 "Invalid webhook signature") else
  env <- lift (extract_envelope (wh_json req)) ;;
  pay <- resolve_payment L (env_tenant_id_str env) (env_provider_order_id env) ;;
  match pay with
  | None => ret success
  | Some pay =>
      existing <- idempotency_check pay (env_event_id env) ;;
      match existing with
      | Some _ => ret success
      | None =>
          e <- lift (webhook_event pay env (wh_json req)) ;;
          add_event e ;;
          let loaded := pay in
          let pay := webhook_status (env_status env) pay in
          save_payment loaded pay ;;
          let pay := webhook_payment_id env e pay in
          save_payment loaded pay ;;
          webhook_appointment pay ;;
          db_commit ;;
          ret success
      end
  end.

(* ------------------------------------------------------------------ *)
(** ** api/v1/payments.py: POST /payments/razorpay/verify *)

Record RazorpayVerifyIn : Type := mkRazorpayVerifyIn {
  v_payment_id : UUID;
  v_razorpay_order_id : string;
  v_razorpay_payment_id : string;
  v_razorpay_signature : string
}.

Definition verify_status (rp_status : json) (pay : Payment) : Payment :=
  if json_eq_str rp_status "captured" then set_pay_status CAPTURED pay
  else if json_eq_str rp_status "authorized" then set_pay_status AUTHORIZED pay
  else if json_eq_str rp_status "failed" then set_pay_status FAILED pay
  else pay.

Definition checkout_verified_event (tenant_id : UUID) (body : RazorpayVerifyIn)
    (rp_payment : json) : PaymentEvent :=
  mkPaymentEvent tenant_id RAZORPAY "checkout.verified" None
                 (Some (v_razorpay_order_id body)) (Some (v_razorpay_payment_id body))
                 (JDict [("razorpay_payment", rp_payment)]).

Definition verify_response (pay : Payment) : json :=
  JDict [("success", JBool true);
         ("payment_status", JStr (PaymentStatus_value (pay_status pay)))].

Definition razorpay_verify (L : Lib) (cfg : Settings) (W : World)
    (body : RazorpayVerifyIn) (payload : json) : M json :=
  t <- lift (py_getitem payload "tenant_id") ;;
  tenant_id <- lift (py_UUID L t) ;;
  pay <- scalar_payment (fun p => (pay_id p =? v_payment_id body)%string
                                  && (pay_tenant_id p =? tenant_id)%string) ;;
  match pay with
  | None => raise (HTTPException 404 "Payment not found")
  | Some pay =>
      if negb (pay_provider_order_id pay =? v_razorpay_order_id body)%string
      then raise (HTTPException 400 "Order ID mismatch") else
      ok <- lift (verify_razorpay_checkout_signature L
                    (v_razorpay_order_id body) (v_razorpay_payment_id body)
                    (v_razorpay_signature body) (RAZORPAY_KEY_SECRET cfg)) ;;
      if negb ok then raise (HTTPException 400 "Invalid signature") else
      log (PaymentFetch (v_razorpay_payment_id body)) ;;
      rp_payment <- lift (client_payment_fetch W (v_razorpay_payment_id body)) ;;
      rp_status <- lift (py_get rp_payment "status" (JStr "")) ;;
      let loaded := pay in
      let pay := set_pay_provider_payment_id (Some (v_razorpay_payment_id body)) pay in
      save_payment loaded pay ;;
      let pay := verify_status rp_status pay in
      save_payment loaded pay ;;
      appt <- scalar_appointment
                (fun a => (appt_id a =? pay_appointment_id pay)%string
                          && (appt_tenant_id a =? tenant_id)%string) ;;
      match appt with
      | Some appt =>
          match pay_status pay with
          | CAPTURED =>
              save_appointment (set_appt_payment_status PAID appt) ;;
              log (ReceiptPdf (pay_id pay) "Customer" (pay_amount pay) (pay_currency pay)) ;;
              pdf_bytes <- lift (generate_receipt_pdf W (pay_id pay) "Customer"
                                   (pay_amount pay) (pay_currency pay)) ;;
              log (EmailDelay "customer@email.com" "Payment Receipt"
                              "Your payment was successful." pdf_bytes) ;;
              lift (send_booking_email_delay W "customer@email.com" "Payment Receipt"
                      "Your payment was successful." pdf_bytes) ;;
              add_event (checkout_verified_event tenant_id body rp_payment) ;;
              db_commit
          | FAILED => save_appointment (set_appt_payment_status APPT_FAILED appt)
          | _ => ret tt
          end
      | None => ret tt
      end ;;
      ret (verify_response pay)
  end.

(* ------------------------------------------------------------------ *)
(** ** api/v1/payments.py: POST /payments/razorpay/refund *)

Record RefundIn : Type := mkRefundIn {
  r_payment_id : UUID;
  r_amount : option float     (* None: full refund *)
}.

Definition refund_created_event (tenant_id : UUID) (pay : Payment)
    (refund_id : option string) (refund : json) : PaymentEvent :=
  mkPaymentEvent tenant_id RAZORPAY "refund.created" refund_id
                 (Some (pay_provider_order_id pay)) (pay_provider_payment_id pay) refund.

(** Lines 320-324: the body of the provider's refund call. *)
Definition refund_request (amount : option float) : result json :=
  match amount with
  | None => Ok (JDict [])
  | Some amount =>
      if float_leb amount (S754_zero false)
      then Raise (HTTPException 400 "Refund amount must be > 0")
      else (n <- py_round (float_mul amount (float_of_Z 100)) ;;
            Ok (JDict [("amount", JInt n)]))%res
  end.

Definition razorpay_refund (L : Lib) (cfg : Settings) (W : World)
    (body : RefundIn) (payload : json) : M json :=
  t <- lift (py_getitem payload "tenant_id") ;;
  tenant_id <- lift (py_UUID L t) ;;
  pay <- scalar_payment (fun p => (pay_id p =? r_payment_id body)%string
                                  && (pay_tenant_id p =? tenant_id)%string) ;;
  match pay with
  | None => raise (HTTPException 404 "Payment not found")
  | Some pay =>
      if negb (PaymentProvider_eqb (pay_provider pay) RAZORPAY)
      then raise (HTTPException 400 "Not a Razorpay payment") else
      match pay_provider_payment_id pay with
      | None => raise (HTTPException 400 "Payment not captured / missing provider_payment_id")
      | Some "" => raise (HTTPException 400 "Payment not captured / missing provider_payment_id")
      | Some provider_payment_id =>
          refund_payload <- lift (refund_request (r_amount body)) ;;
          log (PaymentRefund provider_payment_id refund_payload) ;;
          refund <- lift (client_payment_refund W provider_payment_id refund_payload) ;;
          let loaded := pay in
          let pay := set_pay_status REFUNDED pay in
          save_payment loaded pay ;;
          appt <- scalar_appointment
                    (fun a => (appt_id a =? pay_appointment_id pay)%string
                              && (appt_tenant_id a =? tenant_id)%string) ;;
          match appt with
          | Some appt => save_appointment (set_appt_payment_status APPT_REFUNDED appt)
          | None => ret tt
          end ;;
          refund_id <- lift (py_get refund "id" JNull) ;;
          refund_id <- lift (bind_str_opt refund_id) ;;
          add_event (refund_created_event tenant_id pay refund_id refund) ;;
          db_commit ;;
          ret (JDict [("success", JBool true); ("refund", refund)])
      end
  end.

(* ------------------------------------------------------------------ *)
(** ** The service as a transition system *)

Inductive Request : Type :=
| ReqOrder (W : World) (body : CreateRazorpayOrderIn) (payload : json)
| ReqWebhook (req : WebhookRequest)
| ReqVerify (W : World) (body : RazorpayVerifyIn) (payload : json)
| ReqRefund (W : World) (body : RefundIn) (payload : json).

Definition handle (L : Lib) (cfg : Settings) (r : Request) : M json :=
  match r with
  | ReqOrder W body payload => create_razorpay_order L cfg W body payload
  | ReqWebhook req => razorpay_webhook L cfg req
  | ReqVerify W body payload => razorpay_verify L cfg W body payload
  | ReqRefund W body payload => razorpay_refund L cfg W body payload
  end.

(** The database after a request has been served and its session closed. *)
Definition step (L : Lib) (cfg : Settings) (r : Request) (db : DB) : DB :=
  persisted (handle L cfg r) db.

Definition steps (L : Lib) (cfg : Settings) (rs : list Request) (db : DB) : DB :=
  fold_left (fun d r => step L cfg r d) rs db.

(** The ledger holds, under the tenant, an event with this
    [provider_event_id]. *)
Definition has_event (db : DB) (tenant_id : UUID) (event_id : string) : Prop :=
  exists e, In e (payment_events db)
            /\ ev_tenant_id e = tenant_id
            /\ ev_provider_event_id e = Some event_id.

(** The webhook request passes the two signature gates (lines 108-113). *)
Definition authenticated (L : Lib) (cfg : Settings) (req : WebhookRequest) : Prop :=
  exists sig, wh_signature req = Some sig
              /\ sig <> ""
              /\ verify_razorpay_webhook_signature L (wh_raw req) sig
                   (RAZORPAY_WEBHOOK_SECRET cfg) = Ok true.

Definition row_status (db : DB) (id : UUID) : option PaymentStatus :=
  option_map pay_status (find (fun p => (pay_id p =? id)%string) (payments db)).

Definition row_provider_payment_id (db : DB) (id : UUID) : option (option string) :=
  option_map pay_provider_payment_id
             (find (fun p => (pay_id p =? id)%string) (payments db)).

Definition row_appt_status (db : DB) (id : UUID) : option ApptPayStatus :=
  option_map appt_payment_status
             (find (fun a => (appt_id a =? id)%string) (appointments db)).

Definition event_types (db : DB) : list string :=
  map ev_event_type (payment_events db).

(** [replace_payment p] is what [save_payment] does to the table. *)
Definition replace_payment (p : Payment) (l : list Payment) : list Payment :=
  map (fun q => if (pay_id q =? pay_id p)%string then p else q) l.

(** The token payload carries the tenant (lines 229 and 304). *)
Definition token_tenant (L : Lib) (payload : json) (tenant_id : UUID) : Prop :=
  exists t, py_getitem payload "tenant_id" = Ok t /\ py_UUID L t = Ok tenant_id.

(** The payment row the verifier and the refund load (lines 231 and 310). *)
Definition load_payment (db : DB) (id tenant_id : UUID) : option Payment :=
  find (fun p => (pay_id p =? id)%string && (pay_tenant_id p =? tenant_id)%string)
       (payments db).

(** The appointment row they load (lines 258 and 332). *)
Definition load_appointment (db : DB) (id tenant_id : UUID) : option Appointment :=
  find (fun a => (appt_id a =? id)%string && (appt_tenant_id a =? tenant_id)%string)
       (appointments db).

(** [replace_appointment a] is what [save_appointment a] does to the table. *)
Definition replace_appointment (a : Appointment) (l : list Appointment) : list Appointment :=
  map (fun b => if (appt_id b =? appt_id a)%string then a else b) l.

(** A verification call that gets past every check of lines 229-248: the
    payment is found, the order id matches, the signature verifies, and the
    provider returns [rp_payment], whose status is [rp_status]. *)
Definition verify_accepted (L : Lib) (cfg : Settings) (W : World)
    (body : RazorpayVerifyIn) (payload : json) (db : DB)
    (tenant_id : UUID) (pay : Payment) (rp_payment rp_status : json) : Prop :=
  token_tenant L payload tenant_id
  /\ load_payment db (v_payment_id body) tenant_id = Some pay
  /\ pay_provider_order_id pay = v_razorpay_order_id body
  /\ verify_razorpay_checkout_signature L (v_razorpay_order_id body)
       (v_razorpay_payment_id body) (v_razorpay_signature body)
       (RAZORPAY_KEY_SECRET cfg) = Ok true
  /\ client_payment_fetch W (v_razorpay_payment_id body) = Ok rp_payment
  /\ py_get rp_payment "status" (JStr "") = Ok rp_status.

(** The payment object after lines 250-256. *)
Definition verified_payment (body : RazorpayVerifyIn) (rp_status : json) (pay : Payment)
    : Payment :=
  verify_status rp_status
    (set_pay_provider_payment_id (Some (v_razorpay_payment_id body)) pay).

(** A refund call that gets past every check of lines 304-327: the payment
    is a Razorpay payment with a non-empty [provider_payment_id], the amount
    is absent or positive, and the provider returns [refund]. *)
Definition refund_accepted (L : Lib) (W : World) (body : RefundIn) (payload : json)
    (db : DB) (tenant_id : UUID) (pay : Payment) (pid : string)
    (data refund : json) (refund_id : option string) : Prop :=
  token_tenant L payload tenant_id
  /\ load_payment db (r_payment_id body) tenant_id = Some pay
  /\ pay_provider pay = RAZORPAY
  /\ pay_provider_payment_id pay = Some pid
  /\ pid <> ""
  /\ refund_request (r_amount body) = Ok data
  /\ client_payment_refund W pid data = Ok refund
  /\ exists i, py_get refund "id" JNull = Ok i /\ bind_str_opt i = Ok refund_id.

(** An envelope that contains an order entity with a non-empty id [oid] and
    neither a payment nor a refund entity; the entity's [notes], if any, is
    falsy or a dict (Razorpay sends [[]] for no notes). *)
Definition order_only_envelope (payload_json : json) (oid : string) : Prop :=
  exists top pl o ent,
    payload_json = JDict top
    /\ assoc "payload" top = Some (JDict pl)
    /\ assoc "payment" pl = None
    /\ assoc "refund" pl = None
    /\ assoc "order" pl = Some (JDict o)
    /\ assoc "entity" o = Some (JDict ent)
    /\ assoc "id" ent = Some (JStr oid)
    /\ oid <> ""
    /\ match assoc "notes" ent with
       | None => True
       | Some n => truthy n = false \/ exists kv, n = JDict kv
       end.

(* ------------------------------------------------------------------ *)
(** ** The specification's words, for comparison with the code *)

(** Section 4.2: the edges of the state graph. *)
Definition spec_edge (from to : PaymentStatus) : bool :=
  match from, to with
  | CREATED, AUTHORIZED | CREATED, CAPTURED | CREATED, FAILED => true
  | AUTHORIZED, CAPTURED | AUTHORIZED, FAILED => true
  | CAPTURED, REFUNDED => true
  | _, _ => false
  end.

Definition all_statuses : list PaymentStatus :=
  [CREATED; AUTHORIZED; CAPTURED; FAILED; REFUNDED].

(** Reachability along one or more edges (the graph has no path longer
    than three edges). *)
Definition spec_reachable (from to : PaymentStatus) : bool :=
  spec_edge from to
  || existsb (fun a => spec_edge from a
                       && (spec_edge a to
                           || existsb (fun b => spec_edge a b && spec_edge b to)
                                      all_statuses))
             all_statuses.

(** Section 4.4, step 5: the status a provider status string proposes. *)
Definition spec_webhook_proposal (status : json) : option PaymentStatus :=
  if json_eq_str status "authorized" then Some AUTHORIZED
  else if json_eq_str status "captured" then Some CAPTURED
  else if json_eq_str status "failed" then Some FAILED
  else if json_eq_str status "refunded" then Some REFUNDED
  else None.

(** Section 4.5: the subset the checkout verifier maps. *)
Definition spec_verify_proposal (status : json) : option PaymentStatus :=
  if json_eq_str status "captured" then Some CAPTURED
  else if json_eq_str status "authorized" then Some AUTHORIZED
  else if json_eq_str status "failed" then Some FAILED
  else None.

(** A proposal applied without a guard. *)
Definition overwrite (proposal : option PaymentStatus) (current : PaymentStatus)
    : PaymentStatus :=
  match proposal with
  | Some s => s
  | None => current
  end.

(* ------------------------------------------------------------------ *)
(** ** Further notions used by the properties of the endpoints *)

(** An order request that gets as far as the provider (lines 28-55): the
    token names a tenant, the appointment belongs to it, and the amount
    converts to [n] paisa. *)
Definition order_reaches_provider (L : Lib) (body : CreateRazorpayOrderIn)
    (payload : json) (db : DB) (tenant_id : UUID) (a : Appointment) (n : Z) : Prop :=
  (exists ts, py_get payload "tenant_id" JNull = Ok ts
              /\ truthy ts = true
              /\ py_UUID L ts = Ok tenant_id)
  /\ find (fun a => (appt_tenant_id a =? tenant_id)%string
                    && (appt_id a =? co_appointment_id body)%string)
          (appointments db) = Some a
  /\ rupees_to_paisa (co_amount body) = Ok n.

(** A refund request that gets as far as the provider (lines 304-327) with
    a partial amount of [n] paisa. *)
Definition refund_reaches_provider (L : Lib) (body : RefundIn) (payload : json) (db : DB)
    (tenant_id : UUID) (pay : Payment) (pid : string) (amount : float) (n : Z) : Prop :=
  token_tenant L payload tenant_id
  /\ load_payment db (r_payment_id body) tenant_id = Some pay
  /\ pay_provider pay = RAZORPAY
  /\ pay_provider_payment_id pay = Some pid
  /\ pid <> ""
  /\ r_amount body = Some amount
  /\ float_leb amount (S754_zero false) = false
  /\ rupees_to_paisa amount = Ok n.

(** What no handler changes in a payment row. *)
Definition same_identity (p p' : Payment) : Prop :=
  pay_id p' = pay_id p
  /\ pay_tenant_id p' = pay_tenant_id p
  /\ pay_appointment_id p' = pay_appointment_id p
  /\ pay_provider p' = pay_provider p
  /\ pay_provider_order_id p' = pay_provider_order_id p
  /\ pay_amount p' = pay_amount p
  /\ pay_currency p' = pay_currency p.

(** Lines 211-216: the appointment status a payment status is mirrored to. *)
Definition mirrored (s : PaymentStatus) : option ApptPayStatus :=
  match s with
  | CAPTURED => Some PAID
  | FAILED => Some APPT_FAILED
  | REFUNDED => Some APPT_REFUNDED
  | _ => None
  end.

Definition is_dict (v : json) : bool :=
  match v with JDict _ => true | _ => false end.

(** The chain [payload] / [payment] / [entity] of line 117 holds a value
    that is present and is no dict (a JSON [null], say). *)
Definition broken_payment_chain (top : list (string * json)) : Prop :=
  exists v, is_dict v = false
    /\ (assoc "payload" top = Some v
        \/ exists pl, assoc "payload" top = Some (JDict pl)
             /\ (assoc "payment" pl = Some v
                 \/ exists pm, assoc "payment" pl = Some (JDict pm)
                      /\ assoc "entity" pm = Some v)).

(* ------------------------------------------------------------------ *)
(** ** core/deps.py *)

(** [decode_token] of app.core.security, which the sources call and do not
    define: it returns the claims of a token or raises. *)
Record Security : Type := mkSecurity {
  decode_token : string -> result json
}.

(** [get_token_payload]: only [ValueError] is caught. *)
Definition get_token_payload (S : Security) (token : string) : result json :=
  match decode_token S token with
  | Raise ValueError => Raise (HTTPException 401 "Invalid token")
  | Raise e => Raise e
  | Ok payload =>
      (t <- py_get payload "type" JNull ;;
       if negb (json_eq_str t "access")
       then Raise (HTTPException 401 "Access token required")
       else Ok payload)%res
  end.

(** [role in allowed] for a tuple of [str]. *)
Definition py_in (v : json) (allowed : list string) : bool :=
  existsb (json_eq_str v) allowed.

(** [require_roles] returns the guard [_guard] for the roles given; the
    guard's argument is what [get_token_payload] returned. *)
Definition require_roles (allowed : list string) (payload : json) : result json :=
  (role <- py_get payload "role" JNull ;;
   if negb (py_in role allowed) then Raise (HTTPException 403 "Forbidden")
   else Ok payload)%res.

(** The guard together with the dependency it declares. *)
Definition role_guard (S : Security) (allowed : list string) (token : string) : result json :=
  (payload <- get_token_payload S token ;; require_roles allowed payload)%res.

(** Modelled from the spec: the two columns of [Branch] that [get_branch_id]
    filters on (app.models.branch is not among the sources). *)
Record Branch : Type := mkBranch {
  branch_id : UUID;
  branch_tenant_id : UUID
}.

(** [get_branch_id]; [branches] is the table the session reads. *)
Definition get_branch_id (L : Lib) (branches : list Branch)
    (x_branch_id : string) (payload : json) : result UUID :=
  (t <- py_getitem payload "tenant_id" ;;
   tenant_id <- py_UUID L t ;;
   bid <- match py_UUID L (JStr x_branch_id) with
          | Raise ValueError => Raise (HTTPException 400 "Invalid X-Branch-Id")
          | r => r
          end ;;
   match find (fun b => (branch_id b =? bid)%string
                        && (branch_tenant_id b =? tenant_id)%string) branches with
   | None => Raise (HTTPException 403 "Branch not found for tenant")
   | Some _ => Ok bid
   end)%res.

(** A handler behind [Depends(get_token_payload)]: the dependency is resolved
    before the handler is called. *)
Definition with_token (S : Security) (token : string) (h : json -> M json) : M json :=
  payload <- lift (get_token_payload S token) ;;
  h payload.

(* ------------------------------------------------------------------ *)
(** ** middlewares/rate_limit.py *)

Record RateLimitRule : Type := mkRateLimitRule {
  window_sec : Z;
  max_requests : Z
}.

(** What [dispatch] reads off the request: [request.client.host] ([None] when
    there is no client) and [request.url.path]. *)
Record HttpRequest : Type := mkHttpRequest {
  client_host : option string;
  url_path : string
}.

(** A response: the status, the JSON content and the headers given to
    [JSONResponse]. *)
Record Response : Type := mkResponse {
  status_code : Z;
  content : json;
  headers : list (string * string)
}.

(** [self.buckets], a [defaultdict(deque)]: keys in insertion order, each
    with its timestamps, oldest first. *)
Definition Buckets : Type := list (string * list float).

Record RateLimitMiddleware : Type := mkRateLimitMiddleware {
  rule : RateLimitRule;
  key_prefix : string;
  buckets : Buckets
}.

(** [RateLimitMiddleware(app, rule, key_prefix)] *)
Definition new_middleware (rule : RateLimitRule) (key_prefix : string) : RateLimitMiddleware :=
  mkRateLimitMiddleware rule key_prefix [].

Fixpoint bucket (b : Buckets) (key : string) : list float :=
  match b with
  | [] => []
  | (k, q) :: rest => if (key =? k)%string then q else bucket rest key
  end.

(** The deque under [key] after the request; reading a missing key of a
    [defaultdict] inserts it. *)
Fixpoint set_bucket (b : Buckets) (key : string) (q : list float) : Buckets :=
  match b with
  | [] => [(key, q)]
  | (k, q0) :: rest =>
      if (key =? k)%string then (k, q) :: rest else (k, q0) :: set_bucket rest key q
  end.

(** [request.client.host if request.client else "unknown"] *)
Definition client_ip (request : HttpRequest) : string :=
  match client_host request with Some h => h | None => "unknown" end.

Definition _key (self : RateLimitMiddleware) (request : HttpRequest) : string :=
  let ip := client_ip request in
  let path := url_path request in
  key_prefix self ++ ":" ++ ip ++ ":" ++ path.

(** A request as a server hands it over: the host is an address, which holds
    no slash, and the path begins with one. *)
Definition no_slash (s : string) : bool :=
  forallb (fun c => negb (Ascii.eqb c "/")) (list_ascii_of_string s).

Definition well_formed (request : HttpRequest) : Prop :=
  no_slash (client_ip request) = true
  /\ exists rest, url_path request = String "/" rest.

(** [while q and q[0] < window_start: q.popleft()] *)
Fixpoint popleft_expired (window_start : float) (q : list float) : list float :=
  match q with
  | [] => []
  | t :: rest => if SFltb t window_start then popleft_expired window_start rest else q
  end.

(** The [int] operand of a float subtraction is converted to a float first;
    an [int] beyond the float range raises. *)
Definition float_of_int (n : Z) : result float :=
  match float_of_Z n with
  | S754_infinity _ => Raise OverflowError
  | f => Ok f
  end.

(** [str(n)] for an [int]. *)
Definition str_of_int (n : Z) : string := NilZero.string_of_int (Z.to_int n).

Definition too_many_requests (self : RateLimitMiddleware) : Response :=
  mkResponse 429 (JDict [("detail", JStr "Too many requests. Try again later.")])
             [("Retry-After", str_of_int (window_sec (rule self)))].

(** [dispatch]: [now] is what [time.time()] returns, [call_next] the rest of
    the application.  The result is the response (or the exception raised)
    and the middleware with its buckets after the call. *)
Definition dispatch (self : RateLimitMiddleware) (request : HttpRequest) (now : float)
    (call_next : HttpRequest -> result Response) : result Response * RateLimitMiddleware :=
  let key := _key self request in
  match float_of_int (window_sec (rule self)) with
  | Raise e => (Raise e, self)
  | Ok w =>
      let window_start := SFsub prec emax now w in
      let q := popleft_expired window_start (bucket (buckets self) key) in
      if max_requests (rule self) <=? Z.of_nat (List.length q) then
        (Ok (too_many_requests self),
         mkRateLimitMiddleware (rule self) (key_prefix self) (set_bucket (buckets self) key q))
      else
        (call_next request,
         mkRateLimitMiddleware (rule self) (key_prefix self)
                               (set_bucket (buckets self) key (q ++ [now])%list))
  end.

(** The middleware after a sequence of requests, each with its clock reading
    and the application's answer. *)
Fixpoint serve (self : RateLimitMiddleware)
    (trace : list (HttpRequest * float * (HttpRequest -> result Response)))
    : RateLimitMiddleware :=
  match trace with
  | [] => self
  | (request, now, call_next) :: rest => serve (snd (dispatch self request now call_next)) rest
  end.

(** The answers to a sequence of requests, in order. *)
Fixpoint answers (self : RateLimitMiddleware)
    (trace : list (HttpRequest * float * (HttpRequest -> result Response)))
    : list (result Response) :=
  match trace with
  | [] => []
  | (request, now, call_next) :: rest =>
      fst (dispatch self request now call_next)
      :: answers (snd (dispatch self request now call_next)) rest
  end.

(* ------------------------------------------------------------------ *)
(** ** A concrete deployment, for the scenarios of section 8 *)

(** Stand-ins for the two library functions: a keyed tag in place of
    HMAC-SHA256 and the 36-character canonical form in place of the UUID
    parser.  The theorems below hold for every [Lib]; the scenarios run on
    this one. *)
Definition toy_lib : Lib :=
  mkLib (fun key msg => "mac(" ++ key ++ ";" ++ msg ++ ")")
        (fun s => if (String.length s =? 36)%nat then Some s else None)
        (fun x => Ok x).

Definition cfg0 : Settings := mkSettings "rzp_test_key" "key_secret" "webhook_secret".

Definition tenant_1 : UUID := "11111111-1111-1111-1111-111111111111".
Definition appt_1 : UUID := "22222222-2222-2222-2222-222222222222".
Definition cust_1 : UUID := "33333333-3333-3333-3333-333333333333".
Definition payment_1 : UUID := "44444444-4444-4444-4444-444444444444".

Definition token_1 : json := JDict [("tenant_id", JStr tenant_1); ("type", JStr "access")].

Definition db0 : DB :=
  mkDB [] []
       [mkAppointment appt_1 tenant_1 cust_1 None None UNPAID]
       [mkCustomer cust_1 tenant_1 "Asha" "asha@example.com" "+910000000000"].

(** The provider's answers. *)
Definition order_abc : json :=
  JDict [("id", JStr "order_abc"); ("status", JStr "created")].

Definition fetched_payment (id status : string) : json :=
  JDict [("id", JStr id); ("order_id", JStr "order_abc"); ("status", JStr status)].

Definition refund_of (id : string) : json :=
  JDict [("id", JStr "rfnd_1"); ("payment_id", JStr id); ("status", JStr "processed")].

(** A provider that answers every call, reporting [status] for a fetched
    payment. *)
Definition world_fetching (status : string) : World :=
  mkWorld (fun _ => Ok order_abc)
          (fun id => Ok (fetched_payment id status))
          (fun id _ => Ok (refund_of id))
          (fun _ _ _ _ => Ok "%PDF-1.4")
          (fun _ _ _ _ => Ok tt)
          payment_1.

Definition world_ok : World := world_fetching "captured".

(** The same provider with the task broker unreachable. *)
Definition world_broker_down : World :=
  mkWorld (client_order_create world_ok) (client_payment_fetch world_ok)
          (client_payment_refund world_ok) (generate_receipt_pdf world_ok)
          (fun _ _ _ _ => Raise (CollaboratorError "broker unreachable"))
          (uuid4 world_ok).

(** The same provider with the PDF renderer failing. *)
Definition world_pdf_fails : World :=
  mkWorld (client_order_create world_ok) (client_payment_fetch world_ok)
          (client_payment_refund world_ok)
          (fun _ _ _ _ => Raise (CollaboratorError "reportlab"))
          (send_booking_email_delay world_ok)
          (uuid4 world_ok).

Definition order_900 : CreateRazorpayOrderIn :=
  mkCreateRazorpayOrderIn appt_1 (float_of_cents 90000) "INR".

(** A webhook request whose signature header is the tag of its raw body. *)
Definition signed (raw : string) (body : json) : WebhookRequest :=
  mkWebhookRequest raw
    (Some (hmac_sha256_hexdigest toy_lib (RAZORPAY_WEBHOOK_SECRET cfg0) raw)) body.

Definition payment_envelope (event pay order status : string) : json :=
  JDict [("event", JStr event);
         ("payload", JDict [("payment", JDict [("entity",
            JDict [("id", JStr pay); ("order_id", JStr order); ("status", JStr status)])])])].

Definition order_envelope (event order status : string) : json :=
  JDict [("event", JStr event);
         ("payload", JDict [("order", JDict [("entity",
            JDict [("id", JStr order); ("status", JStr status)])])])].

Definition wh_captured : WebhookRequest :=
  signed "captured pay_1" (payment_envelope "payment.captured" "pay_1" "order_abc" "captured").

Definition wh_authorized : WebhookRequest :=
  signed "authorized pay_1"
         (payment_envelope "payment.authorized" "pay_1" "order_abc" "authorized").

(** The delayed notification of an earlier attempt on the same order. *)
Definition wh_late_authorized : WebhookRequest :=
  signed "authorized pay_0"
         (payment_envelope "payment.authorized" "pay_0" "order_abc" "authorized").

Definition wh_second_attempt : WebhookRequest :=
  signed "captured pay_2" (payment_envelope "payment.captured" "pay_2" "order_abc" "captured").

Definition wh_unknown_order : WebhookRequest :=
  signed "captured pay_9" (payment_envelope "payment.captured" "pay_9" "order_zzz" "captured").

Definition wh_order_paid : WebhookRequest :=
  signed "order paid" (order_envelope "order.paid" "order_abc" "paid").

Definition verify_1 : RazorpayVerifyIn :=
  mkRazorpayVerifyIn payment_1 "order_abc" "pay_1"
    (hmac_sha256_hexdigest toy_lib (RAZORPAY_KEY_SECRET cfg0) "order_abc|pay_1").

(** A verification call for a second payment attempt on the same order. *)
Definition verify_2 : RazorpayVerifyIn :=
  mkRazorpayVerifyIn payment_1 "order_abc" "pay_2"
    (hmac_sha256_hexdigest toy_lib (RAZORPAY_KEY_SECRET cfg0) "order_abc|pay_2").

Definition verify_forged : RazorpayVerifyIn :=
  mkRazorpayVerifyIn payment_1 "order_abc" "pay_1" "deadbeef".

(** A forged signature with a character outside ASCII: U+00E9, two bytes in
    UTF-8. *)
Definition e_acute : string :=
  String (ascii_of_nat 195) (String (ascii_of_nat 169) EmptyString).

Definition verify_forged_non_ascii : RazorpayVerifyIn :=
  mkRazorpayVerifyIn payment_1 "order_abc" "pay_1" ("deadbeef" ++ e_acute).





Definition refund_300 : RefundIn := mkRefundIn payment_1 (Some (float_of_cents 30000)).

(** The payment row of the scenarios, with a given payment id and status. *)
Definition row_1 (pid : option string) (status : PaymentStatus) : Payment :=
  mkPayment payment_1 tenant_1 appt_1 RAZORPAY "order_abc" pid
            (float_of_cents 90000) "INR" status.

Definition appointment_1 (status : ApptPayStatus) : Appointment :=
  mkAppointment appt_1 tenant_1 cust_1 (Some (float_of_cents 90000)) (Some "INR") status.

(** Scenario A up to the order: [Payment{CREATED}] with its [order.created]
    event and the amount due on the appointment, as order creation is
    written to leave them.  The webhook, the verifier and the refund act on
    rows like this one. *)
Definition db_created : DB :=
  mkDB [row_1 None CREATED]
       [order_created_event tenant_1 "order_abc" order_abc]
       [appointment_1 UNPAID]
       (customers db0).

(** Scenario A: the captured webhook has been applied. *)
Definition db_captured_by_webhook : DB := step toy_lib cfg0 (ReqWebhook wh_captured) db_created.

(** The checkout verifier has captured the payment before any webhook. *)
Definition db_captured_by_verify : DB :=
  step toy_lib cfg0 (ReqVerify world_ok verify_1 token_1) db_created.

(** The authorized webhook has been applied to the fresh payment. *)
Definition db_authorized : DB := step toy_lib cfg0 (ReqWebhook wh_authorized) db_created.

(** A later state of [db_authorized]: another tenant has since got a payment
    on an order of its own, which the table lists first. *)
Definition tenant_2 : UUID := "55555555-5555-5555-5555-555555555555".

Definition row_2 : Payment :=
  mkPayment "66666666-6666-6666-6666-666666666666" tenant_2
            "77777777-7777-7777-7777-777777777777" RAZORPAY "order_xyz" None
            (float_of_cents 5000) "INR" CREATED.

Definition db_authorized_later : DB :=
  mkDB (row_2 :: payments db_authorized)
       (payment_events db_authorized
        ++ [order_created_event tenant_2 "order_xyz" (JDict [("id", JStr "order_xyz")])])
       (appointments db_authorized)
       (customers db_authorized).

(** What the webhook reads off a payment envelope, and the event it stores. *)
Definition envelope_of (event pay order status : string) : Envelope :=
  mkEnvelope (JStr event) (JStr pay) (JStr order) (JStr pay) (JStr status) JNull.

Definition event_of (event pay order status : string) : PaymentEvent :=
  mkPaymentEvent tenant_1 RAZORPAY event (Some pay) (Some order) (Some pay)
                 (payment_envelope event pay order status).

(** [all_cents n c]: the paisa conversion returns [c'] for each of the [n]
    amounts [c'/100] with [c'] from [c] upwards. *)
Fixpoint all_cents (n : nat) (c : Z) : bool :=
  match n with
  | O => true
  | S n' =>
      match rupees_to_paisa (float_of_cents c) with
      | Ok m => (m =? c) && all_cents n' (c + 1)
      | Raise _ => false
      end
  end.

(* ================================================================== *)
(** * Properties *)

(** The building blocks stay folded while a handler is executed
    symbolically. *)
Arguments py_get : simpl never.
Arguments py_getitem : simpl never.
Arguments py_UUID : simpl never.
Arguments py_round : simpl never.
Arguments bind_str : simpl never.
Arguments bind_str_opt : simpl never.
Arguments or_none : simpl never.
Arguments truthy : simpl never.
Arguments extract_envelope : simpl never.
Arguments webhook_event : simpl never.
Arguments webhook_status : simpl never.
Arguments webhook_payment_id : simpl never.
Arguments verify_status : simpl never.
Arguments verify_razorpay_webhook_signature : simpl never.
Arguments verify_razorpay_checkout_signature : simpl never.
Arguments float_mul : simpl never.
Arguments float_leb : simpl never.
Arguments float_of_Z : simpl never.
Arguments refund_request : simpl never.
Arguments String.eqb : simpl never.
Arguments flush_refuses : simpl never.
Arguments declarative_constructor : simpl never.

Ltac msimpl :=
  cbv beta iota delta
      [bind lift ret raise try_except read modify log pending db_commit db_flush
       db_refresh scalar_payment scalar_event scalar_appointment scalar_customer
       save_payment save_appointment add_event add_payment
       run response persisted sent open_session];
  cbn [fst snd stored work calls refused
       payments payment_events appointments customers negb andb orb app
       PaymentProvider_eqb PaymentStatus_eqb].

Ltac msimpl_in H :=
  cbv beta iota delta
      [bind lift ret raise try_except read modify log pending db_commit db_flush
       db_refresh scalar_payment scalar_event scalar_appointment scalar_customer
       save_payment save_appointment add_event add_payment
       run response persisted sent open_session] in H;
  cbn [fst snd stored work calls refused
       payments payment_events appointments customers negb andb orb app
       PaymentProvider_eqb PaymentStatus_eqb] in H.

Ltac case_head :=
  match goal with
  | |- context [match ?x with _ => _ end] => destruct x eqn:?
  end.

(** ** Lists and tables *)

Lemma find_none_iff {A} (f : A -> bool) (l : list A) :
  (forall x, In x l -> f x = false) -> find f l = None.
Proof.
  induction l as [|a l IH]; intros H; [reflexivity|].
  cbn [find]. rewrite (H a (or_introl eq_refl)).
  apply IH. intros x Hx. apply H. now right.
Qed.

Lemma replace_payment_twice (p1 p2 : Payment) (l : list Payment) :
  pay_id p1 = pay_id p2 ->
  replace_payment p2 (replace_payment p1 l) = replace_payment p2 l.
Proof.
  intros Hid. unfold replace_payment. rewrite map_map.
  apply map_ext. intros q. rewrite <- Hid.
  destruct (pay_id q =? pay_id p1)%string eqn:E; [|now rewrite E].
  now rewrite String.eqb_refl.
Qed.

Lemma in_replace_payment (p q : Payment) (l : list Payment) :
  In q (replace_payment p l) -> q = p \/ In q l.
Proof.
  unfold replace_payment. rewrite in_map_iff. intros [x [Hx Hin]].
  destruct (pay_id x =? pay_id p)%string; subst; auto.
Qed.

Lemma pay_id_set_status s p : pay_id (set_pay_status s p) = pay_id p.
Proof. reflexivity. Qed.

Lemma pay_id_webhook_status st p : pay_id (webhook_status st p) = pay_id p.
Proof. unfold webhook_status. repeat case_head; reflexivity. Qed.

Lemma pay_id_webhook_payment_id env e p : pay_id (webhook_payment_id env e p) = pay_id p.
Proof. unfold webhook_payment_id. case_head; reflexivity. Qed.

Lemma pay_id_verify_status st p : pay_id (verify_status st p) = pay_id p.
Proof. unfold verify_status. repeat case_head; reflexivity. Qed.

(** ** What the flush accepts *)

Lemma option_string_eqb_refl v : option_string_eqb v v = true.
Proof. destruct v as [x|]; [apply String.eqb_refl|reflexivity]. Qed.

Lemma column_refused_same w v : column_refused w v v = false.
Proof. unfold column_refused. now rewrite option_string_eqb_refl. Qed.

Lemma column_refused_fits w old new :
  fits_column w new = true -> column_refused w old new = false.
Proof. unfold column_refused. intros ->. apply andb_false_r. Qed.

(** Only the payment id is ever assigned, among the columns with a width. *)
Lemma flush_refuses_payment_id old new :
  pay_provider_order_id new = pay_provider_order_id old ->
  pay_currency new = pay_currency old ->
  flush_refuses old new
  = column_refused 255 (pay_provider_payment_id old) (pay_provider_payment_id new).
Proof.
  intros Ho Hc. unfold flush_refuses. rewrite Ho, Hc, !column_refused_same.
  now rewrite orb_false_r.
Qed.

Lemma flush_refuses_set_status s p : flush_refuses p (set_pay_status s p) = false.
Proof.
  rewrite flush_refuses_payment_id by reflexivity. apply column_refused_same.
Qed.

Lemma flush_refuses_webhook_status st p : flush_refuses p (webhook_status st p) = false.
Proof.
  unfold webhook_status.
  repeat case_head; try apply flush_refuses_set_status.
  rewrite flush_refuses_payment_id by reflexivity. apply column_refused_same.
Qed.

Lemma str_len_le_length s : (str_len s <= String.length s)%nat.
Proof.
  induction s as [|c s IH]; cbn [str_len String.length]; [lia|].
  destruct (is_continuation c); lia.
Qed.

(** The code's status mappings are the specification's proposals, applied
    without looking at the current status. *)
Lemma webhook_status_overwrites st p :
  pay_status (webhook_status st p) = overwrite (spec_webhook_proposal st) (pay_status p).
Proof.
  unfold webhook_status, spec_webhook_proposal. repeat case_head; reflexivity.
Qed.

Lemma verify_status_overwrites st p :
  pay_status (verify_status st p) = overwrite (spec_verify_proposal st) (pay_status p).
Proof.
  unfold verify_status, spec_verify_proposal. repeat case_head; reflexivity.
Qed.

(** ** The webhook's lookups *)

Lemma resolve_payment_run L t o s :
  exists r, resolve_payment L t o s = (r, s).
Proof.
  unfold resolve_payment. msimpl.
  destruct (truthy t && truthy o); msimpl.
  - destruct (py_UUID L t); msimpl.
    + destruct (bind_str o) eqn:Ho; msimpl.
      * destruct (find _ (payments (work s))); msimpl; [eauto|].
        destruct (truthy o); msimpl; eauto.
      * destruct (truthy o); msimpl; eauto.
    + destruct (truthy o); msimpl; [|eauto].
      destruct (bind_str o); msimpl; eauto.
  - destruct (truthy o); msimpl; [|eauto].
    destruct (bind_str o); msimpl; eauto.
Qed.

Lemma find_by_order_id (f : Payment -> bool) (l : list Payment) (oid : string) (p : Payment) :
  (forall q, f q = true -> pay_provider_order_id q = oid) ->
  find f l = Some p ->
  In p l /\ JStr oid = JStr (pay_provider_order_id p).
Proof.
  intros Hq Hf. apply find_some in Hf. destruct Hf as [Hin Hfp].
  split; [exact Hin|]. now rewrite (Hq _ Hfp).
Qed.

Lemma bind_str_ok o x : bind_str o = Ok x -> o = JStr x.
Proof. destruct o; unfold bind_str; intros [=]. now subst. Qed.

Lemma resolve_payment_found L t o s p :
  fst (resolve_payment L t o s) = Ok (Some p) ->
  In p (payments (work s)) /\ o = JStr (pay_provider_order_id p).
Proof.
  unfold resolve_payment. msimpl.
  assert (Hand : forall (u x : string) q,
             (pay_tenant_id q =? u)%string && (pay_provider_order_id q =? x)%string = true ->
             pay_provider_order_id q = x).
  { intros u x q Hq. apply andb_prop in Hq. now apply String.eqb_eq. }
  assert (Heq : forall (x : string) q,
             (pay_provider_order_id q =? x)%string = true -> pay_provider_order_id q = x).
  { intros x q Hq. now apply String.eqb_eq. }
  assert (Hfallback :
            fst ((if truthy o
                  then fun s1 => match bind_str o with
                                 | Ok a => (Ok (find (fun p0 => (pay_provider_order_id p0 =? a)%string)
                                                     (payments (work s1))), s1)
                                 | Raise e => (Raise e, s1)
                                 end
                  else fun s1 => (Ok None, s1)) s) = Ok (Some p) ->
            In p (payments (work s)) /\ o = JStr (pay_provider_order_id p)).
  { destruct (truthy o); msimpl; [|intros [=]].
    destruct (bind_str o) as [oid|] eqn:Hb; msimpl; [|intros [=]].
    apply bind_str_ok in Hb. subst o.
    destruct (find _ (payments (work s))) eqn:Hf; [|intros [=]].
    intros [= ->]. eapply find_by_order_id; [|exact Hf]. apply Heq. }
  destruct (truthy t && truthy o); msimpl; [|exact Hfallback].
  destruct (py_UUID L t); msimpl; [|exact Hfallback].
  destruct (bind_str o) as [oid|] eqn:Hb; msimpl.
  - destruct (find _ (payments (work s))) eqn:Hf; msimpl.
    + apply bind_str_ok in Hb. subst o.
      intros [= ->]. eapply find_by_order_id; [|exact Hf]. apply Hand.
    + intros H. apply Hfallback. exact H.
  - intros H. apply Hfallback. exact H.
Qed.

Lemma resolve_payment_none L t o s :
  (truthy o = false
   \/ exists oid, o = JStr oid
        /\ forall p, In p (payments (work s)) -> pay_provider_order_id p <> oid) ->
  resolve_payment L t o s = (Ok None, s).
Proof.
  intros [Ho | [oid [-> Hno]]]; unfold resolve_payment; msimpl.
  - rewrite Ho, andb_false_r. msimpl. reflexivity.
  - assert (Hf : forall f, (forall q, f q = true -> pay_provider_order_id q = oid) ->
                           find f (payments (work s)) = None).
    { intros f Hq. apply find_none_iff. intros x Hx.
      destruct (f x) eqn:E; [|reflexivity]. apply Hq in E. now apply Hno in E. }
    unfold bind_str.
    destruct (truthy t && truthy (JStr oid)); msimpl.
    + destruct (py_UUID L t); msimpl.
      * rewrite Hf.
        2:{ intros q Hq. apply andb_prop in Hq. now apply String.eqb_eq. }
        msimpl. destruct (truthy (JStr oid)); msimpl; [|reflexivity].
        rewrite Hf; [reflexivity|]. intros q Hq. now apply String.eqb_eq.
      * destruct (truthy (JStr oid)); msimpl; [|reflexivity].
        rewrite Hf; [reflexivity|]. intros q Hq. now apply String.eqb_eq.
    + destruct (truthy (JStr oid)); msimpl; [|reflexivity].
      rewrite Hf; [reflexivity|]. intros q Hq. now apply String.eqb_eq.
Qed.

(** ** The webhook, step by step *)

Lemma find_some_of_in {A} (f : A -> bool) (l : list A) (x : A) :
  In x l -> f x = true -> exists y, find f l = Some y.
Proof.
  induction l as [|a l IH]; intros Hin Hf; [contradiction|].
  cbn [find]. destruct (f a) eqn:Ha; [eauto|].
  destruct Hin as [->|Hin]; [congruence|]. now apply IH.
Qed.

Lemma truthy_str x : x <> "" -> truthy (JStr x) = true.
Proof.
  intros Hx. unfold truthy. apply negb_true_iff. now apply String.eqb_neq.
Qed.

Lemma idempotency_check_run pay eid s :
  exists r, idempotency_check pay eid s = (r, s).
Proof.
  unfold idempotency_check.
  destruct (truthy eid); msimpl; [|eauto].
  destruct (bind_str eid); msimpl; eauto.
Qed.

Lemma idempotency_check_duplicate pay x s :
  x <> "" ->
  has_event (work s) (pay_tenant_id pay) x ->
  exists e, idempotency_check pay (JStr x) s = (Ok (Some e), s).
Proof.
  intros Hx [e0 [Hin [Ht He]]].
  unfold idempotency_check. rewrite (truthy_str x Hx).
  unfold bind_str. msimpl.
  destruct (find_some_of_in
              (fun e => (ev_tenant_id e =? pay_tenant_id pay)%string
                        && match ev_provider_event_id e with
                           | Some y => (y =? x)%string
                           | None => false
                           end) (payment_events (work s)) e0 Hin) as [y Hy].
  { rewrite Ht, He, !String.eqb_refl. reflexivity. }
  rewrite Hy. eauto.
Qed.

Lemma webhook_appointment_run pay s :
  exists appts,
    webhook_appointment pay s =
    (Ok tt, mkSession (stored s)
                      (mkDB (payments (work s)) (payment_events (work s)) appts
                            (customers (work s)))
                      (calls s) (refused s)).
Proof.
  unfold webhook_appointment. msimpl.
  destruct s as [st [ps es as_ cs] cl rf]. msimpl.
  destruct (find _ as_); [destruct (pay_status pay)|]; msimpl; eauto.
Qed.

Lemma webhook_applies L cfg req db env pay ev :
  authenticated L cfg req ->
  extract_envelope (wh_json req) = Ok env ->
  fst (resolve_payment L (env_tenant_id_str env) (env_provider_order_id env)
         (open_session db)) = Ok (Some pay) ->
  fst (idempotency_check pay (env_event_id env) (open_session db)) = Ok None ->
  webhook_event pay env (wh_json req) = Ok ev ->
  flush_refuses pay (webhook_payment_id env ev (webhook_status (env_status env) pay))
  = false ->
  exists db',
    run (razorpay_webhook L cfg req) db = (Ok success, mkSession db' db' [] false)
    /\ payments db'
       = replace_payment (webhook_payment_id env ev (webhook_status (env_status env) pay))
                         (payments db)
    /\ payment_events db' = (payment_events db ++ [ev])%list
    /\ customers db' = customers db.
Proof.
  intros [sig [Hs [Hne Hv]]] Hext Hres Hdup Hev Hfl.
  unfold razorpay_webhook. rewrite Hs.
  apply String.eqb_neq in Hne. rewrite Hne. msimpl.
  rewrite Hv. msimpl. rewrite Hext. msimpl.
  destruct (resolve_payment_run L (env_tenant_id_str env) (env_provider_order_id env)
              (open_session db)) as [r Hr].
  rewrite Hr in Hres. cbn [fst] in Hres. subst r.
  unfold open_session in Hr. rewrite Hr.
  destruct (idempotency_check_run pay (env_event_id env) (open_session db)) as [r Hi].
  rewrite Hi in Hdup. cbn [fst] in Hdup. subst r.
  unfold open_session in Hi. rewrite Hi.
  rewrite Hev. msimpl.
  match goal with
  | |- context [webhook_appointment ?p ?s] =>
      destruct (webhook_appointment_run p s) as [appts Ha]; rewrite Ha
  end.
  msimpl. rewrite flush_refuses_webhook_status, Hfl. cbn [orb].
  eexists. split; [reflexivity|]. msimpl.
  split; [|split; reflexivity].
  apply replace_payment_twice.
  now rewrite pay_id_webhook_payment_id.
Qed.

(** The same webhook when the database refuses the payment id: the commit
    of line 218 raises and nothing is written. *)
Lemma webhook_refused L cfg req db env pay ev :
  authenticated L cfg req ->
  extract_envelope (wh_json req) = Ok env ->
  fst (resolve_payment L (env_tenant_id_str env) (env_provider_order_id env)
         (open_session db)) = Ok (Some pay) ->
  fst (idempotency_check pay (env_event_id env) (open_session db)) = Ok None ->
  webhook_event pay env (wh_json req) = Ok ev ->
  flush_refuses pay (webhook_payment_id env ev (webhook_status (env_status env) pay))
  = true ->
  response (razorpay_webhook L cfg req) db = Raise DataError
  /\ persisted (razorpay_webhook L cfg req) db = db
  /\ sent (razorpay_webhook L cfg req) db = [].
Proof.
  intros [sig [Hs [Hne Hv]]] Hext Hres Hdup Hev Hfl.
  unfold razorpay_webhook. rewrite Hs.
  apply String.eqb_neq in Hne. rewrite Hne. msimpl.
  rewrite Hv. msimpl. rewrite Hext. msimpl.
  destruct (resolve_payment_run L (env_tenant_id_str env) (env_provider_order_id env)
              (open_session db)) as [r Hr].
  rewrite Hr in Hres. cbn [fst] in Hres. subst r.
  unfold open_session in Hr. rewrite Hr.
  destruct (idempotency_check_run pay (env_event_id env) (open_session db)) as [r Hi].
  rewrite Hi in Hdup. cbn [fst] in Hdup. subst r.
  unfold open_session in Hi. rewrite Hi.
  rewrite Hev. msimpl.
  match goal with
  | |- context [webhook_appointment ?p ?s] =>
      destruct (webhook_appointment_run p s) as [appts Ha]; rewrite Ha
  end.
  msimpl. rewrite flush_refuses_webhook_status, Hfl. cbn [orb]. msimpl. auto.
Qed.

(** The payment id the webhook writes fits its column. *)
Lemma webhook_flush_accepts env ev st pay :
  fits_column 255 (ev_provider_payment_id ev) = true ->
  flush_refuses pay (webhook_payment_id env ev (webhook_status st pay)) = false.
Proof.
  intros Hfit.
  assert (Hk : pay_provider_order_id (webhook_payment_id env ev (webhook_status st pay))
               = pay_provider_order_id pay
               /\ pay_currency (webhook_payment_id env ev (webhook_status st pay))
                  = pay_currency pay
               /\ (pay_provider_payment_id (webhook_payment_id env ev (webhook_status st pay))
                   = ev_provider_payment_id ev
                   \/ pay_provider_payment_id
                        (webhook_payment_id env ev (webhook_status st pay))
                      = pay_provider_payment_id pay)).
  { unfold webhook_payment_id, webhook_status. repeat case_head; auto. }
  destruct Hk as [Ho [Hc Hp]].
  rewrite flush_refuses_payment_id by assumption.
  destruct Hp as [-> | ->]; [now apply column_refused_fits|apply column_refused_same].
Qed.

Lemma webhook_cases L cfg req db :
  (exists e, run (razorpay_webhook L cfg req) db = (Raise e, open_session db))
  \/ run (razorpay_webhook L cfg req) db = (Ok success, open_session db)
  \/ exists env pay ev,
       authenticated L cfg req
       /\ extract_envelope (wh_json req) = Ok env
       /\ fst (resolve_payment L (env_tenant_id_str env) (env_provider_order_id env)
                 (open_session db)) = Ok (Some pay)
       /\ fst (idempotency_check pay (env_event_id env) (open_session db)) = Ok None
       /\ webhook_event pay env (wh_json req) = Ok ev.
Proof.
  unfold razorpay_webhook.
  destruct (wh_signature req) as [sig|] eqn:Hs.
  2:{ rewrite String.eqb_refl. msimpl. left. eauto. }
  destruct (sig =? "")%string eqn:Hne; msimpl; [left; eauto|].
  destruct (verify_razorpay_webhook_signature L (wh_raw req) sig
              (RAZORPAY_WEBHOOK_SECRET cfg)) as [[|]|] eqn:Hv; msimpl;
    [|left; eauto|left; eauto].
  destruct (extract_envelope (wh_json req)) as [env|] eqn:Hext; msimpl; [|left; eauto].
  destruct (resolve_payment_run L (env_tenant_id_str env) (env_provider_order_id env)
              (open_session db)) as [r Hr].
  unfold open_session in Hr. rewrite Hr.
  destruct r as [[pay|]|]; msimpl; [|right; left; reflexivity|left; eauto].
  destruct (idempotency_check_run pay (env_event_id env) (open_session db)) as [r Hi].
  unfold open_session in Hi. rewrite Hi.
  destruct r as [[e0|]|]; msimpl; [right; left; reflexivity| |left; eauto].
  destruct (webhook_event pay env (wh_json req)) as [ev|] eqn:Hev; msimpl; [|left; eauto].
  right; right. exists env, pay, ev.
  split.
  { exists sig. split; [exact Hs|]. split; [now apply String.eqb_neq|exact Hv]. }
  split; [reflexivity|].
  unfold open_session. rewrite Hr, Hi. auto.
Qed.

(** ** Webhook deliveries that write nothing *)

Lemma noop_run {A} (h : M A) (db : DB) (a : A) :
  run h db = (Ok a, open_session db) ->
  response h db = Ok a /\ persisted h db = db /\ sent h db = [].
Proof.
  unfold response, persisted, sent. intros ->. auto.
Qed.

Lemma webhook_no_payment L cfg req db env :
  authenticated L cfg req ->
  extract_envelope (wh_json req) = Ok env ->
  resolve_payment L (env_tenant_id_str env) (env_provider_order_id env) (open_session db)
  = (Ok None, open_session db) ->
  run (razorpay_webhook L cfg req) db = (Ok success, open_session db).
Proof.
  intros [sig [Hs [Hne Hv]]] Hext Hres.
  unfold razorpay_webhook. rewrite Hs.
  apply String.eqb_neq in Hne. rewrite Hne. msimpl.
  rewrite Hv. msimpl. rewrite Hext. msimpl.
  unfold open_session in Hres. rewrite Hres. reflexivity.
Qed.

Lemma webhook_duplicate L cfg req db env pay e0 :
  authenticated L cfg req ->
  extract_envelope (wh_json req) = Ok env ->
  resolve_payment L (env_tenant_id_str env) (env_provider_order_id env) (open_session db)
  = (Ok (Some pay), open_session db) ->
  idempotency_check pay (env_event_id env) (open_session db)
  = (Ok (Some e0), open_session db) ->
  run (razorpay_webhook L cfg req) db = (Ok success, open_session db).
Proof.
  intros [sig [Hs [Hne Hv]]] Hext Hres Hdup.
  unfold razorpay_webhook. rewrite Hs.
  apply String.eqb_neq in Hne. rewrite Hne. msimpl.
  rewrite Hv. msimpl. rewrite Hext. msimpl.
  unfold open_session in Hres, Hdup. rewrite Hres, Hdup. reflexivity.
Qed.

Lemma webhook_logged_is_noop L cfg req db env eid r :
  authenticated L cfg req ->
  extract_envelope (wh_json req) = Ok env ->
  env_event_id env = JStr eid ->
  eid <> "" ->
  fst (resolve_payment L (env_tenant_id_str env) (env_provider_order_id env)
         (open_session db)) = Ok r ->
  (forall pay, r = Some pay -> has_event db (pay_tenant_id pay) eid) ->
  run (razorpay_webhook L cfg req) db = (Ok success, open_session db).
Proof.
  intros Hauth Hext Heid Hne Hres Hev.
  destruct (resolve_payment_run L (env_tenant_id_str env) (env_provider_order_id env)
              (open_session db)) as [r' Hr].
  rewrite Hr in Hres. cbn [fst] in Hres. subst r'.
  destruct r as [pay|].
  - destruct (idempotency_check_duplicate pay eid (open_session db) Hne (Hev pay eq_refl))
      as [e0 He0].
    rewrite <- Heid in He0.
    eapply webhook_duplicate; eauto.
  - eapply webhook_no_payment; eauto.
Qed.

(** C3. An authenticated webhook that carries a provider event id for which
    the ledger already holds an event under the tenant of the payment it
    resolves to (or that resolves to no payment at all) is acknowledged with
    success and writes nothing: the database after the request is the
    database before it, so no [PaymentEvent] is appended and neither
    [Payment.status] nor [Appointment.payment_status] changes. *)
Theorem webhook_duplicate_is_noop L cfg req db env eid r :
  authenticated L cfg req ->
  extract_envelope (wh_json req) = Ok env ->
  env_event_id env = JStr eid ->
  eid <> "" ->
  fst (resolve_payment L (env_tenant_id_str env) (env_provider_order_id env)
         (open_session db)) = Ok r ->
  (forall pay, r = Some pay -> has_event db (pay_tenant_id pay) eid) ->
  response (razorpay_webhook L cfg req) db = Ok success
  /\ persisted (razorpay_webhook L cfg req) db = db
  /\ sent (razorpay_webhook L cfg req) db = [].
Proof.
  intros Hauth Hext Heid Hne Hres Hev.
  apply noop_run. eapply webhook_logged_is_noop; eauto.
Qed.

Lemma webhook_duplicate_is_noop_witness :
  response (razorpay_webhook toy_lib cfg0 wh_captured) db_captured_by_webhook = Ok success
  /\ persisted (razorpay_webhook toy_lib cfg0 wh_captured) db_captured_by_webhook
     = db_captured_by_webhook
  /\ sent (razorpay_webhook toy_lib cfg0 wh_captured) db_captured_by_webhook = [].
Proof.
  eapply (webhook_duplicate_is_noop toy_lib cfg0 wh_captured db_captured_by_webhook
            _ "pay_1" _).
  - eexists. split; [reflexivity|]. split; [discriminate|reflexivity].
  - vm_compute. reflexivity.
  - reflexivity.
  - discriminate.
  - vm_compute. reflexivity.
  - intros pay [= <-]. eexists. split; [|split].
    + vm_compute. right. left. reflexivity.
    + reflexivity.
    + reflexivity.
Defined.

(** C5. An authenticated webhook whose extracted provider order id matches
    no stored payment (it is empty, or no payment row carries it, so both the
    tenant-hint lookup and the fallback miss) is answered with success and
    writes no row. *)
Theorem webhook_unknown_order_is_noop L cfg req db env :
  authenticated L cfg req ->
  extract_envelope (wh_json req) = Ok env ->
  (truthy (env_provider_order_id env) = false
   \/ exists oid, env_provider_order_id env = JStr oid
        /\ forall p, In p (payments db) -> pay_provider_order_id p <> oid) ->
  response (razorpay_webhook L cfg req) db = Ok success
  /\ persisted (razorpay_webhook L cfg req) db = db
  /\ sent (razorpay_webhook L cfg req) db = [].
Proof.
  intros Hauth Hext Hmiss.
  apply noop_run.
  eapply webhook_no_payment; eauto.
  apply resolve_payment_none. exact Hmiss.
Qed.

Lemma webhook_unknown_order_is_noop_witness :
  response (razorpay_webhook toy_lib cfg0 wh_unknown_order) db_created = Ok success
  /\ persisted (razorpay_webhook toy_lib cfg0 wh_unknown_order) db_created = db_created
  /\ sent (razorpay_webhook toy_lib cfg0 wh_unknown_order) db_created = [].
Proof.
  eapply (webhook_unknown_order_is_noop toy_lib cfg0 wh_unknown_order db_created).
  - eexists. split; [reflexivity|]. split; [discriminate|reflexivity].
  - vm_compute. reflexivity.
  - right. exists "order_zzz". split; [reflexivity|].
    vm_compute. intros p [<-|[]]. discriminate.
Defined.

(** ** The checkout verifier, step by step *)

Lemma verified_payment_id body st p : pay_id (verified_payment body st p) = pay_id p.
Proof. unfold verified_payment. now rewrite pay_id_verify_status. Qed.

Lemma verified_payment_appointment body st p :
  pay_appointment_id (verified_payment body st p) = pay_appointment_id p.
Proof. unfold verified_payment, verify_status. repeat case_head; reflexivity. Qed.

Lemma verified_payment_fields body st p :
  pay_amount (verified_payment body st p) = pay_amount p
  /\ pay_currency (verified_payment body st p) = pay_currency p
  /\ pay_tenant_id (verified_payment body st p) = pay_tenant_id p
  /\ pay_provider_order_id (verified_payment body st p) = pay_provider_order_id p
  /\ pay_provider_payment_id (verified_payment body st p) = Some (v_razorpay_payment_id body).
Proof. unfold verified_payment, verify_status. repeat case_head; auto. Qed.

(** What the flush makes of the verifier's assignments: only the payment id
    of line 250 can be refused. *)
Lemma verify_flush body st pay :
  flush_refuses pay (set_pay_provider_payment_id (Some (v_razorpay_payment_id body)) pay)
  = column_refused 255 (pay_provider_payment_id pay) (Some (v_razorpay_payment_id body))
  /\ flush_refuses pay (verified_payment body st pay)
     = column_refused 255 (pay_provider_payment_id pay) (Some (v_razorpay_payment_id body)).
Proof.
  destruct (verified_payment_fields body st pay) as [_ [Hcur [_ [Hoid Hpid]]]].
  split.
  - now rewrite flush_refuses_payment_id by reflexivity.
  - rewrite flush_refuses_payment_id by assumption. now rewrite Hpid.
Qed.

Lemma verify_flush_accepts body st pay :
  (str_len (v_razorpay_payment_id body) <= 255)%nat ->
  flush_refuses pay (verified_payment body st pay) = false.
Proof.
  intros Hlen. rewrite (proj2 (verify_flush body st pay)).
  apply column_refused_fits. cbn [fits_column]. now apply Nat.leb_le.
Qed.

Ltac verify_start :=
  match goal with
  | H : verify_accepted _ _ _ ?body _ _ _ ?pay _ ?rp_status |- _ =>
      let t := fresh "t" in
      let Ht := fresh "Ht" in
      let Hu := fresh "Hu" in
      let Hload := fresh "Hload" in
      let Hord := fresh "Hord" in
      let Hsig := fresh "Hsig" in
      let Hfetch := fresh "Hfetch" in
      let Hst := fresh "Hst" in
      destruct H as [[t [Ht Hu]] [Hload [Hord [Hsig [Hfetch Hst]]]]];
      unfold razorpay_verify; msimpl; rewrite Ht; msimpl; rewrite Hu; msimpl;
      unfold load_payment in Hload; rewrite Hload;
      rewrite Hord, String.eqb_refl; msimpl;
      rewrite Hsig; msimpl; rewrite Hfetch; msimpl; rewrite Hst; msimpl;
      rewrite <- ?Hord;
      fold (verified_payment body rp_status pay);
      rewrite ?(proj1 (verify_flush body rp_status pay)),
              ?(proj2 (verify_flush body rp_status pay)), ?orb_diag
  end.

(** With the checks passed and the status after the mapping other than
    CAPTURED (or no appointment found), the handler answers without a
    commit: the session holds the new payment row, the database does not. *)
Lemma verify_uncommitted L cfg W body payload db tenant_id pay rp_payment rp_status :
  verify_accepted L cfg W body payload db tenant_id pay rp_payment rp_status ->
  pay_status (verified_payment body rp_status pay) <> CAPTURED
  \/ load_appointment db (pay_appointment_id pay) tenant_id = None ->
  response (razorpay_verify L cfg W body payload) db
  = Ok (verify_response (verified_payment body rp_status pay))
  /\ persisted (razorpay_verify L cfg W body payload) db = db
  /\ payments (work (snd (run (razorpay_verify L cfg W body payload) db)))
     = replace_payment (verified_payment body rp_status pay) (payments db)
  /\ sent (razorpay_verify L cfg W body payload) db
     = [PaymentFetch (v_razorpay_payment_id body)].
Proof.
  intros Hacc Hcase. verify_start.
  fold (verified_payment body rp_status pay).
  rewrite verified_payment_appointment.
  unfold load_appointment in Hcase.
  assert (Hrep : replace_payment (verified_payment body rp_status pay)
                   (replace_payment
                      (set_pay_provider_payment_id (Some (v_razorpay_payment_id body)) pay)
                      (payments db))
                 = replace_payment (verified_payment body rp_status pay) (payments db)).
  { apply replace_payment_twice. now rewrite verified_payment_id. }
  unfold replace_payment in Hrep.
  destruct (find _ (appointments db)) as [a|] eqn:Ha.
  - destruct Hcase as [Hcase|Hcase]; [|discriminate].
    destruct (pay_status (verified_payment body rp_status pay)); msimpl;
      try (repeat split; solve [reflexivity | exact Hrep]).
    now contradiction Hcase.
  - msimpl. repeat split; solve [reflexivity | exact Hrep].
Qed.

(** With the checks passed, the status after the mapping CAPTURED, the
    appointment found and both collaborators answering, the handler appends
    the [checkout.verified] event and commits. *)
Lemma verify_committed L cfg W body payload db tenant_id pay rp_payment rp_status a pdf :
  verify_accepted L cfg W body payload db tenant_id pay rp_payment rp_status ->
  pay_status (verified_payment body rp_status pay) = CAPTURED ->
  load_appointment db (pay_appointment_id pay) tenant_id = Some a ->
  generate_receipt_pdf W (pay_id pay) "Customer" (pay_amount pay) (pay_currency pay) = Ok pdf ->
  send_booking_email_delay W "customer@email.com" "Payment Receipt"
    "Your payment was successful." pdf = Ok tt ->
  flush_refuses pay (verified_payment body rp_status pay) = false ->
  response (razorpay_verify L cfg W body payload) db
  = Ok (verify_response (verified_payment body rp_status pay))
  /\ persisted (razorpay_verify L cfg W body payload) db
     = mkDB (replace_payment (verified_payment body rp_status pay) (payments db))
            (payment_events db ++ [checkout_verified_event tenant_id body rp_payment])
            (replace_appointment (set_appt_payment_status PAID a) (appointments db))
            (customers db)
  /\ work (snd (run (razorpay_verify L cfg W body payload) db))
     = persisted (razorpay_verify L cfg W body payload) db.
Proof.
  intros Hacc Hcap Happt Hpdf Hsend Hfl.
  rewrite (proj2 (verify_flush body rp_status pay)) in Hfl. verify_start.
  fold (verified_payment body rp_status pay).
  rewrite verified_payment_appointment.
  destruct (verified_payment_fields body rp_status pay) as [Hamt [Hcur _]].
  assert (Hrep : replace_payment (verified_payment body rp_status pay)
                   (replace_payment
                      (set_pay_provider_payment_id (Some (v_razorpay_payment_id body)) pay)
                      (payments db))
                 = replace_payment (verified_payment body rp_status pay) (payments db)).
  { apply replace_payment_twice. now rewrite verified_payment_id. }
  unfold replace_payment in Hrep. unfold replace_payment, replace_appointment.
  rewrite Hrep.
  unfold load_appointment in Happt. rewrite Happt, Hcap. msimpl.
  rewrite <- (verified_payment_id body rp_status pay), <- Hamt, <- Hcur in Hpdf.
  rewrite Hpdf. msimpl. rewrite Hsend. msimpl. rewrite Hfl.
  repeat split; reflexivity.
Qed.

(** The same call when the database refuses the client's payment id: the
    commit of line 291 raises and nothing is written. *)
Lemma verify_refused L cfg W body payload db tenant_id pay rp_payment rp_status a pdf :
  verify_accepted L cfg W body payload db tenant_id pay rp_payment rp_status ->
  pay_status (verified_payment body rp_status pay) = CAPTURED ->
  load_appointment db (pay_appointment_id pay) tenant_id = Some a ->
  generate_receipt_pdf W (pay_id pay) "Customer" (pay_amount pay) (pay_currency pay) = Ok pdf ->
  send_booking_email_delay W "customer@email.com" "Payment Receipt"
    "Your payment was successful." pdf = Ok tt ->
  flush_refuses pay (verified_payment body rp_status pay) = true ->
  response (razorpay_verify L cfg W body payload) db = Raise DataError
  /\ persisted (razorpay_verify L cfg W body payload) db = db.
Proof.
  intros Hacc Hcap Happt Hpdf Hsend Hfl.
  rewrite (proj2 (verify_flush body rp_status pay)) in Hfl. verify_start.
  rewrite verified_payment_appointment.
  destruct (verified_payment_fields body rp_status pay) as [Hamt [Hcur _]].
  unfold load_appointment in Happt. rewrite Happt, Hcap. msimpl.
  rewrite <- (verified_payment_id body rp_status pay), <- Hamt, <- Hcur in Hpdf.
  rewrite Hpdf. msimpl. rewrite Hsend. msimpl. rewrite Hfl. auto.
Qed.

(** With the checks passed, the status after the mapping CAPTURED and the
    appointment found, a failure of the receipt renderer or of the enqueue
    propagates: nothing is committed. *)
Lemma verify_side_effect_fails L cfg W body payload db tenant_id pay rp_payment rp_status a e :
  verify_accepted L cfg W body payload db tenant_id pay rp_payment rp_status ->
  pay_status (verified_payment body rp_status pay) = CAPTURED ->
  load_appointment db (pay_appointment_id pay) tenant_id = Some a ->
  generate_receipt_pdf W (pay_id pay) "Customer" (pay_amount pay) (pay_currency pay) = Raise e
  \/ (exists pdf,
        generate_receipt_pdf W (pay_id pay) "Customer" (pay_amount pay) (pay_currency pay)
        = Ok pdf
        /\ send_booking_email_delay W "customer@email.com" "Payment Receipt"
             "Your payment was successful." pdf = Raise e) ->
  response (razorpay_verify L cfg W body payload) db = Raise e
  /\ persisted (razorpay_verify L cfg W body payload) db = db.
Proof.
  intros Hacc Hcap Happt Hfail. verify_start.
  fold (verified_payment body rp_status pay).
  rewrite verified_payment_appointment.
  destruct (verified_payment_fields body rp_status pay) as [Hamt [Hcur _]].
  unfold load_appointment in Happt. rewrite Happt, Hcap. msimpl.
  rewrite verified_payment_id, Hamt, Hcur.
  destruct Hfail as [Hpdf | [pdf [Hpdf Hsend]]].
  - rewrite Hpdf. msimpl. auto.
  - rewrite Hpdf. msimpl. rewrite Hsend. msimpl. auto.
Qed.

(** Every run of the verifier either leaves the database as it was or is
    the committing run described by [verify_committed]. *)
Lemma verify_cases L cfg W body payload db :
  persisted (razorpay_verify L cfg W body payload) db = db
  \/ exists tenant_id pay rp_payment rp_status a pdf,
       verify_accepted L cfg W body payload db tenant_id pay rp_payment rp_status
       /\ pay_status (verified_payment body rp_status pay) = CAPTURED
       /\ load_appointment db (pay_appointment_id pay) tenant_id = Some a
       /\ generate_receipt_pdf W (pay_id pay) "Customer" (pay_amount pay) (pay_currency pay)
          = Ok pdf
       /\ send_booking_email_delay W "customer@email.com" "Payment Receipt"
            "Your payment was successful." pdf = Ok tt.
Proof.
  destruct (py_getitem payload "tenant_id") as [t|] eqn:Ht.
  2:{ left. unfold razorpay_verify. msimpl. rewrite Ht. reflexivity. }
  destruct (py_UUID L t) as [tenant_id|] eqn:Hu.
  2:{ left. unfold razorpay_verify. msimpl. rewrite Ht. msimpl. rewrite Hu. reflexivity. }
  destruct (load_payment db (v_payment_id body) tenant_id) as [pay|] eqn:Hload.
  2:{ left. unfold razorpay_verify. msimpl. rewrite Ht. msimpl. rewrite Hu. msimpl.
      unfold load_payment in Hload. rewrite Hload. reflexivity. }
  destruct (pay_provider_order_id pay =? v_razorpay_order_id body)%string eqn:Hord.
  2:{ left. unfold razorpay_verify. msimpl. rewrite Ht. msimpl. rewrite Hu. msimpl.
      unfold load_payment in Hload. rewrite Hload, Hord. reflexivity. }
  apply String.eqb_eq in Hord.
  destruct (verify_razorpay_checkout_signature L (v_razorpay_order_id body)
              (v_razorpay_payment_id body) (v_razorpay_signature body)
              (RAZORPAY_KEY_SECRET cfg)) as [[|]|] eqn:Hsig.
  2,3: left; unfold razorpay_verify; msimpl; rewrite Ht; msimpl; rewrite Hu; msimpl;
       unfold load_payment in Hload; rewrite Hload, Hord, String.eqb_refl; msimpl;
       rewrite Hsig; reflexivity.
  destruct (client_payment_fetch W (v_razorpay_payment_id body)) as [rp_payment|] eqn:Hfetch.
  2:{ left. unfold razorpay_verify. msimpl. rewrite Ht. msimpl. rewrite Hu. msimpl.
      unfold load_payment in Hload. rewrite Hload, Hord, String.eqb_refl. msimpl.
      rewrite Hsig. msimpl. rewrite Hfetch. reflexivity. }
  destruct (py_get rp_payment "status" (JStr "")) as [rp_status|] eqn:Hst.
  2:{ left. unfold razorpay_verify. msimpl. rewrite Ht. msimpl. rewrite Hu. msimpl.
      unfold load_payment in Hload. rewrite Hload, Hord, String.eqb_refl. msimpl.
      rewrite Hsig. msimpl. rewrite Hfetch. msimpl. rewrite Hst. reflexivity. }
  assert (Hacc : verify_accepted L cfg W body payload db tenant_id pay rp_payment rp_status).
  { repeat split; eauto. exists t. auto. }
  destruct (PaymentStatus_eqb (pay_status (verified_payment body rp_status pay)) CAPTURED)
    eqn:Hcap.
  2:{ left. eapply verify_uncommitted; [exact Hacc|]. left. intros E. rewrite E in Hcap.
      discriminate. }
  assert (Hcap' : pay_status (verified_payment body rp_status pay) = CAPTURED).
  { destruct (pay_status (verified_payment body rp_status pay)); try discriminate; reflexivity. }
  destruct (load_appointment db (pay_appointment_id pay) tenant_id) as [a|] eqn:Happt.
  2:{ left. eapply verify_uncommitted; [exact Hacc|]. now right. }
  destruct (generate_receipt_pdf W (pay_id pay) "Customer" (pay_amount pay) (pay_currency pay))
    as [pdf|e] eqn:Hpdf.
  2:{ left. eapply verify_side_effect_fails; eauto. }
  destruct (send_booking_email_delay W "customer@email.com" "Payment Receipt"
              "Your payment was successful." pdf) as [[]|e] eqn:Hsend.
  2:{ left. eapply verify_side_effect_fails; eauto. }
  right. exists tenant_id, pay, rp_payment, rp_status, a, pdf. auto.
Qed.

(** ** The refund, step by step *)

Lemma refund_applies L cfg W body payload db tenant_id pay pid data refund refund_id :
  refund_accepted L W body payload db tenant_id pay pid data refund refund_id ->
  response (razorpay_refund L cfg W body payload) db
  = Ok (JDict [("success", JBool true); ("refund", refund)])
  /\ persisted (razorpay_refund L cfg W body payload) db
     = mkDB (replace_payment (set_pay_status REFUNDED pay) (payments db))
            (payment_events db
             ++ [refund_created_event tenant_id (set_pay_status REFUNDED pay) refund_id refund])
            (match load_appointment db (pay_appointment_id pay) tenant_id with
             | Some a => replace_appointment (set_appt_payment_status APPT_REFUNDED a)
                                             (appointments db)
             | None => appointments db
             end)
            (customers db)
  /\ sent (razorpay_refund L cfg W body payload) db = [PaymentRefund pid data].
Proof.
  intros [[t [Ht Hu]] [Hload [Hprov [Hpid [Hne [Hreq [Hcall [i [Hi Hb]]]]]]]]].
  unfold razorpay_refund. msimpl. rewrite Ht. msimpl. rewrite Hu. msimpl.
  unfold load_payment in Hload. rewrite Hload, Hprov. msimpl.
  rewrite Hpid. destruct pid as [|c pid']; [contradiction|].
  rewrite Hreq. msimpl. rewrite Hcall. msimpl. rewrite flush_refuses_set_status.
  unfold load_appointment, replace_payment, replace_appointment.
  destruct (find _ (appointments db)); msimpl; rewrite Hi; msimpl; rewrite Hb; msimpl;
    repeat split; reflexivity.
Qed.

Lemma refund_without_payment_id L cfg W body payload db tenant_id pay :
  token_tenant L payload tenant_id ->
  load_payment db (r_payment_id body) tenant_id = Some pay ->
  pay_provider pay = RAZORPAY ->
  pay_provider_payment_id pay = None \/ pay_provider_payment_id pay = Some "" ->
  run (razorpay_refund L cfg W body payload) db
  = (Raise (HTTPException 400 "Payment not captured / missing provider_payment_id"),
     open_session db).
Proof.
  intros [t [Ht Hu]] Hload Hprov Hpid.
  unfold razorpay_refund. msimpl. rewrite Ht. msimpl. rewrite Hu. msimpl.
  unfold load_payment in Hload. rewrite Hload, Hprov. msimpl.
  destruct Hpid as [-> | ->]; reflexivity.
Qed.

Lemma refund_cases L cfg W body payload db :
  persisted (razorpay_refund L cfg W body payload) db = db
  \/ exists tenant_id pay pid data refund refund_id,
       refund_accepted L W body payload db tenant_id pay pid data refund refund_id.
Proof.
  unfold razorpay_refund. msimpl.
  destruct (py_getitem payload "tenant_id") as [t|] eqn:Ht; msimpl; [|now left].
  destruct (py_UUID L t) as [tenant_id|] eqn:Hu; msimpl; [|now left].
  destruct (load_payment db (r_payment_id body) tenant_id) as [pay|] eqn:Hload;
    unfold load_payment in Hload; rewrite Hload; [|now left].
  destruct (pay_provider pay) eqn:Hprov; msimpl; [|now left].
  destruct (pay_provider_payment_id pay) as [[|c pid']|] eqn:Hpid; msimpl;
    [now left| |now left].
  destruct (refund_request (r_amount body)) as [data|] eqn:Hreq; msimpl; [|now left].
  destruct (client_payment_refund W (String c pid') data) as [refund|] eqn:Hcall;
    msimpl; [|now left].
  destruct (py_get refund "id" JNull) as [i|] eqn:Hi.
  2:{ left. destruct (find _ (appointments db)); msimpl; reflexivity. }
  destruct (bind_str_opt i) as [refund_id|] eqn:Hb.
  2:{ left. destruct (find _ (appointments db)); msimpl; reflexivity. }
  right. exists tenant_id, pay, (String c pid'), data, refund, refund_id.
  repeat split; eauto.
  - exists t. auto.
  - discriminate.
Qed.

(** ** Order creation, and what is sent to the provider *)

(** The call [Payment(...)] of line 60 passes [customer_id], which class
    [Payment] does not declare: the constructor raises. *)
Lemma order_payment_rejected :
  declarative_constructor Payment_attributes order_payment_kwargs = Raise TypeError.
Proof. vm_compute. reflexivity. Qed.

(** So order creation never gets to its [db.add]: every request ends in an
    exception with nothing committed. *)
Lemma order_never_commits L cfg W body payload db :
  (exists e, response (create_razorpay_order L cfg W body payload) db = Raise e)
  /\ persisted (create_razorpay_order L cfg W body payload) db = db.
Proof.
  unfold create_razorpay_order. msimpl.
  destruct (py_get payload "tenant_id" JNull) as [ts|]; msimpl;
    [|split; [eexists|]; reflexivity].
  destruct (truthy ts); msimpl; [|split; [eexists|]; reflexivity].
  destruct (py_UUID L ts) as [tenant_id|[]]; msimpl;
    try (split; [eexists|]; reflexivity).
  destruct (find _ (appointments db)) as [a|]; msimpl; [|split; [eexists|]; reflexivity].
  destruct (py_round _) as [n|]; msimpl; [|split; [eexists|]; reflexivity].
  destruct (client_order_create W _) as [order|]; msimpl;
    [|split; [eexists|]; reflexivity].
  destruct (py_getitem order "id") as [i|]; msimpl; [|split; [eexists|]; reflexivity].
  rewrite order_payment_rejected. split; [eexists|]; reflexivity.
Qed.

Lemma order_sent L cfg W body payload db :
  sent (create_razorpay_order L cfg W body payload) db = []
  \/ exists tenant_id n,
       py_round (float_mul (co_amount body) (float_of_Z 100)) = Ok n
       /\ sent (create_razorpay_order L cfg W body payload) db
          = [OrderCreate (order_request tenant_id (co_appointment_id body) n
                                        (co_currency body))].
Proof.
  unfold create_razorpay_order. msimpl.
  destruct (py_get payload "tenant_id" JNull) as [ts|]; msimpl; [|now left].
  destruct (truthy ts); msimpl; [|now left].
  destruct (py_UUID L ts) as [tenant_id|[]]; msimpl; try now left.
  destruct (find _ (appointments db)) as [a|]; msimpl; [|now left].
  destruct (py_round _) as [n|] eqn:Hn; msimpl; [|now left].
  right. exists tenant_id, n. split; [reflexivity|].
  destruct (client_order_create W _) as [order|]; msimpl; [|reflexivity].
  destruct (py_getitem order "id") as [i|]; msimpl; [|reflexivity].
  rewrite order_payment_rejected. reflexivity.
Qed.

Lemma refund_sent L cfg W body payload db :
  sent (razorpay_refund L cfg W body payload) db = []
  \/ exists pid data,
       refund_request (r_amount body) = Ok data
       /\ sent (razorpay_refund L cfg W body payload) db = [PaymentRefund pid data].
Proof.
  unfold razorpay_refund. msimpl.
  destruct (py_getitem payload "tenant_id") as [t|]; msimpl; [|now left].
  destruct (py_UUID L t) as [tenant_id|]; msimpl; [|now left].
  destruct (find _ (payments db)) as [pay|]; msimpl; [|now left].
  destruct (pay_provider pay); msimpl; [|now left].
  destruct (pay_provider_payment_id pay) as [[|c pid']|]; msimpl; [now left| |now left].
  destruct (refund_request (r_amount body)) as [data|] eqn:Hreq; msimpl; [|now left].
  right. exists (String c pid'), data. split; [reflexivity|].
  destruct (client_payment_refund W (String c pid') data) as [refund|]; msimpl;
    [|reflexivity].
  rewrite flush_refuses_set_status.
  destruct (find _ (appointments db)); msimpl;
    (destruct (py_get refund "id" JNull) as [i|]; msimpl; [|reflexivity];
     destruct (bind_str_opt i); msimpl; reflexivity).
Qed.

(** ** The ledger *)

Lemma has_event_app db db' t x :
  (forall e, In e (payment_events db) -> In e (payment_events db')) ->
  has_event db t x -> has_event db' t x.
Proof. intros Hincl [e [Hin He]]. exists e. auto. Qed.

Lemma webhook_final_keys env ev st p :
  pay_tenant_id (webhook_payment_id env ev (webhook_status st p)) = pay_tenant_id p
  /\ pay_provider_order_id (webhook_payment_id env ev (webhook_status st p))
     = pay_provider_order_id p.
Proof.
  unfold webhook_payment_id, webhook_status. repeat case_head; auto.
Qed.

Lemma load_payment_in db id t p : load_payment db id t = Some p -> In p (payments db).
Proof. unfold load_payment. intros H. now apply find_some in H. Qed.

(** ** Webhooks that carry only an order entity *)

Lemma py_get_dict kv k d :
  py_get (JDict kv) k d = Ok (match assoc k kv with Some v => v | None => d end).
Proof. reflexivity. Qed.

Lemma truthy_dict k kv v : assoc k kv = Some v -> truthy (JDict kv) = true.
Proof. destruct kv; [discriminate|reflexivity]. Qed.

Lemma order_only_extract j oid :
  order_only_envelope j oid ->
  exists env, extract_envelope j = Ok env
              /\ env_event_id env = JStr oid
              /\ env_provider_order_id env = JStr oid.
Proof.
  intros [top [pl [o [ent [-> [Hpl [Hpay [Hrf [Ho [Hent [Hid [Hne Hnotes]]]]]]]]]]]].
  assert (Htpl : truthy (JDict pl) = true) by (eapply truthy_dict; eauto).
  assert (Hto : truthy (JDict o) = true) by (eapply truthy_dict; eauto).
  assert (Htent : truthy (JDict ent) = true) by (eapply truthy_dict; eauto).
  assert (Htoid : truthy (JStr oid) = true) by now apply truthy_str.
  assert (Hnull : truthy JNull = false) by reflexivity.
  assert (Hempty : truthy (JDict []) = false) by reflexivity.
  assert (Eid_pay : entity_id (JDict top) "payment" = Ok JNull).
  { unfold entity_id, rbind. rewrite py_get_dict, Hpl, py_get_dict, Hpay. reflexivity. }
  assert (Eid_ord : entity_id (JDict top) "order" = Ok (JStr oid)).
  { unfold entity_id, rbind.
    rewrite py_get_dict, Hpl, py_get_dict, Ho, py_get_dict, Hent, py_get_dict, Hid.
    reflexivity. }
  assert (Ent_pay : safe_entity (JDict top) "payment" = Ok (JDict [])).
  { unfold safe_entity, rbind, or_empty.
    rewrite py_get_dict, Hpl, Htpl, py_get_dict, Hpay, Hnull. reflexivity. }
  assert (Ent_rf : safe_entity (JDict top) "refund" = Ok (JDict [])).
  { unfold safe_entity, rbind, or_empty.
    rewrite py_get_dict, Hpl, Htpl, py_get_dict, Hrf, Hnull. reflexivity. }
  assert (Ent_ord : safe_entity (JDict top) "order" = Ok (JDict ent)).
  { unfold safe_entity, rbind, or_empty.
    rewrite py_get_dict, Hpl, Htpl, py_get_dict, Ho, Hto, py_get_dict, Hent, Htent.
    reflexivity. }
  unfold extract_envelope.
  rewrite Eid_pay, Eid_ord, Ent_pay, Ent_rf, Ent_ord.
  unfold rbind at 1. rewrite py_get_dict.
  unfold rbind at 1. rewrite Hnull. cbn [negb].
  unfold rbind at 1. rewrite Htoid. cbn [negb].
  unfold rbind, r_or.
  rewrite !py_get_dict. cbn [assoc]. rewrite Hnull, Hid, Htoid.
  assert (Hnotes' : exists a2 a3,
             (if truthy match assoc "notes" ent with Some v => v | None => JNull end
              then Ok match assoc "notes" ent with Some v => v | None => JNull end
              else Ok (JDict [])) = Ok a2
             /\ py_get a2 "tenant_id" JNull = Ok a3).
  { destruct (assoc "notes" ent) as [n|].
    - destruct Hnotes as [Hn | [kv ->]].
      + rewrite Hn. eexists _, _. split; reflexivity.
      + destruct (truthy (JDict kv)); eexists _, _; split; reflexivity.
    - rewrite Hnull. eexists _, _. split; reflexivity. }
  destruct Hnotes' as [a2 [a3 [-> ->]]].
  destruct (truthy (match assoc "status" ent with Some v => v | None => JNull end));
    eexists; (split; [reflexivity|]); auto.
Qed.

(** C10.  The claim builds on order creation appending the [order.created]
    event keyed by the provider order id.  The shipped handler gets as far as
    the provider and then fails at line 60, where [Payment(...)] is given
    [customer_id]: the order exists at the provider, the request ends in a
    [TypeError], and neither a payment row nor an event is stored.  A later
    order-only webhook for that order finds no payment: it is acknowledged
    because nothing is resolved, not because it is classified as a duplicate
    of an [order.created] event.  The webhook's half of the claim is as
    claimed: on [db_created], which holds the row and the event the handler
    is written to store, the same webhook finds the payment, finds the
    [order.created] event under its event id, and is acknowledged as a
    duplicate with nothing written. *)
Theorem order_creation_stores_no_event :
  response (create_razorpay_order toy_lib cfg0 world_ok order_900 token_1) db0
  = Raise TypeError
  /\ sent (create_razorpay_order toy_lib cfg0 world_ok order_900 token_1) db0
     = [OrderCreate (order_request tenant_1 appt_1 90000 "INR")]
  /\ step toy_lib cfg0 (ReqOrder world_ok order_900 token_1) db0 = db0
  /\ payments db0 = []
  /\ payment_events db0 = []
  /\ order_only_envelope (wh_json wh_order_paid) "order_abc"
  /\ resolve_payment toy_lib JNull (JStr "order_abc") (open_session db0)
     = (Ok None, open_session db0)
  /\ run (razorpay_webhook toy_lib cfg0 wh_order_paid) db0 = (Ok success, open_session db0)
  /\ resolve_payment toy_lib JNull (JStr "order_abc") (open_session db_created)
     = (Ok (Some (row_1 None CREATED)), open_session db_created)
  /\ idempotency_check (row_1 None CREATED) (JStr "order_abc") (open_session db_created)
     = (Ok (Some (order_created_event tenant_1 "order_abc" order_abc)),
        open_session db_created)
  /\ run (razorpay_webhook toy_lib cfg0 wh_order_paid) db_created
     = (Ok success, open_session db_created).
Proof.
  split; [vm_compute; reflexivity|]. split; [vm_compute; reflexivity|].
  split; [vm_compute; reflexivity|]. split; [reflexivity|]. split; [reflexivity|].
  split.
  { eexists _, _, _, _. repeat split; try reflexivity. discriminate. }
  repeat split; vm_compute; reflexivity.
Qed.

(** ** The status is written without a guard *)

(** Once the checks are passed, the session holds the payment row with the
    client's payment id and the mapped status, however the request ends. *)
Lemma verify_session_payments L cfg W body payload db tenant_id pay rp_payment rp_status :
  verify_accepted L cfg W body payload db tenant_id pay rp_payment rp_status ->
  payments (work (snd (run (razorpay_verify L cfg W body payload) db)))
  = replace_payment (verified_payment body rp_status pay) (payments db).
Proof.
  intros Hacc.
  destruct (PaymentStatus_eqb (pay_status (verified_payment body rp_status pay)) CAPTURED)
    eqn:Hcap.
  2:{ eapply verify_uncommitted; [exact Hacc|]. left. intros E. rewrite E in Hcap.
      discriminate. }
  assert (Hcap' : pay_status (verified_payment body rp_status pay) = CAPTURED).
  { destruct (pay_status (verified_payment body rp_status pay)); try discriminate; reflexivity. }
  destruct (load_appointment db (pay_appointment_id pay) tenant_id) as [a|] eqn:Happt.
  2:{ eapply verify_uncommitted; [exact Hacc|]. now right. }
  verify_start.
  fold (verified_payment body rp_status pay).
  rewrite verified_payment_appointment.
  assert (Hrep : replace_payment (verified_payment body rp_status pay)
                   (replace_payment
                      (set_pay_provider_payment_id (Some (v_razorpay_payment_id body)) pay)
                      (payments db))
                 = replace_payment (verified_payment body rp_status pay) (payments db)).
  { apply replace_payment_twice. now rewrite verified_payment_id. }
  unfold replace_payment in Hrep. unfold replace_payment. rewrite Hrep.
  unfold load_appointment in Happt. rewrite Happt, Hcap'. msimpl.
  destruct (generate_receipt_pdf W _ _ _ _) as [pdf|]; msimpl; [|reflexivity].
  destruct (send_booking_email_delay W _ _ _ _) as [[]|]; msimpl; [|reflexivity].
  destruct (column_refused 255 _ _); reflexivity.
Qed.

Lemma verify_response_is L cfg W body payload db tenant_id pay rp_payment rp_status r :
  verify_accepted L cfg W body payload db tenant_id pay rp_payment rp_status ->
  response (razorpay_verify L cfg W body payload) db = Ok r ->
  r = verify_response (verified_payment body rp_status pay).
Proof.
  intros Hacc.
  destruct (PaymentStatus_eqb (pay_status (verified_payment body rp_status pay)) CAPTURED)
    eqn:Hcap.
  2:{ assert (H : pay_status (verified_payment body rp_status pay) <> CAPTURED).
      { intros E. rewrite E in Hcap. discriminate. }
      destruct (verify_uncommitted L cfg W body payload db tenant_id pay rp_payment
                  rp_status Hacc (or_introl H)) as [-> _].
      now intros [= <-]. }
  assert (Hcap' : pay_status (verified_payment body rp_status pay) = CAPTURED).
  { destruct (pay_status (verified_payment body rp_status pay)); try discriminate; reflexivity. }
  destruct (load_appointment db (pay_appointment_id pay) tenant_id) as [a|] eqn:Happt.
  2:{ destruct (verify_uncommitted L cfg W body payload db tenant_id pay rp_payment
                  rp_status Hacc (or_intror Happt)) as [-> _].
      now intros [= <-]. }
  destruct (generate_receipt_pdf W (pay_id pay) "Customer" (pay_amount pay) (pay_currency pay))
    as [pdf|e] eqn:Hpdf.
  2:{ destruct (verify_side_effect_fails L cfg W body payload db tenant_id pay rp_payment
                  rp_status a e Hacc Hcap' Happt (or_introl Hpdf)) as [-> _].
      intros [=]. }
  destruct (send_booking_email_delay W "customer@email.com" "Payment Receipt"
              "Your payment was successful." pdf) as [[]|e] eqn:Hsend.
  2:{ destruct (verify_side_effect_fails L cfg W body payload db tenant_id pay rp_payment
                  rp_status a e Hacc Hcap' Happt
                  (or_intror (ex_intro _ pdf (conj Hpdf Hsend)))) as [-> _].
      intros [=]. }
  destruct (flush_refuses pay (verified_payment body rp_status pay)) eqn:Hfl.
  { destruct (verify_refused L cfg W body payload db tenant_id pay rp_payment rp_status
                a pdf Hacc Hcap' Happt Hpdf Hsend Hfl) as [-> _].
    intros [=]. }
  destruct (verify_committed L cfg W body payload db tenant_id pay rp_payment rp_status
              a pdf Hacc Hcap' Happt Hpdf Hsend Hfl) as [-> _].
  now intros [= <-].
Qed.

(** C1 (as the code has it).  No entry point consults the current status
    before it writes a proposed one.  A webhook that is authenticated,
    resolves a payment, is no duplicate and carries a payment id that fits
    its column (at most 255 characters) commits the status its status string
    maps to; a verification call that passes its checks assigns the mapped
    status to the payment in the session and reports it; a refund that passes
    its checks commits REFUNDED.  In each case the new status is the proposal
    whatever the current status is, and the current status only when the
    status string maps to nothing. *)
Theorem status_written_without_guard L cfg :
  (forall req db env pay ev,
      authenticated L cfg req ->
      extract_envelope (wh_json req) = Ok env ->
      fst (resolve_payment L (env_tenant_id_str env) (env_provider_order_id env)
             (open_session db)) = Ok (Some pay) ->
      fst (idempotency_check pay (env_event_id env) (open_session db)) = Ok None ->
      webhook_event pay env (wh_json req) = Ok ev ->
      fits_column 255 (ev_provider_payment_id ev) = true ->
      let pay' := webhook_payment_id env ev (webhook_status (env_status env) pay) in
      payments (persisted (razorpay_webhook L cfg req) db)
      = replace_payment pay' (payments db)
      /\ pay_id pay' = pay_id pay
      /\ pay_status pay'
         = overwrite (spec_webhook_proposal (env_status env)) (pay_status pay))
  /\ (forall W body payload db tenant_id pay rp_payment rp_status,
      verify_accepted L cfg W body payload db tenant_id pay rp_payment rp_status ->
      let pay' := verified_payment body rp_status pay in
      payments (work (snd (run (razorpay_verify L cfg W body payload) db)))
      = replace_payment pay' (payments db)
      /\ pay_id pay' = pay_id pay
      /\ pay_status pay'
         = overwrite (spec_verify_proposal rp_status) (pay_status pay)
      /\ forall r, response (razorpay_verify L cfg W body payload) db = Ok r ->
                   r = verify_response pay')
  /\ (forall W body payload db tenant_id pay pid data refund refund_id,
      refund_accepted L W body payload db tenant_id pay pid data refund refund_id ->
      payments (persisted (razorpay_refund L cfg W body payload) db)
      = replace_payment (set_pay_status REFUNDED pay) (payments db)).
Proof.
  split; [|split].
  - intros req db env pay ev Hauth Hext Hres Hdup Hev Hfit pay'.
    destruct (webhook_applies L cfg req db env pay ev Hauth Hext Hres Hdup Hev
                (webhook_flush_accepts env ev (env_status env) pay Hfit))
      as [db' [Hrun [Hpay _]]].
    unfold persisted. rewrite Hrun. cbn [snd stored].
    split; [exact Hpay|]. split.
    + unfold pay'. now rewrite pay_id_webhook_payment_id, pay_id_webhook_status.
    + unfold pay', webhook_payment_id.
      destruct (truthy (env_provider_payment_id env)); apply webhook_status_overwrites.
  - intros W body payload db tenant_id pay rp_payment rp_status Hacc pay'.
    split; [eapply verify_session_payments; exact Hacc|].
    split; [apply verified_payment_id|].
    split.
    + exact (verify_status_overwrites rp_status
               (set_pay_provider_payment_id (Some (v_razorpay_payment_id body)) pay)).
    + intros r Hr. eapply verify_response_is; eauto.
  - intros W body payload db tenant_id pay pid data refund refund_id Hacc.
    destruct (refund_applies L cfg W body payload db tenant_id pay pid data refund
                refund_id Hacc) as [_ [-> _]].
    reflexivity.
Qed.

Lemma status_written_without_guard_witness :
  (let pay' := webhook_payment_id
                 (envelope_of "payment.authorized" "pay_0" "order_abc" "authorized")
                 (event_of "payment.authorized" "pay_0" "order_abc" "authorized")
                 (webhook_status (JStr "authorized") (row_1 (Some "pay_1") CAPTURED)) in
   payments (persisted (razorpay_webhook toy_lib cfg0 wh_late_authorized)
                       db_captured_by_webhook)
   = replace_payment pay' (payments db_captured_by_webhook)
   /\ pay_id pay' = payment_1
   /\ pay_status pay' = overwrite (Some AUTHORIZED) CAPTURED)
  /\ (let pay' := verified_payment verify_1 (JStr "failed") (row_1 (Some "pay_1") CAPTURED) in
      payments (work (snd (run (razorpay_verify toy_lib cfg0 (world_fetching "failed")
                                  verify_1 token_1) db_captured_by_webhook)))
      = replace_payment pay' (payments db_captured_by_webhook)
      /\ pay_id pay' = payment_1
      /\ pay_status pay' = overwrite (Some FAILED) CAPTURED
      /\ forall r, response (razorpay_verify toy_lib cfg0 (world_fetching "failed")
                               verify_1 token_1) db_captured_by_webhook = Ok r ->
                   r = verify_response pay')
  /\ payments (persisted (razorpay_refund toy_lib cfg0 world_ok refund_300 token_1)
                         db_authorized)
     = replace_payment (set_pay_status REFUNDED (row_1 (Some "pay_1") AUTHORIZED))
                       (payments db_authorized).
Proof.
  destruct (status_written_without_guard toy_lib cfg0) as [Hweb [Hver Href]].
  split; [|split].
  - apply (Hweb wh_late_authorized db_captured_by_webhook
                (envelope_of "payment.authorized" "pay_0" "order_abc" "authorized")
                (row_1 (Some "pay_1") CAPTURED)
                (event_of "payment.authorized" "pay_0" "order_abc" "authorized")).
    + eexists. split; [reflexivity|]. split; [discriminate|reflexivity].
    + vm_compute. reflexivity.
    + vm_compute. reflexivity.
    + vm_compute. reflexivity.
    + vm_compute. reflexivity.
    + vm_compute. reflexivity.
  - apply (Hver (world_fetching "failed") verify_1 token_1 db_captured_by_webhook tenant_1
                (row_1 (Some "pay_1") CAPTURED) (fetched_payment "pay_1" "failed")
                (JStr "failed")).
    repeat split; try reflexivity. eexists. split; reflexivity.
  - apply (Href world_ok refund_300 token_1 db_authorized tenant_1
                (row_1 (Some "pay_1") AUTHORIZED) "pay_1"
                (JDict [("amount", JInt 30000)]) (refund_of "pay_1") (Some "rfnd_1")).
    repeat split; try reflexivity.
    + eexists. split; reflexivity.
    + discriminate.
    + eexists. split; reflexivity.
Defined.

(** C1, as stated, fails: the captured webhook has been applied; then the
    delayed [payment.authorized] notification of an earlier attempt on the
    same order arrives.  AUTHORIZED is not reachable from CAPTURED in the
    graph, and the row goes back to AUTHORIZED. *)
Lemma late_authorized_webhook_regresses :
  row_status db_captured_by_webhook payment_1 = Some CAPTURED
  /\ response (razorpay_webhook toy_lib cfg0 wh_late_authorized) db_captured_by_webhook
     = Ok success
  /\ row_status (step toy_lib cfg0 (ReqWebhook wh_late_authorized) db_captured_by_webhook)
                payment_1 = Some AUTHORIZED
  /\ spec_reachable CAPTURED AUTHORIZED = false.
Proof. vm_compute. repeat split; reflexivity. Qed.

(** The same regression when the verifier was first to capture: its event
    carries no provider event id, so the authorized webhook of the very same
    payment is no duplicate. *)
Example authorized_after_verified_capture :
  row_status db_captured_by_verify payment_1 = Some CAPTURED
  /\ row_status (step toy_lib cfg0 (ReqWebhook wh_authorized) db_captured_by_verify)
                payment_1 = Some AUTHORIZED.
Proof. vm_compute. split; reflexivity. Qed.

(** ** The refund gate and the forged signature *)

(** C2 (as the code has it).  The refund's gate is the stored
    [provider_payment_id], not the status.  A Razorpay payment without one is
    refused with HTTP 400: nothing is sent to the provider, no row changes and
    no event is produced.  A refund that passes the checks sets REFUNDED and
    appends the [refund.created] event, whatever the status was. *)
Theorem refund_gate_is_payment_id L cfg W body payload db tenant_id pay :
  token_tenant L payload tenant_id ->
  load_payment db (r_payment_id body) tenant_id = Some pay ->
  pay_provider pay = RAZORPAY ->
  (pay_provider_payment_id pay = None \/ pay_provider_payment_id pay = Some "" ->
   response (razorpay_refund L cfg W body payload) db
   = Raise (HTTPException 400 "Payment not captured / missing provider_payment_id")
   /\ persisted (razorpay_refund L cfg W body payload) db = db
   /\ sent (razorpay_refund L cfg W body payload) db = [])
  /\ (forall pid data refund refund_id,
        refund_accepted L W body payload db tenant_id pay pid data refund refund_id ->
        response (razorpay_refund L cfg W body payload) db
        = Ok (JDict [("success", JBool true); ("refund", refund)])
        /\ payments (persisted (razorpay_refund L cfg W body payload) db)
           = replace_payment (set_pay_status REFUNDED pay) (payments db)
        /\ payment_events (persisted (razorpay_refund L cfg W body payload) db)
           = (payment_events db
              ++ [refund_created_event tenant_id (set_pay_status REFUNDED pay)
                                       refund_id refund])%list).
Proof.
  intros Htok Hload Hprov. split.
  - intros Hpid.
    pose proof (refund_without_payment_id L cfg W body payload db tenant_id pay
                  Htok Hload Hprov Hpid) as Hrun.
    unfold response, persisted, sent. rewrite Hrun. auto.
  - intros pid data refund refund_id Hacc.
    destruct (refund_applies L cfg W body payload db tenant_id pay pid data refund
                refund_id Hacc) as [Hresp [Hper _]].
    rewrite Hper. auto.
Qed.

Lemma refund_gate_is_payment_id_witness :
  (response (razorpay_refund toy_lib cfg0 world_ok refund_300 token_1) db_created
   = Raise (HTTPException 400 "Payment not captured / missing provider_payment_id")
   /\ persisted (razorpay_refund toy_lib cfg0 world_ok refund_300 token_1) db_created
      = db_created
   /\ sent (razorpay_refund toy_lib cfg0 world_ok refund_300 token_1) db_created = [])
  /\ (response (razorpay_refund toy_lib cfg0 world_ok refund_300 token_1) db_authorized
      = Ok (JDict [("success", JBool true); ("refund", refund_of "pay_1")])
      /\ payments (persisted (razorpay_refund toy_lib cfg0 world_ok refund_300 token_1)
                             db_authorized)
         = replace_payment (set_pay_status REFUNDED (row_1 (Some "pay_1") AUTHORIZED))
                           (payments db_authorized)
      /\ payment_events (persisted (razorpay_refund toy_lib cfg0 world_ok refund_300 token_1)
                                   db_authorized)
         = (payment_events db_authorized
            ++ [refund_created_event tenant_1
                  (set_pay_status REFUNDED (row_1 (Some "pay_1") AUTHORIZED))
                  (Some "rfnd_1") (refund_of "pay_1")])%list).
Proof.
  split.
  - refine (proj1 (refund_gate_is_payment_id toy_lib cfg0 world_ok refund_300 token_1
                     db_created tenant_1 (row_1 None CREATED) _ _ _) (or_introl eq_refl)).
    + eexists. split; reflexivity.
    + vm_compute. reflexivity.
    + reflexivity.
  - refine (proj2 (refund_gate_is_payment_id toy_lib cfg0 world_ok refund_300 token_1
                     db_authorized tenant_1 (row_1 (Some "pay_1") AUTHORIZED) _ _ _)
                  "pay_1" (JDict [("amount", JInt 30000)]) (refund_of "pay_1")
                  (Some "rfnd_1") _).
    + eexists. split; reflexivity.
    + vm_compute. reflexivity.
    + reflexivity.
    + repeat split; try reflexivity.
      * eexists. split; reflexivity.
      * discriminate.
      * eexists. split; reflexivity.
Defined.

(** C2, as stated, fails: the payment is AUTHORIZED (the authorized webhook
    stored its payment id with the status), and the refund goes through. *)
Lemma refund_of_authorized_payment_succeeds :
  row_status db_authorized payment_1 = Some AUTHORIZED
  /\ is_ok (response (razorpay_refund toy_lib cfg0 world_ok refund_300 token_1)
                     db_authorized) = true
  /\ row_status (step toy_lib cfg0 (ReqRefund world_ok refund_300 token_1) db_authorized)
                payment_1 = Some REFUNDED
  /\ event_types (step toy_lib cfg0 (ReqRefund world_ok refund_300 token_1) db_authorized)
     = ["order.created"; "payment.authorized"; "refund.created"].
Proof. vm_compute. repeat split; reflexivity. Qed.

Lemma compare_digest_unequal a b :
  a <> b -> compare_digest a b <> Ok true.
Proof.
  intros Hab. unfold compare_digest.
  destruct (is_ascii a && is_ascii b); [|discriminate].
  apply String.eqb_neq in Hab. rewrite Hab. discriminate.
Qed.

Lemma verify_rejects_signature L cfg W body payload db :
  verify_razorpay_checkout_signature L (v_razorpay_order_id body)
    (v_razorpay_payment_id body) (v_razorpay_signature body) (RAZORPAY_KEY_SECRET cfg)
  <> Ok true ->
  exists e, run (razorpay_verify L cfg W body payload) db = (Raise e, open_session db).
Proof.
  intros Hsig. unfold razorpay_verify. msimpl.
  destruct (py_getitem payload "tenant_id") as [t|]; msimpl; [|eauto].
  destruct (py_UUID L t) as [tenant_id|]; msimpl; [|eauto].
  destruct (find _ (payments db)) as [pay|]; msimpl; [|eauto].
  destruct (pay_provider_order_id pay =? v_razorpay_order_id body)%string; msimpl; [|eauto].
  destruct (verify_razorpay_checkout_signature L (v_razorpay_order_id body)
              (v_razorpay_payment_id body) (v_razorpay_signature body)
              (RAZORPAY_KEY_SECRET cfg)) as [[|]|]; msimpl; eauto.
  now contradiction Hsig.
Qed.

(** C4 (as the code has it).  A verification call whose signature is not
    the HMAC-SHA256 tag of ["{order_id}|{payment_id}"] under the key secret
    never gets through: the handler raises, the provider is never asked for
    the payment (so what the provider would report is irrelevant), and
    neither the database nor the session sees any change.  When the payment
    exists for the tenant and the order id matches, the error is HTTP 400
    "Invalid signature" for an ASCII signature, and the [TypeError] of
    [hmac.compare_digest], which nothing catches, for a signature with a
    character outside ASCII. *)
Theorem forged_signature_never_mutates L cfg W body payload db :
  v_razorpay_signature body
  <> hmac_sha256_hexdigest L (RAZORPAY_KEY_SECRET cfg)
       (v_razorpay_order_id body ++ "|" ++ v_razorpay_payment_id body) ->
  (exists e, response (razorpay_verify L cfg W body payload) db = Raise e)
  /\ persisted (razorpay_verify L cfg W body payload) db = db
  /\ work (snd (run (razorpay_verify L cfg W body payload) db)) = db
  /\ sent (razorpay_verify L cfg W body payload) db = []
  /\ (forall tenant_id pay,
        token_tenant L payload tenant_id ->
        load_payment db (v_payment_id body) tenant_id = Some pay ->
        pay_provider_order_id pay = v_razorpay_order_id body ->
        is_ascii (v_razorpay_signature body) = true ->
        is_ascii (hmac_sha256_hexdigest L (RAZORPAY_KEY_SECRET cfg)
                    (v_razorpay_order_id body ++ "|" ++ v_razorpay_payment_id body)) = true ->
        response (razorpay_verify L cfg W body payload) db
        = Raise (HTTPException 400 "Invalid signature"))
  /\ (forall tenant_id pay,
        token_tenant L payload tenant_id ->
        load_payment db (v_payment_id body) tenant_id = Some pay ->
        pay_provider_order_id pay = v_razorpay_order_id body ->
        is_ascii (v_razorpay_signature body) = false ->
        response (razorpay_verify L cfg W body payload) db = Raise TypeError).
Proof.
  intros Hforged.
  assert (Hsig : verify_razorpay_checkout_signature L (v_razorpay_order_id body)
                   (v_razorpay_payment_id body) (v_razorpay_signature body)
                   (RAZORPAY_KEY_SECRET cfg) <> Ok true).
  { unfold verify_razorpay_checkout_signature. apply compare_digest_unequal.
    intros E. apply Hforged. now rewrite E. }
  destruct (verify_rejects_signature L cfg W body payload db Hsig) as [e He].
  unfold response, persisted, sent. rewrite He. cbn [fst snd stored work calls open_session].
  split; [eauto|]. repeat (split; [reflexivity|]).
  split.
  2:{ intros tenant_id pay [t [Ht Hu]] Hload Hord Ha.
      assert (Hrun : run (razorpay_verify L cfg W body payload) db
                     = (Raise TypeError, open_session db)).
      { unfold razorpay_verify. msimpl.
        rewrite Ht. msimpl. rewrite Hu. msimpl.
        unfold load_payment in Hload. rewrite Hload, Hord, String.eqb_refl. msimpl.
        unfold verify_razorpay_checkout_signature, compare_digest.
        rewrite Ha, andb_false_r. reflexivity. }
      rewrite He in Hrun. now injection Hrun as ->. }
  intros tenant_id pay [t [Ht Hu]] Hload Hord Ha1 Ha2.
  assert (Hneq : (hmac_sha256_hexdigest L (RAZORPAY_KEY_SECRET cfg)
                    (v_razorpay_order_id body ++ "|" ++ v_razorpay_payment_id body)
                  =? v_razorpay_signature body)%string = false).
  { apply String.eqb_neq. intros E. apply Hforged. now rewrite E. }
  assert (Hrun : run (razorpay_verify L cfg W body payload) db
                 = (Raise (HTTPException 400 "Invalid signature"), open_session db)).
  { unfold razorpay_verify. msimpl.
    rewrite Ht. msimpl. rewrite Hu. msimpl.
    unfold load_payment in Hload. rewrite Hload, Hord, String.eqb_refl. msimpl.
    unfold verify_razorpay_checkout_signature, compare_digest.
    rewrite Ha1, Ha2. cbn [andb]. rewrite Hneq. reflexivity. }
  rewrite He in Hrun. now injection Hrun as ->.
Qed.

Lemma forged_signature_never_mutates_witness :
  response (razorpay_verify toy_lib cfg0 world_ok verify_forged token_1) db_created
  = Raise (HTTPException 400 "Invalid signature")
  /\ persisted (razorpay_verify toy_lib cfg0 world_ok verify_forged token_1) db_created
     = db_created
  /\ sent (razorpay_verify toy_lib cfg0 world_ok verify_forged token_1) db_created = [].
Proof.
  destruct (forged_signature_never_mutates toy_lib cfg0 world_ok verify_forged token_1
              db_created) as [_ [H2 [_ [H4 [H5 _]]]]].
  - vm_compute. discriminate.
  - split; [|split; [exact H2|exact H4]].
    apply (H5 tenant_1 (row_1 None CREATED)).
    + eexists. split; reflexivity.
    + vm_compute. reflexivity.
    + reflexivity.
    + reflexivity.
    + reflexivity.
Defined.

(** C4, as stated, fails: the signature is forged and carries a character
    outside ASCII.  [hmac.compare_digest] raises [TypeError] on it, the
    handler has no [except], and the call ends in that exception: it is
    turned away, but with no authentication error (no [HTTPException] at
    all).  The payment is untouched. *)
Lemma non_ascii_forged_signature_is_a_type_error :
  v_razorpay_signature verify_forged_non_ascii
  <> hmac_sha256_hexdigest toy_lib (RAZORPAY_KEY_SECRET cfg0) "order_abc|pay_1"
  /\ response (razorpay_verify toy_lib cfg0 world_ok verify_forged_non_ascii token_1)
              db_created = Raise TypeError
  /\ (forall code detail,
        response (razorpay_verify toy_lib cfg0 world_ok verify_forged_non_ascii token_1)
                 db_created <> Raise (HTTPException code detail))
  /\ step toy_lib cfg0 (ReqVerify world_ok verify_forged_non_ascii token_1) db_created
     = db_created.
Proof.
  split; [vm_compute; discriminate|].
  assert (H : response (razorpay_verify toy_lib cfg0 world_ok verify_forged_non_ascii
                          token_1) db_created = Raise TypeError)
    by (vm_compute; reflexivity).
  split; [exact H|]. split; [intros code detail; rewrite H; discriminate|].
  vm_compute. reflexivity.
Qed.

(** ** The stored payment id, and the side effects of a capture *)

Lemma or_none_truthy v r : truthy v = true -> or_none v = Ok r -> exists s, v = JStr s /\ r = Some s.
Proof.
  intros Ht. unfold or_none. rewrite Ht.
  destruct (bind_str v) as [s|] eqn:Hb; [|discriminate].
  apply bind_str_ok in Hb. intros [= <-]. eauto.
Qed.

Lemma webhook_event_payment_id pay env j ev :
  webhook_event pay env j = Ok ev ->
  or_none (env_provider_payment_id env) = Ok (ev_provider_payment_id ev).
Proof.
  unfold webhook_event, rbind.
  destruct (bind_str _); [|discriminate].
  destruct (bind_str_opt _); [|discriminate].
  destruct (or_none (env_provider_order_id env)); [|discriminate].
  destruct (or_none (env_provider_payment_id env)); [|discriminate].
  now intros [= <-].
Qed.

(** C6 (as the code has it).  Neither writer looks at the stored
    [provider_payment_id].  A webhook that is applied stores the payment id
    it extracted whenever it extracted one that fits the column (at most 255
    characters), and keeps the stored value only when it extracted none; a
    verification call that passes its checks assigns the client's payment id
    in the session. *)
Theorem payment_id_overwritten L cfg :
  (forall req db env pay ev,
      authenticated L cfg req ->
      extract_envelope (wh_json req) = Ok env ->
      fst (resolve_payment L (env_tenant_id_str env) (env_provider_order_id env)
             (open_session db)) = Ok (Some pay) ->
      fst (idempotency_check pay (env_event_id env) (open_session db)) = Ok None ->
      webhook_event pay env (wh_json req) = Ok ev ->
      fits_column 255 (ev_provider_payment_id ev) = true ->
      exists pay',
        payments (persisted (razorpay_webhook L cfg req) db)
        = replace_payment pay' (payments db)
        /\ pay_id pay' = pay_id pay
        /\ (truthy (env_provider_payment_id env) = true ->
            exists new, env_provider_payment_id env = JStr new
                        /\ pay_provider_payment_id pay' = Some new)
        /\ (truthy (env_provider_payment_id env) = false ->
            pay_provider_payment_id pay' = pay_provider_payment_id pay))
  /\ (forall W body payload db tenant_id pay rp_payment rp_status,
      verify_accepted L cfg W body payload db tenant_id pay rp_payment rp_status ->
      exists pay',
        payments (work (snd (run (razorpay_verify L cfg W body payload) db)))
        = replace_payment pay' (payments db)
        /\ pay_id pay' = pay_id pay
        /\ pay_provider_payment_id pay' = Some (v_razorpay_payment_id body)).
Proof.
  split.
  - intros req db env pay ev Hauth Hext Hres Hdup Hev Hfit.
    destruct (webhook_applies L cfg req db env pay ev Hauth Hext Hres Hdup Hev
                (webhook_flush_accepts env ev (env_status env) pay Hfit))
      as [db' [Hrun [Hpay _]]].
    exists (webhook_payment_id env ev (webhook_status (env_status env) pay)).
    unfold persisted. rewrite Hrun. cbn [snd stored].
    split; [exact Hpay|]. split.
    { now rewrite pay_id_webhook_payment_id, pay_id_webhook_status. }
    unfold webhook_payment_id. split; intros Ht; rewrite Ht.
    + apply webhook_event_payment_id in Hev.
      destruct (or_none_truthy _ _ Ht Hev) as [new [Hnew Hsome]].
      exists new. split; [exact Hnew|]. cbn. exact Hsome.
    + unfold webhook_status. repeat case_head; reflexivity.
  - intros W body payload db tenant_id pay rp_payment rp_status Hacc.
    exists (verified_payment body rp_status pay).
    split; [eapply verify_session_payments; exact Hacc|].
    split; [apply verified_payment_id|].
    apply verified_payment_fields.
Qed.

Lemma payment_id_overwritten_witness :
  (exists pay',
     payments (persisted (razorpay_webhook toy_lib cfg0 wh_second_attempt) db_authorized)
     = replace_payment pay' (payments db_authorized)
     /\ pay_id pay' = payment_1
     /\ (truthy (JStr "pay_2") = true ->
         exists new, JStr "pay_2" = JStr new /\ pay_provider_payment_id pay' = Some new)
     /\ (truthy (JStr "pay_2") = false ->
         pay_provider_payment_id pay' = Some "pay_1"))
  /\ (exists pay',
        payments (work (snd (run (razorpay_verify toy_lib cfg0 (world_fetching "authorized")
                                    verify_2 token_1) db_authorized)))
        = replace_payment pay' (payments db_authorized)
        /\ pay_id pay' = payment_1
        /\ pay_provider_payment_id pay' = Some "pay_2").
Proof.
  destruct (payment_id_overwritten toy_lib cfg0) as [Hweb Hver].
  split.
  - apply (Hweb wh_second_attempt db_authorized
                (envelope_of "payment.captured" "pay_2" "order_abc" "captured")
                (row_1 (Some "pay_1") AUTHORIZED)
                (event_of "payment.captured" "pay_2" "order_abc" "captured")).
    + eexists. split; [reflexivity|]. split; [discriminate|reflexivity].
    + vm_compute. reflexivity.
    + vm_compute. reflexivity.
    + vm_compute. reflexivity.
    + vm_compute. reflexivity.
    + vm_compute. reflexivity.
  - apply (Hver (world_fetching "authorized") verify_2 token_1 db_authorized tenant_1
                (row_1 (Some "pay_1") AUTHORIZED) (fetched_payment "pay_2" "authorized")
                (JStr "authorized")).
    repeat split; try reflexivity. eexists. split; reflexivity.
Defined.

(** C6, as stated, fails: the payment holds [pay_1]; a webhook for a second
    payment attempt on the same order replaces it with [pay_2]. *)
Lemma second_attempt_replaces_payment_id :
  row_provider_payment_id db_authorized payment_1 = Some (Some "pay_1")
  /\ response (razorpay_webhook toy_lib cfg0 wh_second_attempt) db_authorized = Ok success
  /\ row_provider_payment_id
       (step toy_lib cfg0 (ReqWebhook wh_second_attempt) db_authorized) payment_1
     = Some (Some "pay_2").
Proof. vm_compute. repeat split; reflexivity. Qed.

(** C7 (as the code has it).  On the CAPTURED branch the receipt is rendered
    and the email enqueued before the [checkout.verified] event is added and
    before the only commit.  If both calls return and the client's payment id
    fits its column (at most 255 characters), the event is appended and the
    transition committed; if either call raises, the exception reaches the
    caller and nothing is committed. *)
Theorem verify_side_effects_precede_commit
    L cfg W body payload db tenant_id pay rp_payment rp_status a :
  verify_accepted L cfg W body payload db tenant_id pay rp_payment rp_status ->
  pay_status (verified_payment body rp_status pay) = CAPTURED ->
  load_appointment db (pay_appointment_id pay) tenant_id = Some a ->
  (forall pdf,
      generate_receipt_pdf W (pay_id pay) "Customer" (pay_amount pay) (pay_currency pay)
      = Ok pdf ->
      send_booking_email_delay W "customer@email.com" "Payment Receipt"
        "Your payment was successful." pdf = Ok tt ->
      (str_len (v_razorpay_payment_id body) <= 255)%nat ->
      response (razorpay_verify L cfg W body payload) db
      = Ok (verify_response (verified_payment body rp_status pay))
      /\ persisted (razorpay_verify L cfg W body payload) db
         = mkDB (replace_payment (verified_payment body rp_status pay) (payments db))
                (payment_events db ++ [checkout_verified_event tenant_id body rp_payment])
                (replace_appointment (set_appt_payment_status PAID a) (appointments db))
                (customers db))
  /\ (forall e,
        generate_receipt_pdf W (pay_id pay) "Customer" (pay_amount pay) (pay_currency pay)
        = Raise e
        \/ (exists pdf,
              generate_receipt_pdf W (pay_id pay) "Customer" (pay_amount pay)
                (pay_currency pay) = Ok pdf
              /\ send_booking_email_delay W "customer@email.com" "Payment Receipt"
                   "Your payment was successful." pdf = Raise e) ->
        response (razorpay_verify L cfg W body payload) db = Raise e
        /\ persisted (razorpay_verify L cfg W body payload) db = db).
Proof.
  intros Hacc Hcap Happt. split.
  - intros pdf Hpdf Hsend Hlen.
    destruct (verify_committed L cfg W body payload db tenant_id pay rp_payment rp_status
                a pdf Hacc Hcap Happt Hpdf Hsend
                (verify_flush_accepts body rp_status pay Hlen)) as [H1 [H2 _]].
    auto.
  - intros e Hfail. eapply verify_side_effect_fails; eauto.
Qed.

Lemma verify_side_effects_precede_commit_witness :
  (response (razorpay_verify toy_lib cfg0 world_ok verify_1 token_1) db_created
   = Ok (verify_response (verified_payment verify_1 (JStr "captured") (row_1 None CREATED)))
   /\ persisted (razorpay_verify toy_lib cfg0 world_ok verify_1 token_1) db_created
      = mkDB (replace_payment (verified_payment verify_1 (JStr "captured")
                                 (row_1 None CREATED)) (payments db_created))
             (payment_events db_created
              ++ [checkout_verified_event tenant_1 verify_1 (fetched_payment "pay_1" "captured")])
             (replace_appointment (set_appt_payment_status PAID (appointment_1 UNPAID))
                                  (appointments db_created))
             (customers db_created))
  /\ (response (razorpay_verify toy_lib cfg0 world_broker_down verify_1 token_1) db_created
      = Raise (CollaboratorError "broker unreachable")
      /\ persisted (razorpay_verify toy_lib cfg0 world_broker_down verify_1 token_1)
                   db_created = db_created).
Proof.
  split.
  - refine (proj1 (verify_side_effects_precede_commit toy_lib cfg0 world_ok verify_1
                     token_1 db_created tenant_1 (row_1 None CREATED)
                     (fetched_payment "pay_1" "captured") (JStr "captured")
                     (appointment_1 UNPAID) _ _ _) "%PDF-1.4" _ _ _).
    + repeat split; try reflexivity. eexists. split; reflexivity.
    + reflexivity.
    + vm_compute. reflexivity.
    + reflexivity.
    + reflexivity.
    + vm_compute. lia.
  - refine (proj2 (verify_side_effects_precede_commit toy_lib cfg0 world_broker_down
                     verify_1 token_1 db_created tenant_1 (row_1 None CREATED)
                     (fetched_payment "pay_1" "captured") (JStr "captured")
                     (appointment_1 UNPAID) _ _ _)
                  (CollaboratorError "broker unreachable") _).
    + repeat split; try reflexivity. eexists. split; reflexivity.
    + reflexivity.
    + vm_compute. reflexivity.
    + right. exists "%PDF-1.4". split; reflexivity.
Defined.

(** C7, as stated, fails: with the broker down (or the renderer failing) the
    request that would capture the payment ends in an error, the row is still
    CREATED and no [checkout.verified] event exists. *)
Lemma failed_enqueue_blocks_the_transition :
  response (razorpay_verify toy_lib cfg0 world_broker_down verify_1 token_1) db_created
  = Raise (CollaboratorError "broker unreachable")
  /\ row_status (step toy_lib cfg0 (ReqVerify world_broker_down verify_1 token_1) db_created)
                payment_1 = Some CREATED
  /\ event_types (step toy_lib cfg0 (ReqVerify world_broker_down verify_1 token_1) db_created)
     = ["order.created"]
  /\ response (razorpay_verify toy_lib cfg0 world_pdf_fails verify_1 token_1) db_created
     = Raise (CollaboratorError "reportlab")
  /\ row_status (step toy_lib cfg0 (ReqVerify world_pdf_fails verify_1 token_1) db_created)
                payment_1 = Some CREATED
  /\ row_status (step toy_lib cfg0 (ReqVerify world_ok verify_1 token_1) db_created)
                payment_1 = Some CAPTURED.
Proof. vm_compute. repeat split; reflexivity. Qed.

(** ** Amounts sent to the provider, and when the verifier commits *)

Lemma refund_request_amount amount data :
  refund_request (Some amount) = Ok data ->
  exists n, rupees_to_paisa amount = Ok n /\ data = JDict [("amount", JInt n)].
Proof.
  unfold refund_request, rupees_to_paisa, rbind.
  destruct (float_leb amount (S754_zero false)); [discriminate|].
  destruct (py_round _) as [n|]; [|discriminate].
  intros [= <-]. eauto.
Qed.

Lemma order_request_sent L cfg W db body payload tenant_id a n :
  order_reaches_provider L body payload db tenant_id a n ->
  sent (create_razorpay_order L cfg W body payload) db
  = [OrderCreate (order_request tenant_id (co_appointment_id body) n (co_currency body))].
Proof.
  intros [[ts [Hts [Htr Hu]]] [Ha Hn]]. unfold rupees_to_paisa in Hn.
  unfold create_razorpay_order. msimpl.
  rewrite Hts. msimpl. rewrite Htr. msimpl. rewrite Hu. msimpl.
  rewrite Ha. msimpl. rewrite Hn. msimpl.
  destruct (client_order_create W _) as [order|]; msimpl; [|reflexivity].
  destruct (py_getitem order "id") as [i|]; msimpl; [|reflexivity].
  rewrite order_payment_rejected. reflexivity.
Qed.

Lemma refund_request_sent L cfg W db body payload tenant_id pay pid amount n :
  refund_reaches_provider L body payload db tenant_id pay pid amount n ->
  sent (razorpay_refund L cfg W body payload) db
  = [PaymentRefund pid (JDict [("amount", JInt n)])].
Proof.
  intros [[t [Ht Hu]] [Hload [Hprov [Hpid [Hne [Ham [Hpos Hn]]]]]]].
  assert (Hreq : refund_request (r_amount body) = Ok (JDict [("amount", JInt n)])).
  { rewrite Ham. unfold refund_request. rewrite Hpos.
    unfold rupees_to_paisa in Hn. now rewrite Hn. }
  unfold razorpay_refund. msimpl. rewrite Ht. msimpl. rewrite Hu. msimpl.
  unfold load_payment in Hload. rewrite Hload, Hprov. msimpl.
  rewrite Hpid. destruct pid as [|c pid']; [contradiction|].
  rewrite Hreq. msimpl.
  destruct (client_payment_refund W (String c pid') _) as [refund|]; msimpl;
    [|reflexivity].
  rewrite flush_refuses_set_status.
  destruct (find _ (appointments db)); msimpl;
    (destruct (py_get refund "id" JNull) as [i|]; msimpl; [|reflexivity];
     destruct (bind_str_opt i); msimpl; reflexivity).
Qed.

(** C8. Every amount that goes to the provider is
    [int(round(float(amount) * 100))].  An order request that names a tenant
    and an appointment of that tenant sends the provider exactly one order,
    whose [amount] is [rupees_to_paisa] of the requested amount (90000 for
    900.00); a partial refund of a Razorpay payment that has a payment id
    sends exactly one refund, whose [amount] is [rupees_to_paisa] of the
    refund amount, and for a refund of 300.00 that is 30000.  Conversely
    nothing else is ever sent as an amount. *)
Theorem amounts_sent_in_paisa :
  (forall L cfg W db body payload tenant_id a n,
      order_reaches_provider L body payload db tenant_id a n ->
      sent (create_razorpay_order L cfg W body payload) db
      = [OrderCreate (order_request tenant_id (co_appointment_id body) n (co_currency body))]
      /\ py_get (order_request tenant_id (co_appointment_id body) n (co_currency body))
                "amount" JNull = Ok (JInt n))
  /\ (forall L cfg W db body payload tenant_id pay pid amount n,
      refund_reaches_provider L body payload db tenant_id pay pid amount n ->
      sent (razorpay_refund L cfg W body payload) db
      = [PaymentRefund pid (JDict [("amount", JInt n)])])
  /\ (forall L cfg W db body payload tenant_id pay pid n,
      refund_reaches_provider L body payload db tenant_id pay pid (float_of_cents 30000) n ->
      sent (razorpay_refund L cfg W body payload) db
      = [PaymentRefund pid (JDict [("amount", JInt 30000)])])
  /\ (forall L cfg W db body payload tenant_id a n,
      co_amount body = float_of_cents 90000 ->
      order_reaches_provider L body payload db tenant_id a n ->
      sent (create_razorpay_order L cfg W body payload) db
      = [OrderCreate (order_request tenant_id (co_appointment_id body) 90000
                                    (co_currency body))])
  /\ (forall L cfg W db body payload data,
      In (OrderCreate data) (sent (create_razorpay_order L cfg W body payload) db) ->
      exists n, rupees_to_paisa (co_amount body) = Ok n
                /\ py_get data "amount" JNull = Ok (JInt n))
  /\ (forall L cfg W db body payload amount pid data,
      r_amount body = Some amount ->
      In (PaymentRefund pid data) (sent (razorpay_refund L cfg W body payload) db) ->
      exists n, rupees_to_paisa amount = Ok n /\ data = JDict [("amount", JInt n)]).
Proof.
  split; [|split; [|split; [|split; [|split]]]].
  - intros L cfg W db body payload tenant_id a n H. split; [|reflexivity].
    now apply order_request_sent with (a := a).
  - intros L cfg W db body payload tenant_id pay pid amount n H.
    now apply refund_request_sent with (tenant_id := tenant_id) (pay := pay) (amount := amount).
  - intros L cfg W db body payload tenant_id pay pid n H.
    assert (Hn : n = 30000).
    { destruct H as [_ [_ [_ [_ [_ [_ [_ Hn]]]]]]]. vm_compute in Hn. now injection Hn. }
    subst n.
    now apply refund_request_sent
      with (tenant_id := tenant_id) (pay := pay) (amount := float_of_cents 30000).
  - intros L cfg W db body payload tenant_id a n Ha H.
    assert (Hn : n = 90000).
    { destruct H as [_ [_ Hn]]. rewrite Ha in Hn. vm_compute in Hn. now injection Hn. }
    subst n. now apply order_request_sent with (a := a).
  - intros L cfg W db body payload data Hin.
    destruct (order_sent L cfg W body payload db) as [Hs | [t [n [Hn Hs]]]];
      rewrite Hs in Hin; [contradiction|].
    destruct Hin as [[= <-] | []]. exists n. split; [exact Hn|reflexivity].
  - intros L cfg W db body payload amount pid data Ha Hin.
    destruct (refund_sent L cfg W body payload db) as [Hs | [pid' [data' [Hreq Hs]]]];
      rewrite Hs in Hin; [contradiction|].
    destruct Hin as [[= <- <-] | []]. rewrite Ha in Hreq.
    now apply refund_request_amount.
Qed.

Lemma amounts_sent_in_paisa_witness :
  (order_reaches_provider toy_lib order_900 token_1 db0 tenant_1
     (mkAppointment appt_1 tenant_1 cust_1 None None UNPAID) 90000
   /\ sent (create_razorpay_order toy_lib cfg0 world_ok order_900 token_1) db0
      = [OrderCreate (order_request tenant_1 appt_1 90000 "INR")])
  /\ (refund_reaches_provider toy_lib refund_300 token_1 db_captured_by_webhook tenant_1
        (row_1 (Some "pay_1") CAPTURED) "pay_1" (float_of_cents 30000) 30000
      /\ sent (razorpay_refund toy_lib cfg0 world_ok refund_300 token_1) db_captured_by_webhook
         = [PaymentRefund "pay_1" (JDict [("amount", JInt 30000)])]).
Proof.
  destruct amounts_sent_in_paisa as [_ [_ [Hrefund [Horder _]]]].
  assert (H1 : order_reaches_provider toy_lib order_900 token_1 db0 tenant_1
                 (mkAppointment appt_1 tenant_1 cust_1 None None UNPAID) 90000).
  { split; [exists (JStr tenant_1); repeat split; vm_compute; reflexivity|].
    split; vm_compute; reflexivity. }
  assert (H2 : refund_reaches_provider toy_lib refund_300 token_1 db_captured_by_webhook
                 tenant_1 (row_1 (Some "pay_1") CAPTURED) "pay_1"
                 (float_of_cents 30000) 30000).
  { split; [exists (JStr tenant_1); split; vm_compute; reflexivity|].
    split; [vm_compute; reflexivity|]. split; [reflexivity|]. split; [reflexivity|].
    split; [discriminate|]. split; [reflexivity|]. split; vm_compute; reflexivity. }
  split; (split; [assumption|]).
  - exact (Horder toy_lib cfg0 world_ok db0 order_900 token_1 tenant_1 _ 90000 eq_refl H1).
  - exact (Hrefund toy_lib cfg0 world_ok db_captured_by_webhook refund_300 token_1 tenant_1
             _ "pay_1" 30000 H2).
Defined.

(** C9 (as the code has it).  The verifier's only commit sits on the branch
    where the payment's status after the mapping is CAPTURED and the
    appointment is found.  That is the case when the fetched status is
    "captured", and also when it is unrecognized while the stored status
    already is CAPTURED.  When the fetched status maps to FAILED or
    AUTHORIZED, or is unrecognized while the stored status is not CAPTURED,
    the handler returns success with the resulting status and commits
    nothing: the new status and payment id live in the session only. *)
Theorem verify_commits_only_when_captured L cfg W body payload db :
  (persisted (razorpay_verify L cfg W body payload) db <> db ->
   exists tenant_id pay rp_payment rp_status a,
     verify_accepted L cfg W body payload db tenant_id pay rp_payment rp_status
     /\ pay_status (verified_payment body rp_status pay) = CAPTURED
     /\ (spec_verify_proposal rp_status = Some CAPTURED
         \/ (spec_verify_proposal rp_status = None /\ pay_status pay = CAPTURED))
     /\ load_appointment db (pay_appointment_id pay) tenant_id = Some a)
  /\ (forall tenant_id pay rp_payment rp_status,
        verify_accepted L cfg W body payload db tenant_id pay rp_payment rp_status ->
        spec_verify_proposal rp_status = Some FAILED
        \/ spec_verify_proposal rp_status = Some AUTHORIZED
        \/ (spec_verify_proposal rp_status = None /\ pay_status pay <> CAPTURED) ->
        let pay' := verified_payment body rp_status pay in
        response (razorpay_verify L cfg W body payload) db = Ok (verify_response pay')
        /\ pay_status pay' = overwrite (spec_verify_proposal rp_status) (pay_status pay)
        /\ pay_provider_payment_id pay' = Some (v_razorpay_payment_id body)
        /\ persisted (razorpay_verify L cfg W body payload) db = db
        /\ payments (work (snd (run (razorpay_verify L cfg W body payload) db)))
           = replace_payment pay' (payments db)).
Proof.
  split.
  - intros Hchanged.
    destruct (verify_cases L cfg W body payload db)
      as [Hsame | [t [pay [rp [st [a [pdf [Hacc [Hcap [Happt _]]]]]]]]]];
      [contradiction|].
    exists t, pay, rp, st, a.
    split; [exact Hacc|]. split; [exact Hcap|]. split; [|exact Happt].
    pose proof (verify_status_overwrites st
                  (set_pay_provider_payment_id (Some (v_razorpay_payment_id body)) pay))
      as Hov.
    fold (verified_payment body st pay) in Hov. rewrite Hcap in Hov.
    destruct (spec_verify_proposal st) as [s|]; cbn in Hov.
    + left. now rewrite Hov.
    + right. split; [reflexivity|]. now rewrite Hov.
  - intros tenant_id pay rp_payment rp_status Hacc Hprop pay'.
    pose proof (verify_status_overwrites rp_status
                  (set_pay_provider_payment_id (Some (v_razorpay_payment_id body)) pay))
      as Hov.
    fold (verified_payment body rp_status pay) in Hov.
    change (pay_status (set_pay_provider_payment_id _ pay)) with (pay_status pay) in Hov.
    assert (Hnot : pay_status pay' <> CAPTURED).
    { unfold pay'. rewrite Hov.
      destruct Hprop as [-> | [-> | [-> Hne]]]; cbn; [discriminate|discriminate|exact Hne]. }
    destruct (verify_uncommitted L cfg W body payload db tenant_id pay rp_payment rp_status
                Hacc (or_introl Hnot)) as [Hresp [Hper [Hwork _]]].
    split; [exact Hresp|]. split; [exact Hov|].
    split; [apply verified_payment_fields|]. split; assumption.
Qed.

Lemma verify_commits_only_when_captured_witness :
  (exists tenant_id pay rp_payment rp_status a,
     verify_accepted toy_lib cfg0 (world_fetching "refunded") verify_1 token_1
                     db_captured_by_webhook tenant_id pay rp_payment rp_status
     /\ pay_status (verified_payment verify_1 rp_status pay) = CAPTURED
     /\ (spec_verify_proposal rp_status = Some CAPTURED
         \/ (spec_verify_proposal rp_status = None /\ pay_status pay = CAPTURED))
     /\ load_appointment db_captured_by_webhook (pay_appointment_id pay) tenant_id = Some a)
  /\ (let pay' := verified_payment verify_1 (JStr "failed") (row_1 None CREATED) in
      response (razorpay_verify toy_lib cfg0 (world_fetching "failed") verify_1 token_1)
               db_created
      = Ok (verify_response pay')
      /\ pay_status pay' = overwrite (spec_verify_proposal (JStr "failed")) CREATED
      /\ pay_provider_payment_id pay' = Some "pay_1"
      /\ persisted (razorpay_verify toy_lib cfg0 (world_fetching "failed") verify_1 token_1)
                   db_created = db_created
      /\ payments (work (snd (run (razorpay_verify toy_lib cfg0 (world_fetching "failed")
                                     verify_1 token_1) db_created)))
         = replace_payment pay' (payments db_created)).
Proof.
  split.
  - apply (proj1 (verify_commits_only_when_captured toy_lib cfg0 (world_fetching "refunded")
                    verify_1 token_1 db_captured_by_webhook)).
    vm_compute. discriminate.
  - refine (proj2 (verify_commits_only_when_captured toy_lib cfg0 (world_fetching "failed")
                     verify_1 token_1 db_created)
                  tenant_1 (row_1 None CREATED) (fetched_payment "pay_1" "failed")
                  (JStr "failed") _ _).
    + repeat split; try reflexivity. eexists. split; reflexivity.
    + left. reflexivity.
Defined.

(** C9, as stated, fails: the webhook has captured the payment; a later
    verification call fetches a status the verifier does not map
    ("refunded").  The stored status is still CAPTURED, so the call takes the
    committing branch: with the collaborators answering, the
    [checkout.verified] event is committed; with the enqueue raising, the
    call does not return success. *)
Lemma unrecognized_status_still_commits :
  spec_verify_proposal (JStr "refunded") = None
  /\ response (razorpay_verify toy_lib cfg0 (world_fetching "refunded") verify_1 token_1)
              db_captured_by_webhook
     = Ok (JDict [("success", JBool true); ("payment_status", JStr "CAPTURED")])
  /\ event_types db_captured_by_webhook = ["order.created"; "payment.captured"]
  /\ event_types (step toy_lib cfg0 (ReqVerify (world_fetching "refunded") verify_1 token_1)
                       db_captured_by_webhook)
     = ["order.created"; "payment.captured"; "checkout.verified"]
  /\ is_ok (response (razorpay_verify toy_lib cfg0
                        (mkWorld (client_order_create world_ok)
                                 (client_payment_fetch (world_fetching "refunded"))
                                 (client_payment_refund world_ok)
                                 (generate_receipt_pdf world_ok)
                                 (send_booking_email_delay world_broker_down)
                                 (uuid4 world_ok))
                        verify_1 token_1) db_captured_by_webhook) = false.
Proof. vm_compute. repeat split; reflexivity. Qed.

(** ** Looking a payment up again *)

Lemma find_replace_hit (f : Payment -> bool) (l : list Payment) (p p' : Payment) :
  find f l = Some p ->
  f p' = true ->
  pay_id p' = pay_id p ->
  find f (replace_payment p' l) = Some p'.
Proof.
  intros Hfind Hf Hid. induction l as [|a l IH]; [discriminate|].
  cbn [replace_payment map find] in *.
  destruct (f a) eqn:Ha.
  - injection Hfind as ->. rewrite Hid, String.eqb_refl, Hf. reflexivity.
  - destruct (pay_id a =? pay_id p')%string.
    + now rewrite Hf.
    + rewrite Ha. now apply IH.
Qed.

Lemma resolve_payment_str L t oid s :
  truthy (JStr oid) = true ->
  resolve_payment L t (JStr oid) s
  = (Ok (match (if truthy t
                then match py_UUID L t with
                     | Ok u => find (fun p => (pay_tenant_id p =? u)%string
                                              && (pay_provider_order_id p =? oid)%string)
                                    (payments (work s))
                     | Raise _ => None
                     end
                else None) with
         | Some p => Some p
         | None => find (fun p => (pay_provider_order_id p =? oid)%string)
                        (payments (work s))
         end), s).
Proof.
  intros Ht. unfold resolve_payment, bind_str. rewrite Ht, andb_true_r.
  destruct (truthy t); msimpl; [|reflexivity].
  destruct (py_UUID L t); msimpl; [|reflexivity].
  destruct (find _ (payments (work s))); reflexivity.
Qed.

(** A lookup by a non-empty order id that some payment carries finds a
    payment with that order id, whatever the tenant hint. *)
Lemma resolve_payment_some L t oid s p :
  oid <> "" ->
  In p (payments (work s)) ->
  pay_provider_order_id p = oid ->
  exists q, resolve_payment L t (JStr oid) s = (Ok (Some q), s)
            /\ In q (payments (work s))
            /\ pay_provider_order_id q = oid.
Proof.
  intros Hne Hin Hoid.
  rewrite (resolve_payment_str L t oid s (truthy_str oid Hne)).
  destruct (find_some_of_in (fun p => (pay_provider_order_id p =? oid)%string)
              (payments (work s)) p Hin) as [q0 Hq0]; [now apply String.eqb_eq|].
  assert (Hfall : exists q, find (fun p => (pay_provider_order_id p =? oid)%string)
                                 (payments (work s)) = Some q
                            /\ In q (payments (work s)) /\ pay_provider_order_id q = oid).
  { exists q0. split; [exact Hq0|]. apply find_some in Hq0. destruct Hq0 as [H1 H2].
    split; [exact H1|now apply String.eqb_eq]. }
  destruct Hfall as [qf [Hqf [Hinf Hof]]].
  destruct (truthy t); [|exists qf; rewrite Hqf; auto].
  destruct (py_UUID L t) as [u|]; [|exists qf; rewrite Hqf; auto].
  destruct (find (fun p => (pay_tenant_id p =? u)%string
                           && (pay_provider_order_id p =? oid)%string)
                 (payments (work s))) as [q|] eqn:Hq; [|exists qf; rewrite Hqf; auto].
  exists q. split; [reflexivity|].
  apply find_some in Hq. destruct Hq as [H1 H2]. apply andb_prop in H2.
  split; [exact H1|]. now apply String.eqb_eq.
Qed.

(** A lookup by an order id that is a string never raises. *)
Lemma resolve_payment_jstr L t oid s :
  exists r, resolve_payment L t (JStr oid) s = (Ok r, s).
Proof.
  destruct (string_dec oid "") as [->|Hne].
  - unfold resolve_payment. replace (truthy (JStr "")) with false by reflexivity.
    rewrite andb_false_r. msimpl. eauto.
  - rewrite (resolve_payment_str L t oid s (truthy_str oid Hne)). eauto.
Qed.

Lemma webhook_event_key pay env j ev eid :
  webhook_event pay env j = Ok ev ->
  env_event_id env = JStr eid ->
  ev_tenant_id ev = pay_tenant_id pay /\ ev_provider_event_id ev = Some eid.
Proof.
  unfold webhook_event, rbind. intros H Heid. rewrite Heid in H.
  destruct (bind_str _); [|discriminate].
  unfold bind_str_opt in H.
  destruct (or_none (env_provider_order_id env)); [|discriminate].
  destruct (or_none (env_provider_payment_id env)); [|discriminate].
  injection H as <-. auto.
Qed.

(** ** The scenarios of section 8, run on the concrete deployment *)

(** Scenario A: the order for 900.00 INR reaches the provider; on a
    database that holds the order's [Payment{CREATED}] row the captured
    webhook makes it CAPTURED, the appointment PAID, and adds one event. *)
Example scenario_A :
  row_status db_created payment_1 = Some CREATED
  /\ sent (create_razorpay_order toy_lib cfg0 world_ok order_900 token_1) db0
     = [OrderCreate (order_request tenant_1 appt_1 90000 "INR")]
  /\ row_status db_captured_by_webhook payment_1 = Some CAPTURED
  /\ row_appt_status db_captured_by_webhook appt_1 = Some PAID
  /\ event_types db_captured_by_webhook = ["order.created"; "payment.captured"].
Proof. vm_compute. repeat split; reflexivity. Qed.

(** The whole run as one sequence of requests on the stored order: captured
    webhook, the same webhook again, refund of 300.00. *)
Example scenario_run :
  let db := steps toy_lib cfg0
                  [ReqWebhook wh_captured;
                   ReqWebhook wh_captured;
                   ReqRefund world_ok refund_300 token_1] db_created in
  row_status db payment_1 = Some REFUNDED
  /\ row_appt_status db appt_1 = Some APPT_REFUNDED
  /\ event_types db = ["order.created"; "payment.captured"; "refund.created"].
Proof. vm_compute. repeat split; reflexivity. Qed.

(** Scenario B: the same webhook again changes nothing. *)
Example scenario_B :
  step toy_lib cfg0 (ReqWebhook wh_captured) db_captured_by_webhook = db_captured_by_webhook.
Proof. vm_compute. reflexivity. Qed.

(** Scenario C: a webhook for an unknown order is acknowledged and writes
    nothing. *)
Example scenario_C :
  response (razorpay_webhook toy_lib cfg0 wh_unknown_order) db_created = Ok success
  /\ step toy_lib cfg0 (ReqWebhook wh_unknown_order) db_created = db_created.
Proof. vm_compute. split; reflexivity. Qed.

(** Scenario D: a refund of 300.00 on the captured payment of 900.00 sends
    30000 to the provider; the payment and the appointment become REFUNDED. *)
Example scenario_D :
  sent (razorpay_refund toy_lib cfg0 world_ok refund_300 token_1) db_captured_by_webhook
  = [PaymentRefund "pay_1" (JDict [("amount", JInt 30000)])]
  /\ row_status (step toy_lib cfg0 (ReqRefund world_ok refund_300 token_1)
                      db_captured_by_webhook) payment_1 = Some REFUNDED
  /\ row_appt_status (step toy_lib cfg0 (ReqRefund world_ok refund_300 token_1)
                           db_captured_by_webhook) appt_1 = Some APPT_REFUNDED.
Proof. vm_compute. repeat split; reflexivity. Qed.

(** The paisa conversion on amounts that are no whole rupees: 19.99 times
    100 is not 1999 in binary64, and rounds to it; so does every amount of
    whole paise from 0.00 to 50.00, and the largest a NUMERIC(10,2) column
    holds. *)
Example paisa_19_99 : rupees_to_paisa (float_of_cents 1999) = Ok 1999.
Proof. vm_compute. reflexivity. Qed.

Example float_19_99_times_100 :
  float_mul (float_of_cents 1999) (float_of_Z 100)
  = S754_finite false 8791694975696895 (-42).
Proof. vm_compute. reflexivity. Qed.

Example paisa_up_to_50_rupees : all_cents (Z.to_nat 5001) 0 = true.
Proof. vm_compute. reflexivity. Qed.

Example paisa_largest_amount : rupees_to_paisa (float_of_cents 9999999999) = Ok 9999999999.
Proof. vm_compute. reflexivity. Qed.

(* ================================================================== *)
(** * Further properties of the endpoints *)

(** ** What a request can and cannot change *)

Lemma step_payments_shape L cfg r db :
  payments (step L cfg r db) = payments db
  \/ (exists q q', In q (payments db) /\ same_identity q q'
                   /\ payments (step L cfg r db) = replace_payment q' (payments db)).
Proof.
  unfold step. destruct r as [W body payload|req|W body payload|W body payload];
    cbn [handle].
  - destruct (order_never_commits L cfg W body payload db) as [_ ->]. now left.
  - destruct (webhook_cases L cfg req db) as [[e He] | [He | [env [pay [ev H]]]]].
    + left. unfold persisted. now rewrite He.
    + left. unfold persisted. now rewrite He.
    + destruct H as [Hauth [Hext [Hres [Hdup Hev]]]].
      destruct (flush_refuses pay
                  (webhook_payment_id env ev (webhook_status (env_status env) pay)))
        eqn:Hfl.
      { destruct (webhook_refused L cfg req db env pay ev Hauth Hext Hres Hdup Hev Hfl)
          as [_ [-> _]]. now left. }
      destruct (webhook_applies L cfg req db env pay ev Hauth Hext Hres Hdup Hev Hfl)
        as [db' [Hrun [Hpay _]]].
      right.
      exists pay, (webhook_payment_id env ev (webhook_status (env_status env) pay)).
      apply resolve_payment_found in Hres. destruct Hres as [Hin _].
      split; [exact Hin|]. split.
      * unfold same_identity, webhook_payment_id, webhook_status.
        repeat case_head; repeat split; reflexivity.
      * unfold persisted. rewrite Hrun. exact Hpay.
  - destruct (verify_cases L cfg W body payload db)
      as [-> | [t [pay [rp [st [a [pdf [Hacc [Hcap [Happt [Hpdf Hsend]]]]]]]]]]];
      [now left|].
    destruct (flush_refuses pay (verified_payment body st pay)) eqn:Hfl.
    { destruct (verify_refused L cfg W body payload db t pay rp st a pdf
                  Hacc Hcap Happt Hpdf Hsend Hfl) as [_ ->]. now left. }
    destruct (verify_committed L cfg W body payload db t pay rp st a pdf
                Hacc Hcap Happt Hpdf Hsend Hfl) as [_ [-> _]].
    right. exists pay, (verified_payment body st pay).
    destruct Hacc as [_ [Hload _]]. apply load_payment_in in Hload.
    split; [exact Hload|]. split; [|reflexivity].
    unfold same_identity, verified_payment, verify_status.
    repeat case_head; repeat split; reflexivity.
  - destruct (refund_cases L cfg W body payload db)
      as [-> | [t [pay [pid [data [refund [rid Hacc]]]]]]]; [now left|].
    destruct (refund_applies L cfg W body payload db t pay pid data refund rid Hacc)
      as [_ [-> _]].
    right. exists pay, (set_pay_status REFUNDED pay).
    destruct Hacc as [_ [Hload _]]. apply load_payment_in in Hload.
    split; [exact Hload|]. split; [|reflexivity].
    repeat split; reflexivity.
Qed.

Lemma replace_payment_ids p' l :
  map pay_id (replace_payment p' l) = map pay_id l.
Proof.
  unfold replace_payment. rewrite map_map. apply map_ext. intros q.
  destruct (pay_id q =? pay_id p')%string eqn:E; [|reflexivity].
  apply String.eqb_eq in E. now rewrite E.
Qed.

Lemma step_keeps_ids_unique L cfg r db :
  NoDup (map pay_id (payments db)) -> NoDup (map pay_id (payments (step L cfg r db))).
Proof.
  intros Hnd.
  destruct (step_payments_shape L cfg r db) as [-> | [q [q' [_ [_ ->]]]]].
  - exact Hnd.
  - now rewrite replace_payment_ids.
Qed.

Lemma unique_id_row (l : list Payment) (p q : Payment) :
  NoDup (map pay_id l) -> In p l -> In q l -> pay_id p = pay_id q -> p = q.
Proof.
  induction l as [|a l IH]; intros Hnd Hp Hq Hid; [contradiction|].
  cbn [map] in Hnd. inversion Hnd as [|x xs Hnotin Hnd']; subst.
  destruct Hp as [-> | Hp], Hq as [-> | Hq].
  - reflexivity.
  - exfalso. apply Hnotin. rewrite Hid. now apply in_map.
  - exfalso. apply Hnotin. rewrite <- Hid. now apply in_map.
  - now apply IH.
Qed.

Lemma in_replace_payment_hit (p' : Payment) (l : list Payment) (q : Payment) :
  In q l -> pay_id q = pay_id p' -> In p' (replace_payment p' l).
Proof.
  intros Hin Hid. unfold replace_payment. apply in_map_iff. exists q.
  split; [|exact Hin]. now rewrite Hid, String.eqb_refl.
Qed.

Lemma in_replace_payment_other (p' : Payment) (l : list Payment) (q : Payment) :
  In q l -> pay_id q <> pay_id p' -> In q (replace_payment p' l).
Proof.
  intros Hin Hid. unfold replace_payment. apply in_map_iff. exists q.
  split; [|exact Hin]. apply String.eqb_neq in Hid. now rewrite Hid.
Qed.

Lemma same_identity_refl p : same_identity p p.
Proof. repeat split; reflexivity. Qed.

(** X1. No endpoint deletes a payment row or changes what identifies it: on
    every database whose primary keys are distinct, primary keys stay
    distinct and each payment is still there after any request, with the
    same id, tenant, appointment, provider, provider order id, amount and
    currency. *)
Theorem payments_keep_identity L cfg db r :
  NoDup (map pay_id (payments db)) ->
  NoDup (map pay_id (payments (step L cfg r db)))
  /\ forall p, In p (payments db) ->
               exists p', In p' (payments (step L cfg r db)) /\ same_identity p p'.
Proof.
  intros Hnd. split; [now apply step_keeps_ids_unique|].
  intros p Hp.
  destruct (step_payments_shape L cfg r db) as [-> | [q [q' [Hq [Hsame ->]]]]].
  - exists p. split; [exact Hp|apply same_identity_refl].
  - destruct (string_dec (pay_id p) (pay_id q')) as [Hid|Hid].
    + assert (p = q) as ->.
      { apply (unique_id_row (payments db)); auto.
        destruct Hsame as [Hq' _]. congruence. }
      exists q'. split; [|exact Hsame].
      eapply in_replace_payment_hit; eauto.
    + exists p. split; [|apply same_identity_refl].
      now apply in_replace_payment_other.
Qed.

Lemma payments_keep_identity_witness :
  NoDup (map pay_id (payments (step toy_lib cfg0 (ReqWebhook wh_captured) db_created)))
  /\ forall p, In p (payments db_created) ->
               exists p', In p' (payments (step toy_lib cfg0 (ReqWebhook wh_captured)
                                               db_created))
                          /\ same_identity p p'.
Proof.
  apply (payments_keep_identity toy_lib cfg0 db_created (ReqWebhook wh_captured)).
  repeat constructor. intros [].
Defined.

(** X2. The event ledger is append-only: whatever the request, the events
    after it are the events before it followed by at most one new event, and
    the customers table is untouched. *)
Theorem ledger_is_append_only L cfg r db :
  exists l, payment_events (step L cfg r db) = (payment_events db ++ l)%list
            /\ (List.length l <= 1)%nat
            /\ customers (step L cfg r db) = customers db.
Proof.
  unfold step. destruct r as [W body payload|req|W body payload|W body payload];
    cbn [handle].
  - destruct (order_never_commits L cfg W body payload db) as [_ ->].
    exists []. rewrite app_nil_r. auto.
  - destruct (webhook_cases L cfg req db) as [[e He] | [He | [env [pay [ev H]]]]].
    + exists []. unfold persisted. rewrite He, app_nil_r. auto.
    + exists []. unfold persisted. rewrite He, app_nil_r. auto.
    + destruct H as [Hauth [Hext [Hres [Hdup Hev]]]].
      destruct (flush_refuses pay
                  (webhook_payment_id env ev (webhook_status (env_status env) pay)))
        eqn:Hfl.
      { destruct (webhook_refused L cfg req db env pay ev Hauth Hext Hres Hdup Hev Hfl)
          as [_ [-> _]]. exists []. rewrite app_nil_r. auto. }
      destruct (webhook_applies L cfg req db env pay ev Hauth Hext Hres Hdup Hev Hfl)
        as [db' [Hrun [_ [Hevs Hcust]]]].
      exists [ev]. unfold persisted. rewrite Hrun. cbn [snd stored].
      split; [exact Hevs|]. split; [cbn; lia|exact Hcust].
  - destruct (verify_cases L cfg W body payload db)
      as [-> | [t [pay [rp [st [a [pdf [Hacc [Hcap [Happt [Hpdf Hsend]]]]]]]]]]].
    + exists []. rewrite app_nil_r. auto.
    + destruct (flush_refuses pay (verified_payment body st pay)) eqn:Hfl.
      { destruct (verify_refused L cfg W body payload db t pay rp st a pdf
                    Hacc Hcap Happt Hpdf Hsend Hfl) as [_ ->].
        exists []. rewrite app_nil_r. auto. }
      destruct (verify_committed L cfg W body payload db t pay rp st a pdf
                  Hacc Hcap Happt Hpdf Hsend Hfl) as [_ [-> _]].
      eexists. split; [reflexivity|]. split; [cbn; lia|reflexivity].
  - destruct (refund_cases L cfg W body payload db)
      as [-> | [t [pay [pid [data [refund [rid Hacc]]]]]]].
    + exists []. rewrite app_nil_r. auto.
    + destruct (refund_applies L cfg W body payload db t pay pid data refund rid Hacc)
        as [_ [-> _]].
      eexists. split; [reflexivity|]. split; [cbn; lia|reflexivity].
Qed.

(** X3. An error answer leaves no partial write: whenever an endpoint raises,
    the database after the request is the database before it, whatever had
    been assigned or added in the session. *)
Theorem error_leaves_no_trace L cfg r db e :
  response (handle L cfg r) db = Raise e ->
  step L cfg r db = db.
Proof.
  unfold step. destruct r as [W body payload|req|W body payload|W body payload];
    cbn [handle]; intros Hresp.
  - apply (order_never_commits L cfg W body payload db).
  - destruct (webhook_cases L cfg req db) as [[e' He] | [He | [env [pay [ev H]]]]].
    + unfold persisted. now rewrite He.
    + unfold persisted. now rewrite He.
    + destruct H as [Hauth [Hext [Hres [Hdup Hev]]]].
      destruct (flush_refuses pay
                  (webhook_payment_id env ev (webhook_status (env_status env) pay)))
        eqn:Hfl.
      { apply (webhook_refused L cfg req db env pay ev Hauth Hext Hres Hdup Hev Hfl). }
      destruct (webhook_applies L cfg req db env pay ev Hauth Hext Hres Hdup Hev Hfl)
        as [db' [Hrun _]].
      unfold response in Hresp. rewrite Hrun in Hresp. discriminate.
  - destruct (verify_cases L cfg W body payload db)
      as [H | [t [pay [rp [st [a [pdf [Hacc [Hcap [Happt [Hpdf Hsend]]]]]]]]]]]; [exact H|].
    destruct (flush_refuses pay (verified_payment body st pay)) eqn:Hfl.
    { apply (verify_refused L cfg W body payload db t pay rp st a pdf
               Hacc Hcap Happt Hpdf Hsend Hfl). }
    destruct (verify_committed L cfg W body payload db t pay rp st a pdf
                Hacc Hcap Happt Hpdf Hsend Hfl) as [Hr _].
    rewrite Hr in Hresp. discriminate.
  - destruct (refund_cases L cfg W body payload db)
      as [H | [t [pay [pid [data [refund [rid Hacc]]]]]]]; [exact H|].
    destruct (refund_applies L cfg W body payload db t pay pid data refund rid Hacc)
      as [Hr _].
    rewrite Hr in Hresp. discriminate.
Qed.

Lemma error_leaves_no_trace_witness :
  step toy_lib cfg0 (ReqVerify world_broker_down verify_1 token_1) db_created = db_created.
Proof.
  apply (error_leaves_no_trace toy_lib cfg0 (ReqVerify world_broker_down verify_1 token_1)
           db_created (CollaboratorError "broker unreachable")).
  vm_compute. reflexivity.
Defined.

(** ** The webhook: authentication, extraction, deduplication *)

Lemma py_get_not_dict v k d : is_dict v = false -> py_get v k d = Raise AttributeError.
Proof. destruct v; cbn; intros H; try reflexivity. discriminate. Qed.

Lemma webhook_raises_on_extraction L cfg req db e :
  authenticated L cfg req ->
  extract_envelope (wh_json req) = Raise e ->
  run (razorpay_webhook L cfg req) db = (Raise e, open_session db).
Proof.
  intros [sig [Hs [Hne Hv]]] Hext.
  unfold razorpay_webhook. rewrite Hs.
  apply String.eqb_neq in Hne. rewrite Hne. msimpl.
  rewrite Hv. msimpl. rewrite Hext. reflexivity.
Qed.

(** X4. The webhook answers an unauthenticated request with an error and
    touches nothing: 400 "Missing signature" without the header (or with an
    empty one), 400 "Invalid webhook signature" for an ASCII signature that
    is not the tag of the raw body, and an unhandled [TypeError] for a
    signature with a non-ASCII character. *)
Theorem webhook_without_valid_signature L cfg req db :
  ~ authenticated L cfg req ->
  (exists e, run (razorpay_webhook L cfg req) db = (Raise e, open_session db))
  /\ (wh_signature req = None \/ wh_signature req = Some "" ->
      response (razorpay_webhook L cfg req) db = Raise (HTTPException 400 "Missing signature"))
  /\ (forall sig,
        wh_signature req = Some sig -> sig <> "" ->
        is_ascii sig = true ->
        is_ascii (hmac_sha256_hexdigest L (RAZORPAY_WEBHOOK_SECRET cfg) (wh_raw req)) = true ->
        response (razorpay_webhook L cfg req) db
        = Raise (HTTPException 400 "Invalid webhook signature"))
  /\ (forall sig,
        wh_signature req = Some sig -> sig <> "" ->
        is_ascii sig = false ->
        response (razorpay_webhook L cfg req) db = Raise TypeError).
Proof.
  intros Hna. split; [|split; [|split]].
  - destruct (webhook_cases L cfg req db) as [H | [H | [env [pay [ev [Hauth _]]]]]].
    + exact H.
    + exfalso. apply Hna.
      revert H. unfold razorpay_webhook.
      destruct (wh_signature req) as [sig|] eqn:Hs;
        [|rewrite String.eqb_refl; msimpl; intros [=]].
      destruct (sig =? "")%string eqn:Hne; msimpl; [intros [=]|].
      destruct (verify_razorpay_webhook_signature L (wh_raw req) sig
                  (RAZORPAY_WEBHOOK_SECRET cfg)) as [[|]|] eqn:Hv; msimpl;
        [|intros [=]|intros [=]].
      intros _. exists sig. split; [exact Hs|].
      split; [now apply String.eqb_neq|exact Hv].
    + contradiction.
  - intros Hs. unfold razorpay_webhook.
    destruct Hs as [-> | ->]; rewrite String.eqb_refl; reflexivity.
  - intros sig Hs Hne Ha1 Ha2. unfold razorpay_webhook. rewrite Hs.
    pose proof Hne as Hne'. apply String.eqb_neq in Hne'. rewrite Hne'. msimpl.
    unfold verify_razorpay_webhook_signature, compare_digest. rewrite Ha1, Ha2. cbn [andb].
    destruct (hmac_sha256_hexdigest L (RAZORPAY_WEBHOOK_SECRET cfg) (wh_raw req) =? sig)%string
      eqn:E; msimpl; [|reflexivity].
    exfalso. apply Hna. exists sig. split; [exact Hs|]. split; [exact Hne|].
    unfold verify_razorpay_webhook_signature, compare_digest. now rewrite Ha1, Ha2, E.
  - intros sig Hs Hne Ha. unfold razorpay_webhook. rewrite Hs.
    apply String.eqb_neq in Hne. rewrite Hne. msimpl.
    unfold verify_razorpay_webhook_signature, compare_digest.
    rewrite Ha, andb_false_r. reflexivity.
Qed.

Lemma webhook_without_valid_signature_witness :
  response (razorpay_webhook toy_lib cfg0
              (mkWebhookRequest (wh_raw wh_captured) (Some "deadbeef") (wh_json wh_captured)))
           db_created
  = Raise (HTTPException 400 "Invalid webhook signature")
  /\ persisted (razorpay_webhook toy_lib cfg0
                  (mkWebhookRequest (wh_raw wh_captured) (Some "deadbeef")
                                    (wh_json wh_captured))) db_created
     = db_created.
Proof.
  destruct (webhook_without_valid_signature toy_lib cfg0
              (mkWebhookRequest (wh_raw wh_captured) (Some "deadbeef") (wh_json wh_captured))
              db_created) as [[e He] [_ [H _]]].
  - intros [sig [Hs [_ Hv]]]. injection Hs as <-. vm_compute in Hv. discriminate.
  - split.
    + apply (H "deadbeef"); try reflexivity. discriminate.
    + unfold persisted. rewrite He. reflexivity.
Defined.

Lemma entity_id_broken top :
  broken_payment_chain top -> entity_id (JDict top) "payment" = Raise AttributeError.
Proof.
  intros [v [Hv [H | [pl [Hpl [H | [pm [Hpm H]]]]]]]];
    unfold entity_id, rbind; rewrite py_get_dict.
  - rewrite H. now rewrite (py_get_not_dict v _ _ Hv).
  - rewrite Hpl, py_get_dict, H. now rewrite (py_get_not_dict v _ _ Hv).
  - rewrite Hpl, py_get_dict, Hpm, py_get_dict, H. now rewrite (py_get_not_dict v _ _ Hv).
Qed.

(** X5. Line 117 reads the payment chain with [.get(k, {})], which yields the
    stored value when the key is present: a [null] (or any other non-dict)
    under [payload], [payload.payment] or [payload.payment.entity] makes an
    authenticated webhook fail with an unhandled [AttributeError], before the
    "safe extraction" of lines 127-129 is reached; nothing is written.  An
    envelope without a [payload] key, by contrast, is acknowledged and
    ignored. *)
Theorem null_in_payment_chain_breaks_webhook L cfg req db top :
  authenticated L cfg req ->
  wh_json req = JDict top ->
  (broken_payment_chain top ->
   response (razorpay_webhook L cfg req) db = Raise AttributeError
   /\ persisted (razorpay_webhook L cfg req) db = db)
  /\ (assoc "payload" top = None ->
      response (razorpay_webhook L cfg req) db = Ok success
      /\ persisted (razorpay_webhook L cfg req) db = db).
Proof.
  intros Hauth Hj. split.
  - intros Hbroken.
    assert (Hext : extract_envelope (wh_json req) = Raise AttributeError).
    { rewrite Hj. unfold extract_envelope.
      unfold rbind at 1. rewrite py_get_dict.
      unfold rbind at 1. now rewrite (entity_id_broken top Hbroken). }
    pose proof (webhook_raises_on_extraction L cfg req db _ Hauth Hext) as Hrun.
    unfold response, persisted. rewrite Hrun. auto.
  - intros Habsent.
    assert (Hext : exists env, extract_envelope (wh_json req) = Ok env
                               /\ env_provider_order_id env = JStr "").
    { rewrite Hj. unfold extract_envelope, entity_id, safe_entity, rbind, r_or, or_empty.
      rewrite !py_get_dict, Habsent. cbn. eexists. split; reflexivity. }
    destruct Hext as [env [Hext Hoid]].
    assert (Hrun : run (razorpay_webhook L cfg req) db = (Ok success, open_session db)).
    { eapply webhook_no_payment; eauto.
      apply resolve_payment_none. left. now rewrite Hoid. }
    apply noop_run in Hrun. destruct Hrun as [H1 [H2 _]]. auto.
Qed.

Lemma null_in_payment_chain_breaks_webhook_witness :
  response (razorpay_webhook toy_lib cfg0
              (signed "null payload" (JDict [("event", JStr "payment.captured");
                                             ("payload", JNull)]))) db_created
  = Raise AttributeError
  /\ persisted (razorpay_webhook toy_lib cfg0
                  (signed "null payload" (JDict [("event", JStr "payment.captured");
                                                 ("payload", JNull)]))) db_created
     = db_created.
Proof.
  refine (proj1 (null_in_payment_chain_breaks_webhook toy_lib cfg0 _ db_created _ _ _) _).
  - eexists. split; [reflexivity|]. split; [discriminate|reflexivity].
  - reflexivity.
  - exists JNull. split; [reflexivity|]. left. reflexivity.
Defined.

(** X6. When the envelope holds a payment entity with a non-empty id, that
    entity wins over an order or refund entity in the same envelope: its id
    is both the deduplication key and the provider payment id, and its
    [order_id] and [status], when truthy, are the ones extracted. *)
Theorem payment_entity_takes_precedence top pl pm ent pid env :
  assoc "payload" top = Some (JDict pl) ->
  assoc "payment" pl = Some (JDict pm) ->
  assoc "entity" pm = Some (JDict ent) ->
  assoc "id" ent = Some (JStr pid) ->
  pid <> "" ->
  extract_envelope (JDict top) = Ok env ->
  env_event_id env = JStr pid
  /\ env_provider_payment_id env = JStr pid
  /\ (forall o, assoc "order_id" ent = Some o -> truthy o = true ->
                env_provider_order_id env = o)
  /\ (forall st, assoc "status" ent = Some st -> truthy st = true ->
                 env_status env = st).
Proof.
  intros Hpl Hpm Hent Hid Hne.
  assert (Htpl : truthy (JDict pl) = true) by (eapply truthy_dict; eauto).
  assert (Htpm : truthy (JDict pm) = true) by (eapply truthy_dict; eauto).
  assert (Htent : truthy (JDict ent) = true) by (eapply truthy_dict; eauto).
  assert (Htpid : truthy (JStr pid) = true) by now apply truthy_str.
  assert (Eid : entity_id (JDict top) "payment" = Ok (JStr pid)).
  { unfold entity_id, rbind.
    rewrite py_get_dict, Hpl, py_get_dict, Hpm, py_get_dict, Hent, py_get_dict, Hid.
    reflexivity. }
  assert (Ent : safe_entity (JDict top) "payment" = Ok (JDict ent)).
  { unfold safe_entity, rbind, or_empty.
    rewrite py_get_dict, Hpl, Htpl, py_get_dict, Hpm, Htpm, py_get_dict, Hent, Htent.
    reflexivity. }
  unfold extract_envelope. rewrite Eid, Ent.
  rewrite py_get_dict. cbn [rbind]. rewrite Htpid. cbn [negb rbind].
  rewrite Htpid. cbn [negb rbind].
  destruct (safe_entity (JDict top) "order") as [oe|]; cbn [rbind]; [|intros [=]].
  destruct (safe_entity (JDict top) "refund") as [re|]; cbn [rbind]; [|intros [=]].
  rewrite !(py_get_dict ent). cbn [rbind]. rewrite Hid.
  match goal with
  | |- context [rbind (r_or ?a ?b) _] => destruct (r_or a b) as [oid|] eqn:Hoid
  end; cbn [rbind]; [|intros [=]].
  unfold r_or at 1. rewrite Htpid. cbn [rbind].
  match goal with
  | |- context [rbind (r_or ?a ?b) _] => destruct (r_or a b) as [st'|] eqn:Hst
  end; cbn [rbind]; [|intros [=]].
  match goal with
  | |- context [rbind (r_or ?a ?b) _] => destruct (r_or a b) as [notes|]
  end; cbn [rbind]; [|intros [=]].
  destruct (py_get notes "tenant_id" JNull) as [tid|]; cbn [rbind]; [|intros [=]].
  intros [= <-]. cbn.
  split; [reflexivity|]. split; [reflexivity|]. split.
  - intros o Ho Hto. rewrite Ho in Hoid. unfold r_or in Hoid. rewrite Hto in Hoid.
    now injection Hoid.
  - intros st Hs Hts. rewrite Hs in Hst. unfold r_or in Hst. rewrite Hts in Hst.
    now injection Hst.
Qed.

Lemma payment_entity_takes_precedence_witness :
  let ent := [("id", JStr "pay_1"); ("order_id", JStr "order_abc");
              ("status", JStr "captured")] in
  let env := envelope_of "payment.captured" "pay_1" "order_abc" "captured" in
  env_event_id env = JStr "pay_1"
  /\ env_provider_payment_id env = JStr "pay_1"
  /\ (forall o, assoc "order_id" ent = Some o -> truthy o = true ->
                env_provider_order_id env = o)
  /\ (forall st, assoc "status" ent = Some st -> truthy st = true ->
                 env_status env = st).
Proof.
  intros ent env.
  apply (payment_entity_takes_precedence
           [("event", JStr "payment.captured");
            ("payload", JDict [("payment", JDict [("entity", JDict ent)])])]
           [("payment", JDict [("entity", JDict ent)])]
           [("entity", JDict ent)] ent "pay_1" env); try reflexivity.
  discriminate.
Defined.

Lemma idempotency_check_found pay eid s e0 :
  idempotency_check pay (JStr eid) s = (Ok (Some e0), s) ->
  has_event (work s) (pay_tenant_id pay) eid.
Proof.
  unfold idempotency_check, bind_str.
  destruct (truthy (JStr eid)); msimpl; [|intros [=]].
  destruct (find _ (payment_events (work s))) as [e|] eqn:Hf; [|intros [=]].
  intros [= ->]. apply find_some in Hf. destruct Hf as [Hin Hf].
  apply andb_prop in Hf. destruct Hf as [Ht He].
  exists e0. split; [exact Hin|]. split; [now apply String.eqb_eq|].
  destruct (ev_provider_event_id e0) as [x|]; [|discriminate].
  apply String.eqb_eq in He. now subst.
Qed.

Lemma webhook_outcome L cfg req db :
  (exists e, run (razorpay_webhook L cfg req) db = (Raise e, open_session db))
  \/ (exists env,
        authenticated L cfg req
        /\ extract_envelope (wh_json req) = Ok env
        /\ fst (resolve_payment L (env_tenant_id_str env) (env_provider_order_id env)
                  (open_session db)) = Ok None
        /\ run (razorpay_webhook L cfg req) db = (Ok success, open_session db))
  \/ (exists env pay e0,
        authenticated L cfg req
        /\ extract_envelope (wh_json req) = Ok env
        /\ fst (resolve_payment L (env_tenant_id_str env) (env_provider_order_id env)
                  (open_session db)) = Ok (Some pay)
        /\ idempotency_check pay (env_event_id env) (open_session db)
           = (Ok (Some e0), open_session db)
        /\ run (razorpay_webhook L cfg req) db = (Ok success, open_session db))
  \/ exists env pay ev,
       authenticated L cfg req
       /\ extract_envelope (wh_json req) = Ok env
       /\ fst (resolve_payment L (env_tenant_id_str env) (env_provider_order_id env)
                 (open_session db)) = Ok (Some pay)
       /\ fst (idempotency_check pay (env_event_id env) (open_session db)) = Ok None
       /\ webhook_event pay env (wh_json req) = Ok ev.
Proof.
  unfold razorpay_webhook.
  destruct (wh_signature req) as [sig|] eqn:Hs.
  2:{ rewrite String.eqb_refl. msimpl. left. eauto. }
  destruct (sig =? "")%string eqn:Hne; msimpl; [left; eauto|].
  destruct (verify_razorpay_webhook_signature L (wh_raw req) sig
              (RAZORPAY_WEBHOOK_SECRET cfg)) as [[|]|] eqn:Hv; msimpl;
    [|left; eauto|left; eauto].
  assert (Hauth : authenticated L cfg req).
  { exists sig. split; [exact Hs|]. split; [now apply String.eqb_neq|exact Hv]. }
  destruct (extract_envelope (wh_json req)) as [env|] eqn:Hext; msimpl; [|left; eauto].
  destruct (resolve_payment_run L (env_tenant_id_str env) (env_provider_order_id env)
              (open_session db)) as [r Hr].
  unfold open_session in Hr. rewrite Hr.
  destruct r as [[pay|]|]; msimpl; [| |left; eauto].
  2:{ right; left. exists env. unfold open_session. rewrite Hr. auto. }
  destruct (idempotency_check_run pay (env_event_id env) (open_session db)) as [r Hi].
  unfold open_session in Hi. rewrite Hi.
  destruct r as [[e0|]|]; msimpl; [| |left; eauto].
  { right; right; left. exists env, pay, e0. unfold open_session. rewrite Hr, Hi. auto. }
  destruct (webhook_event pay env (wh_json req)) as [ev|] eqn:Hev; msimpl; [|left; eauto].
  right; right; right. exists env, pay, ev.
  unfold open_session. rewrite Hr, Hi. auto.
Qed.

(** X7. The deduplication key of a payment notification is the payment id, so
    it does not tell two notifications of one payment apart.  Once a webhook
    with event id [eid] for an order that some payment carries has been
    answered with success, every later authenticated webhook that extracts
    the same event id and order id is acknowledged and dropped, whatever
    status it reports (a [payment.captured] after a [payment.authorized] of
    the same payment, for one).  Later means any database that still holds
    the events the first delivery left, whatever else has been written in
    between and in whatever order the table lists its rows; the one condition
    is that the payments carrying the order id belong to one tenant, since
    the key of the deduplication is the tenant of the payment found. *)
Theorem later_notification_with_same_id_is_dropped
    L cfg req1 req2 db db' env1 env2 eid oid p0 :
  authenticated L cfg req1 ->
  authenticated L cfg req2 ->
  extract_envelope (wh_json req1) = Ok env1 ->
  extract_envelope (wh_json req2) = Ok env2 ->
  env_event_id env1 = JStr eid ->
  env_event_id env2 = JStr eid ->
  eid <> "" ->
  env_provider_order_id env1 = JStr oid ->
  env_provider_order_id env2 = JStr oid ->
  oid <> "" ->
  In p0 (payments db) ->
  pay_provider_order_id p0 = oid ->
  is_ok (response (razorpay_webhook L cfg req1) db) = true ->
  (forall e, In e (payment_events (step L cfg (ReqWebhook req1) db)) ->
             In e (payment_events db')) ->
  (forall p q, In p (payments db) -> In q (payments db') ->
               pay_provider_order_id p = oid -> pay_provider_order_id q = oid ->
               pay_tenant_id q = pay_tenant_id p) ->
  response (razorpay_webhook L cfg req2) db' = Ok success
  /\ step L cfg (ReqWebhook req2) db' = db'.
Proof.
  intros Hauth1 Hauth2 Hext1 Hext2 Heid1 Heid2 Hne Hoid1 Hoid2 Hone Hp0 Hp0oid Hok
         Hkept Htenant.
  (* the first delivery found a payment and left its event under that tenant *)
  assert (Hfirst : exists pay, In pay (payments db) /\ pay_provider_order_id pay = oid
                               /\ has_event (step L cfg (ReqWebhook req1) db)
                                            (pay_tenant_id pay) eid).
  { destruct (resolve_payment_some L (env_tenant_id_str env1) oid (open_session db) p0
                Hone Hp0 Hp0oid) as [q [Hq _]].
    destruct (webhook_outcome L cfg req1 db)
      as [[e He] | [[env [_ [Hext [Hres Hrun]]]]
                   | [[env [pay [e0 [_ [Hext [Hres [Hdup Hrun]]]]]]]
                     | [env [pay [ev [_ [Hext [Hres [Hdup Hev]]]]]]]]]].
    - unfold response in Hok. rewrite He in Hok. discriminate.
    - rewrite Hext1 in Hext. injection Hext as <-.
      rewrite Hoid1, Hq in Hres. discriminate.
    - rewrite Hext1 in Hext. injection Hext as <-.
      assert (Hs1 : step L cfg (ReqWebhook req1) db = db).
      { unfold step, persisted. cbn [handle]. now rewrite Hrun. }
      rewrite Hs1. exists pay.
      pose proof (resolve_payment_found _ _ _ _ _ Hres) as [Hin Ho].
      rewrite Hoid1 in Ho. injection Ho as Ho.
      split; [exact Hin|]. split; [now symmetry|].
      rewrite Heid1 in Hdup. now apply idempotency_check_found in Hdup.
    - rewrite Hext1 in Hext. injection Hext as <-.
      destruct (flush_refuses pay
                  (webhook_payment_id env1 ev (webhook_status (env_status env1) pay)))
        eqn:Hfl.
      { destruct (webhook_refused L cfg req1 db env1 pay ev Hauth1 Hext1 Hres Hdup Hev Hfl)
          as [Hr _].
        rewrite Hr in Hok. discriminate. }
      destruct (webhook_applies L cfg req1 db env1 pay ev Hauth1 Hext1 Hres Hdup Hev Hfl)
        as [db1 [Hrun [_ [Hevs _]]]].
      assert (Hs1 : step L cfg (ReqWebhook req1) db = db1).
      { unfold step, persisted. cbn [handle]. now rewrite Hrun. }
      rewrite Hs1. exists pay.
      pose proof (resolve_payment_found _ _ _ _ _ Hres) as [Hin Ho].
      rewrite Hoid1 in Ho. injection Ho as Ho.
      split; [exact Hin|]. split; [now symmetry|].
      destruct (webhook_event_key pay env1 (wh_json req1) ev eid Hev Heid1) as [Hevt Hevid].
      exists ev. rewrite Hevs. split; [apply in_or_app; right; now left|]. auto. }
  destruct Hfirst as [pay [Hpay [Hpayoid [ev [Hev [Hevt Hevid]]]]]].
  (* whatever the second delivery finds in the later database is that tenant's *)
  destruct (resolve_payment_jstr L (env_tenant_id_str env2) oid (open_session db'))
    as [r Hr].
  assert (Hrun : run (razorpay_webhook L cfg req2) db' = (Ok success, open_session db')).
  { apply (webhook_logged_is_noop L cfg req2 db' env2 eid r Hauth2 Hext2 Heid2 Hne).
    - now rewrite Hoid2, Hr.
    - intros q ->.
      assert (Hfound : fst (resolve_payment L (env_tenant_id_str env2) (JStr oid)
                              (open_session db')) = Ok (Some q)) by now rewrite Hr.
      apply resolve_payment_found in Hfound. destruct Hfound as [Hq Ho].
      injection Ho as Ho.
      exists ev. split; [now apply Hkept|]. split; [|exact Hevid].
      rewrite Hevt. symmetry. apply (Htenant pay q); auto. }
  apply noop_run in Hrun. destruct Hrun as [H1 [H2 _]]. auto.
Qed.

Lemma later_notification_with_same_id_is_dropped_witness :
  response (razorpay_webhook toy_lib cfg0 wh_captured) db_authorized_later = Ok success
  /\ step toy_lib cfg0 (ReqWebhook wh_captured) db_authorized_later = db_authorized_later.
Proof.
  apply (later_notification_with_same_id_is_dropped toy_lib cfg0 wh_authorized wh_captured
           db_created db_authorized_later
           (envelope_of "payment.authorized" "pay_1" "order_abc" "authorized")
           (envelope_of "payment.captured" "pay_1" "order_abc" "captured")
           "pay_1" "order_abc" (row_1 None CREATED)).
  - eexists. split; [reflexivity|]. split; [discriminate|reflexivity].
  - eexists. split; [reflexivity|]. split; [discriminate|reflexivity].
  - vm_compute. reflexivity.
  - vm_compute. reflexivity.
  - reflexivity.
  - reflexivity.
  - discriminate.
  - reflexivity.
  - reflexivity.
  - discriminate.
  - left. reflexivity.
  - reflexivity.
  - vm_compute. reflexivity.
  - intros e He. unfold db_authorized_later, db_authorized. cbn [payment_events].
    apply in_or_app. left. exact He.
  - intros p q Hp Hq. vm_compute in Hp, Hq.
    destruct Hp as [<-|[]]. destruct Hq as [<-|[<-|[]]]; intros H1 H2.
    + discriminate H2.
    + reflexivity.
Defined.

(** ** What reaches the provider, the receipt generator and the mail queue *)

(** X8. The checkout verifier calls nothing outside the process until the
    payment has been found under the caller's tenant, the order id matched
    and the signature verified.  Then it fetches the payment the body names;
    a receipt is generated only for a payment that maps to CAPTURED and whose
    appointment is found, and the e-mail follows only a receipt that was
    generated.  The receipt is made out to the literal "Customer" and the
    e-mail goes to the literal address "customer@email.com": the customer of
    the payment is never looked up (lines 266-279). *)
Theorem verifier_calls_follow_the_checks L cfg W body payload db :
  sent (razorpay_verify L cfg W body payload) db = []
  \/ exists tenant_id pay,
       token_tenant L payload tenant_id
       /\ load_payment db (v_payment_id body) tenant_id = Some pay
       /\ pay_provider_order_id pay = v_razorpay_order_id body
       /\ verify_razorpay_checkout_signature L (v_razorpay_order_id body)
            (v_razorpay_payment_id body) (v_razorpay_signature body)
            (RAZORPAY_KEY_SECRET cfg) = Ok true
       /\ (sent (razorpay_verify L cfg W body payload) db
           = [PaymentFetch (v_razorpay_payment_id body)]
           \/ exists rp_payment rp_status a,
                client_payment_fetch W (v_razorpay_payment_id body) = Ok rp_payment
                /\ py_get rp_payment "status" (JStr "") = Ok rp_status
                /\ pay_status (verified_payment body rp_status pay) = CAPTURED
                /\ load_appointment db (pay_appointment_id pay) tenant_id = Some a
                /\ (sent (razorpay_verify L cfg W body payload) db
                    = [PaymentFetch (v_razorpay_payment_id body);
                       ReceiptPdf (pay_id pay) "Customer" (pay_amount pay) (pay_currency pay)]
                    \/ exists pdf,
                         generate_receipt_pdf W (pay_id pay) "Customer" (pay_amount pay)
                           (pay_currency pay) = Ok pdf
                         /\ sent (razorpay_verify L cfg W body payload) db
                            = [PaymentFetch (v_razorpay_payment_id body);
                               ReceiptPdf (pay_id pay) "Customer" (pay_amount pay)
                                          (pay_currency pay);
                               EmailDelay "customer@email.com" "Payment Receipt"
                                          "Your payment was successful." pdf])).
Proof.
  destruct (py_getitem payload "tenant_id") as [t|] eqn:Ht.
  2:{ left. unfold razorpay_verify. msimpl. rewrite Ht. reflexivity. }
  destruct (py_UUID L t) as [tenant_id|] eqn:Hu.
  2:{ left. unfold razorpay_verify. msimpl. rewrite Ht. msimpl. rewrite Hu. reflexivity. }
  destruct (load_payment db (v_payment_id body) tenant_id) as [pay|] eqn:Hload.
  2:{ left. unfold razorpay_verify. msimpl. rewrite Ht. msimpl. rewrite Hu. msimpl.
      unfold load_payment in Hload. rewrite Hload. reflexivity. }
  destruct (pay_provider_order_id pay =? v_razorpay_order_id body)%string eqn:Hord.
  2:{ left. unfold razorpay_verify. msimpl. rewrite Ht. msimpl. rewrite Hu. msimpl.
      unfold load_payment in Hload. rewrite Hload, Hord. reflexivity. }
  apply String.eqb_eq in Hord.
  destruct (verify_razorpay_checkout_signature L (v_razorpay_order_id body)
              (v_razorpay_payment_id body) (v_razorpay_signature body)
              (RAZORPAY_KEY_SECRET cfg)) as [[|]|] eqn:Hsig.
  2,3: left; unfold razorpay_verify; msimpl; rewrite Ht; msimpl; rewrite Hu; msimpl;
       unfold load_payment in Hload; rewrite Hload, Hord, String.eqb_refl; msimpl;
       rewrite Hsig; reflexivity.
  right. exists tenant_id, pay.
  split; [exists t; auto|]. split; [exact Hload|]. split; [exact Hord|].
  split; [reflexivity|].
  destruct (client_payment_fetch W (v_razorpay_payment_id body)) as [rp_payment|] eqn:Hfetch.
  2:{ left. unfold razorpay_verify. msimpl. rewrite Ht. msimpl. rewrite Hu. msimpl.
      unfold load_payment in Hload. rewrite Hload, Hord, String.eqb_refl. msimpl.
      rewrite Hsig. msimpl. rewrite Hfetch. reflexivity. }
  destruct (py_get rp_payment "status" (JStr "")) as [rp_status|] eqn:Hst.
  2:{ left. unfold razorpay_verify. msimpl. rewrite Ht. msimpl. rewrite Hu. msimpl.
      unfold load_payment in Hload. rewrite Hload, Hord, String.eqb_refl. msimpl.
      rewrite Hsig. msimpl. rewrite Hfetch. msimpl. rewrite Hst. reflexivity. }
  assert (Hacc : verify_accepted L cfg W body payload db tenant_id pay rp_payment rp_status).
  { repeat split; eauto. exists t. auto. }
  destruct (PaymentStatus_eqb (pay_status (verified_payment body rp_status pay)) CAPTURED)
    eqn:Hcap.
  2:{ left. eapply verify_uncommitted; [exact Hacc|]. left. intros E. rewrite E in Hcap.
      discriminate. }
  assert (Hcap' : pay_status (verified_payment body rp_status pay) = CAPTURED).
  { destruct (pay_status (verified_payment body rp_status pay)); try discriminate; reflexivity. }
  destruct (load_appointment db (pay_appointment_id pay) tenant_id) as [a|] eqn:Happt.
  2:{ left. eapply verify_uncommitted; [exact Hacc|]. now right. }
  right. exists rp_payment, rp_status, a. repeat (split; [reflexivity || assumption|]).
  clear Ht Hu Hsig Hfetch Hst.
  verify_start.
  fold (verified_payment body rp_status pay).
  rewrite verified_payment_appointment.
  destruct (verified_payment_fields body rp_status pay) as [Hamt [Hcur _]].
  unfold load_appointment in Happt. rewrite Happt, Hcap'. msimpl.
  rewrite verified_payment_id, Hamt, Hcur.
  destruct (generate_receipt_pdf W (pay_id pay) "Customer" (pay_amount pay) (pay_currency pay))
    as [pdf|e] eqn:Hpdf; msimpl.
  2:{ now left. }
  right. exists pdf. split; [reflexivity|].
  destruct (send_booking_email_delay W "customer@email.com" "Payment Receipt"
              "Your payment was successful." pdf) as [[]|e]; msimpl; [|reflexivity].
  destruct (column_refused 255 _ _); reflexivity.
Qed.

(** X9. The refund endpoint sends at most one request to the provider, and
    only for a Razorpay payment of the caller's own tenant: the payment id it
    names is the one stored on that row (non-empty), and the body is the one
    built from the requested amount.  A payment of another tenant, a row
    without a payment id or a rejected amount never reach the provider. *)
Theorem refund_call_is_tenant_scoped L cfg W body payload db :
  sent (razorpay_refund L cfg W body payload) db = []
  \/ exists tenant_id pay pid data,
       token_tenant L payload tenant_id
       /\ In pay (payments db)
       /\ pay_id pay = r_payment_id body
       /\ pay_tenant_id pay = tenant_id
       /\ pay_provider pay = RAZORPAY
       /\ pay_provider_payment_id pay = Some pid
       /\ pid <> ""
       /\ refund_request (r_amount body) = Ok data
       /\ sent (razorpay_refund L cfg W body payload) db = [PaymentRefund pid data].
Proof.
  unfold razorpay_refund. msimpl.
  destruct (py_getitem payload "tenant_id") as [t|] eqn:Ht; msimpl; [|now left].
  destruct (py_UUID L t) as [tenant_id|] eqn:Hu; msimpl; [|now left].
  destruct (find _ (payments db)) as [pay|] eqn:Hload; msimpl; [|now left].
  destruct (pay_provider pay) eqn:Hprov; msimpl; [|now left].
  destruct (pay_provider_payment_id pay) as [[|c pid']|] eqn:Hpid; msimpl;
    [now left| |now left].
  destruct (refund_request (r_amount body)) as [data|] eqn:Hreq; msimpl; [|now left].
  right. exists tenant_id, pay, (String c pid'), data.
  apply find_some in Hload. destruct Hload as [Hin Hb].
  apply andb_true_iff in Hb. destruct Hb as [Hid Hten].
  apply String.eqb_eq in Hid. apply String.eqb_eq in Hten.
  split; [exists t; auto|]. repeat (split; [assumption || discriminate || reflexivity|]).
  destruct (client_payment_refund W (String c pid') data) as [refund|]; msimpl;
    [|reflexivity].
  rewrite flush_refuses_set_status.
  destruct (find _ (appointments db)); msimpl;
    (destruct (py_get refund "id" JNull) as [i|]; msimpl; [|reflexivity];
     destruct (bind_str_opt i); msimpl; reflexivity).
Qed.

(** ** The refund amount *)

Lemma binary_round_aux_sign sx mx ex lx :
  match binary_round_aux prec emax sx mx ex lx with
  | S754_zero s | S754_infinity s | S754_finite s _ _ => s = sx
  | S754_nan => True
  end.
Proof.
  unfold binary_round_aux.
  destruct (shr_fexp prec emax mx ex lx) as [mrs' e'].
  destruct (shr_fexp prec emax _ e' loc_Exact) as [mrs'' e''].
  destruct (shr_m mrs''); [reflexivity| |exact I].
  destruct (e'' <=? emax - prec); reflexivity.
Qed.

Lemma round_half_even_nonneg m e : 0 <= m -> 0 <= round_half_even m e.
Proof.
  intros Hm. unfold round_half_even.
  destruct (0 <=? e) eqn:He.
  - apply Z.leb_le in He. apply Z.mul_nonneg_nonneg; [exact Hm|].
    apply Z.pow_nonneg. lia.
  - apply Z.leb_gt in He.
    assert (Hd : 0 < 2 ^ (- e)) by (apply Z.pow_pos_nonneg; lia).
    assert (Hq : 0 <= m / 2 ^ (- e)) by (apply Z.div_pos; assumption).
    destruct (2 * (m mod 2 ^ (- e)) ?= 2 ^ (- e)); [destruct (Z.even _)| |]; lia.
Qed.

Lemma float_of_Z_100 : exists m e, float_of_Z 100 = S754_finite false m e.
Proof. eexists _, _. vm_compute. reflexivity. Qed.

(** The paisa of a positive finite amount are not negative. *)
Lemma paisa_nonneg m e n :
  py_round (float_mul (S754_finite false m e) (float_of_Z 100)) = Ok n -> 0 <= n.
Proof.
  destruct float_of_Z_100 as [m' [e' ->]].
  unfold float_mul. cbn [SFmul xorb].
  pose proof (binary_round_aux_sign false (Z.pos (m * m')) (e + e') loc_Exact) as Hs.
  destruct (binary_round_aux prec emax false (Z.pos (m * m')) (e + e') loc_Exact)
    as [s|s| |s m2 e2]; cbn [py_round]; try discriminate.
  - intros [= <-]. lia.
  - subst s. intros [= <-]. apply round_half_even_nonneg. lia.
Qed.

(** X10. The refund amount is compared with zero before it is converted
    (lines 320-324).  An amount that is zero, negative or minus infinity is
    answered with HTTP 400.  NaN is not [<= 0], so it passes the comparison
    and [round] raises [ValueError]; plus infinity raises [OverflowError].
    Whenever a body is built, the amount was a positive finite float and the
    paisa sent are an integer that is not negative -- and they can be zero:
    an amount below half a paisa passes the check and is sent as 0. *)
Theorem refund_amount_is_compared_before_conversion :
  (forall x, float_leb x (S754_zero false) = true ->
             refund_request (Some x)
             = Raise (HTTPException 400 "Refund amount must be > 0"))
  /\ refund_request (Some S754_nan) = Raise ValueError
  /\ refund_request (Some (S754_infinity false)) = Raise OverflowError
  /\ (forall x data, refund_request (Some x) = Ok data ->
        exists m e n, x = S754_finite false m e
                      /\ 0 <= n
                      /\ data = JDict [("amount", JInt n)])
  /\ refund_request (Some (float_div (float_of_Z 4) (float_of_Z 1000)))
     = Ok (JDict [("amount", JInt 0)]).
Proof.
  split; [|split; [|split; [|split]]].
  - intros x Hx. unfold refund_request. now rewrite Hx.
  - reflexivity.
  - reflexivity.
  - intros x data. unfold refund_request.
    destruct (float_leb x (S754_zero false)) eqn:Hle; [discriminate|].
    destruct (py_round _) as [n|] eqn:Hn; cbn [rbind]; [|discriminate].
    intros [= <-].
    destruct x as [s|s| |s m e].
    + destruct s; discriminate.
    + destruct s; discriminate.
    + discriminate.
    + destruct s; [discriminate|].
      exists m, e, n. split; [reflexivity|]. split; [|reflexivity].
      eapply paisa_nonneg; eassumption.
  - vm_compute. reflexivity.
Qed.

Lemma refund_amount_is_compared_before_conversion_witness :
  float_leb (S754_zero true) (S754_zero false) = true
  /\ refund_request (Some (S754_zero true))
     = Raise (HTTPException 400 "Refund amount must be > 0")
  /\ exists m e n, float_of_cents 30000 = S754_finite false m e
                   /\ 0 <= n
                   /\ JDict [("amount", JInt 30000)] = JDict [("amount", JInt n)].
Proof.
  split; [reflexivity|]. split.
  - apply (proj1 refund_amount_is_compared_before_conversion). reflexivity.
  - apply (proj1 (proj2 (proj2 (proj2 refund_amount_is_compared_before_conversion)))).
    vm_compute. reflexivity.
Defined.

(** ** Order creation *)

(** X11. Order creation reaches the provider at most once, and only with an
    appointment of the caller's own tenant: the token names the tenant, a row
    of the appointment table has that tenant and the requested id, and the
    order sent carries both in its notes.  A token without tenant, an
    appointment of another tenant or an amount that does not convert never
    reach the provider, and then nothing is written either. *)
Theorem order_call_is_tenant_scoped L cfg W body payload db :
  (sent (create_razorpay_order L cfg W body payload) db = []
   /\ persisted (create_razorpay_order L cfg W body payload) db = db)
  \/ exists ts tenant_id a n,
       py_get payload "tenant_id" JNull = Ok ts
       /\ py_UUID L ts = Ok tenant_id
       /\ In a (appointments db)
       /\ appt_tenant_id a = tenant_id
       /\ appt_id a = co_appointment_id body
       /\ py_round (float_mul (co_amount body) (float_of_Z 100)) = Ok n
       /\ sent (create_razorpay_order L cfg W body payload) db
          = [OrderCreate (order_request tenant_id (co_appointment_id body) n
                                        (co_currency body))].
Proof.
  unfold create_razorpay_order. msimpl.
  destruct (py_get payload "tenant_id" JNull) as [ts|] eqn:Hts; msimpl; [|now left].
  destruct (truthy ts); msimpl; [|now left].
  destruct (py_UUID L ts) as [tenant_id|[]] eqn:Hu; msimpl; try now left.
  destruct (find _ (appointments db)) as [a|] eqn:Ha; msimpl; [|now left].
  destruct (py_round _) as [n|] eqn:Hn; msimpl; [|now left].
  right. exists ts, tenant_id, a, n.
  apply find_some in Ha. destruct Ha as [Hin Hb].
  apply andb_true_iff in Hb. destruct Hb as [Hten Hid].
  apply String.eqb_eq in Hten. apply String.eqb_eq in Hid.
  repeat (split; [assumption || reflexivity|]).
  destruct (client_order_create W _) as [order|]; msimpl; [|reflexivity].
  destruct (py_getitem order "id") as [i|]; msimpl; [|reflexivity].
  rewrite order_payment_rejected. reflexivity.
Qed.

(** X12. Order creation stores nothing.  The constructor call of line 60
    passes [customer_id], an attribute class [Payment] does not declare, so
    every request ends in an exception and leaves the database as it was:
    no payment row, no [order.created] event, no amount due on the
    appointment.  A request that gets as far as the provider and is given an
    order with an id has by then created that order at the provider; it is
    answered with [TypeError], and the order stays behind with no payment
    for it in the database. *)
Theorem order_creation_stores_nothing L cfg W body payload db :
  (exists e, response (create_razorpay_order L cfg W body payload) db = Raise e)
  /\ step L cfg (ReqOrder W body payload) db = db
  /\ forall tenant_id a n order i,
       order_reaches_provider L body payload db tenant_id a n ->
       client_order_create W (order_request tenant_id (co_appointment_id body) n
                                            (co_currency body)) = Ok order ->
       py_getitem order "id" = Ok i ->
       response (create_razorpay_order L cfg W body payload) db = Raise TypeError
       /\ sent (create_razorpay_order L cfg W body payload) db
          = [OrderCreate (order_request tenant_id (co_appointment_id body) n
                                        (co_currency body))].
Proof.
  destruct (order_never_commits L cfg W body payload db) as [Hresp Hper].
  split; [exact Hresp|]. split; [exact Hper|].
  intros tenant_id a n order i [[ts [Hts [Htr Hu]]] [Ha Hn]] Hc Hi.
  unfold rupees_to_paisa in Hn.
  unfold create_razorpay_order. msimpl.
  rewrite Hts. msimpl. rewrite Htr. msimpl. rewrite Hu. msimpl.
  rewrite Ha. msimpl. rewrite Hn. msimpl. rewrite Hc. msimpl. rewrite Hi. msimpl.
  rewrite order_payment_rejected. split; reflexivity.
Qed.

Lemma order_creation_stores_nothing_witness :
  response (create_razorpay_order toy_lib cfg0 world_ok order_900 token_1) db0
  = Raise TypeError
  /\ sent (create_razorpay_order toy_lib cfg0 world_ok order_900 token_1) db0
     = [OrderCreate (order_request tenant_1 appt_1 90000 "INR")].
Proof.
  apply (proj2 (proj2 (order_creation_stores_nothing toy_lib cfg0 world_ok order_900
                         token_1 db0))
           tenant_1 (mkAppointment appt_1 tenant_1 cust_1 None None UNPAID) 90000
           order_abc (JStr "order_abc")).
  - split; [exists (JStr tenant_1); repeat split; vm_compute; reflexivity|].
    split; vm_compute; reflexivity.
  - vm_compute. reflexivity.
  - vm_compute. reflexivity.
Defined.

(** ** Verifying the same checkout twice *)

Lemma verify_committed_sent L cfg W body payload db tenant_id pay rp_payment rp_status a pdf :
  verify_accepted L cfg W body payload db tenant_id pay rp_payment rp_status ->
  pay_status (verified_payment body rp_status pay) = CAPTURED ->
  load_appointment db (pay_appointment_id pay) tenant_id = Some a ->
  generate_receipt_pdf W (pay_id pay) "Customer" (pay_amount pay) (pay_currency pay) = Ok pdf ->
  sent (razorpay_verify L cfg W body payload) db
  = [PaymentFetch (v_razorpay_payment_id body);
     ReceiptPdf (pay_id pay) "Customer" (pay_amount pay) (pay_currency pay);
     EmailDelay "customer@email.com" "Payment Receipt" "Your payment was successful." pdf].
Proof.
  intros Hacc Hcap Happt Hpdf. verify_start.
  fold (verified_payment body rp_status pay).
  rewrite verified_payment_appointment.
  destruct (verified_payment_fields body rp_status pay) as [Hamt [Hcur _]].
  unfold load_appointment in Happt. rewrite Happt, Hcap. msimpl.
  rewrite verified_payment_id, Hamt, Hcur, Hpdf. msimpl.
  destruct (send_booking_email_delay W "customer@email.com" "Payment Receipt"
              "Your payment was successful." pdf) as [[]|e]; msimpl; [|reflexivity].
  destruct (column_refused 255 _ _); reflexivity.
Qed.

Lemma verified_payment_twice body st p :
  verified_payment body st (verified_payment body st p) = verified_payment body st p.
Proof.
  unfold verified_payment, verify_status.
  destruct (json_eq_str st "captured"); [reflexivity|].
  destruct (json_eq_str st "authorized"); [reflexivity|].
  destruct (json_eq_str st "failed"); reflexivity.
Qed.

Lemma find_replace_appointment (f : Appointment -> bool) (l : list Appointment)
    (a a' : Appointment) :
  find f l = Some a ->
  f a' = true ->
  appt_id a' = appt_id a ->
  find f (replace_appointment a' l) = Some a'.
Proof.
  intros Hfind Hf Hid. induction l as [|b l IH]; [discriminate|].
  cbn [replace_appointment map find] in *.
  destruct (f b) eqn:Hb.
  - injection Hfind as ->. rewrite Hid, String.eqb_refl, Hf. reflexivity.
  - destruct (appt_id b =? appt_id a')%string; [now rewrite Hf|].
    rewrite Hb. now apply IH.
Qed.

Lemma replace_appointment_twice (a : Appointment) (l : list Appointment) :
  replace_appointment a (replace_appointment a l) = replace_appointment a l.
Proof.
  unfold replace_appointment. rewrite map_map. apply map_ext. intros b.
  destruct (appt_id b =? appt_id a)%string eqn:E; [|now rewrite E].
  now rewrite String.eqb_refl.
Qed.

(** X13. Checkout verification is not deduplicated.  The event it stores has
    no [provider_event_id] (line 285) and the handler looks nothing up before
    it acts, so a client that repeats a verification which captured the
    payment -- with a payment id of at most 255 characters, one the column
    takes -- gets the same answer again while the provider is asked again, a
    second receipt is generated and a second e-mail enqueued, and the ledger
    receives a second [checkout.verified] event.  The payment and the
    appointment stay as the first call left them. *)
Theorem repeated_verification_is_not_deduplicated
    L cfg W body payload db tenant_id pay rp_payment rp_status a pdf :
  verify_accepted L cfg W body payload db tenant_id pay rp_payment rp_status ->
  pay_status (verified_payment body rp_status pay) = CAPTURED ->
  load_appointment db (pay_appointment_id pay) tenant_id = Some a ->
  generate_receipt_pdf W (pay_id pay) "Customer" (pay_amount pay) (pay_currency pay) = Ok pdf ->
  send_booking_email_delay W "customer@email.com" "Payment Receipt"
    "Your payment was successful." pdf = Ok tt ->
  (str_len (v_razorpay_payment_id body) <= 255)%nat ->
  let db1 := step L cfg (ReqVerify W body payload) db in
  let db2 := step L cfg (ReqVerify W body payload) db1 in
  response (razorpay_verify L cfg W body payload) db1
  = response (razorpay_verify L cfg W body payload) db
  /\ sent (razorpay_verify L cfg W body payload) db1
     = sent (razorpay_verify L cfg W body payload) db
  /\ sent (razorpay_verify L cfg W body payload) db1
     = [PaymentFetch (v_razorpay_payment_id body);
        ReceiptPdf (pay_id pay) "Customer" (pay_amount pay) (pay_currency pay);
        EmailDelay "customer@email.com" "Payment Receipt" "Your payment was successful." pdf]
  /\ payment_events db2
     = (payment_events db ++ [checkout_verified_event tenant_id body rp_payment;
                              checkout_verified_event tenant_id body rp_payment])%list
  /\ payments db2 = payments db1
  /\ appointments db2 = appointments db1.
Proof.
  intros Hacc Hcap Happt Hpdf Hsend Hlen db1 db2.
  pose (pay' := verified_payment body rp_status pay).
  pose (a' := set_appt_payment_status PAID a).
  destruct (verify_committed L cfg W body payload db tenant_id pay rp_payment rp_status
              a pdf Hacc Hcap Happt Hpdf Hsend
              (verify_flush_accepts body rp_status pay Hlen)) as [Hresp [Hper _]].
  assert (Hdb1 : db1 = mkDB (replace_payment pay' (payments db))
                            (payment_events db
                             ++ [checkout_verified_event tenant_id body rp_payment])
                            (replace_appointment a' (appointments db))
                            (customers db)) by exact Hper.
  destruct (verified_payment_fields body rp_status pay)
    as [Hamt [Hcur [Hten [Hoid _]]]].
  fold pay' in Hamt, Hcur, Hten, Hoid, Hcap.
  assert (Hid : pay_id pay' = pay_id pay) by apply verified_payment_id.
  assert (Happ : pay_appointment_id pay' = pay_appointment_id pay)
    by apply verified_payment_appointment.
  assert (Htw : verified_payment body rp_status pay' = pay') by apply verified_payment_twice.
  assert (Hacc1 : verify_accepted L cfg W body payload db1 tenant_id pay'
                    rp_payment rp_status).
  { destruct Hacc as [Htok [Hload [Hord [Hsig [Hfetch Hst]]]]].
    split; [exact Htok|]. split; [|rewrite Hoid; auto].
    rewrite Hdb1. unfold load_payment in *. cbn [payments].
    apply find_replace_hit with (p := pay); [exact Hload| |exact Hid].
    apply find_some in Hload. destruct Hload as [_ Hb].
    now rewrite Hid, Hten. }
  assert (Happt1 : load_appointment db1 (pay_appointment_id pay') tenant_id = Some a').
  { rewrite Hdb1, Happ. unfold load_appointment in *. cbn [appointments].
    apply find_replace_appointment with (a := a); [exact Happt| |reflexivity].
    apply find_some in Happt. destruct Happt as [_ Hb]. exact Hb. }
  assert (Hcap1 : pay_status (verified_payment body rp_status pay') = CAPTURED)
    by now rewrite Htw.
  assert (Hpdf1 : generate_receipt_pdf W (pay_id pay') "Customer" (pay_amount pay')
                    (pay_currency pay') = Ok pdf) by now rewrite Hid, Hamt, Hcur.
  destruct (verify_committed L cfg W body payload db1 tenant_id pay' rp_payment rp_status
              a' pdf Hacc1 Hcap1 Happt1 Hpdf1 Hsend
              (verify_flush_accepts body rp_status pay' Hlen)) as [Hresp1 [Hper1 _]].
  assert (Hdb2 : db2 = mkDB (replace_payment (verified_payment body rp_status pay')
                                             (payments db1))
                            (payment_events db1
                             ++ [checkout_verified_event tenant_id body rp_payment])
                            (replace_appointment (set_appt_payment_status PAID a')
                                                 (appointments db1))
                            (customers db1)) by exact Hper1.
  pose proof (verify_committed_sent L cfg W body payload db tenant_id pay rp_payment
                rp_status a pdf Hacc Hcap Happt Hpdf) as Hs.
  pose proof (verify_committed_sent L cfg W body payload db1 tenant_id pay' rp_payment
                rp_status a' pdf Hacc1 Hcap1 Happt1 Hpdf1) as Hs1.
  rewrite Hid, Hamt, Hcur in Hs1.
  split; [now rewrite Hresp1, Hresp, Htw|].
  split; [now rewrite Hs1, Hs|]. split; [exact Hs1|].
  rewrite Hdb2, Htw. cbn [payment_events payments appointments].
  split; [|split].
  - rewrite Hdb1. cbn [payment_events]. now rewrite <- app_assoc.
  - rewrite Hdb1. cbn [payments]. now apply replace_payment_twice.
  - rewrite Hdb1. cbn [appointments].
    change (set_appt_payment_status PAID a') with a'.
    apply replace_appointment_twice.
Qed.

Lemma repeated_verification_is_not_deduplicated_witness :
  event_types (step toy_lib cfg0 (ReqVerify world_ok verify_1 token_1) db_captured_by_verify)
  = ["order.created"; "checkout.verified"; "checkout.verified"].
Proof.
  pose proof (repeated_verification_is_not_deduplicated toy_lib cfg0 world_ok verify_1 token_1
                db_created tenant_1 (row_1 None CREATED) (fetched_payment "pay_1" "captured")
                (JStr "captured") (appointment_1 UNPAID) "%PDF-1.4") as H.
  cbv zeta in H.
  destruct H as [_ [_ [_ [Hev _]]]].
  - repeat split; try (vm_compute; reflexivity).
    exists (JStr tenant_1). split; vm_compute; reflexivity.
  - vm_compute. reflexivity.
  - vm_compute. reflexivity.
  - vm_compute. reflexivity.
  - vm_compute. reflexivity.
  - vm_compute. lia.
  - unfold event_types, db_captured_by_verify. rewrite Hev.
    vm_compute. reflexivity.
Defined.

(** ** The webhook's lookup and the appointment it updates *)

(** X14. The tenant named in a webhook's [notes] is a preference, not a
    filter (lines 153-166).  When some payment carries the order id, the
    webhook resolves a payment with that order id whatever the hint says --
    absent, not a UUID, or naming a tenant without such a payment -- by
    falling back to the lookup by order id alone.  When the hint parses and
    that tenant does have a payment with the order id, the payment resolved
    belongs to it. *)
Theorem tenant_hint_is_only_a_preference L t oid db p :
  oid <> "" ->
  In p (payments db) ->
  pay_provider_order_id p = oid ->
  exists q,
    resolve_payment L t (JStr oid) (open_session db) = (Ok (Some q), open_session db)
    /\ In q (payments db)
    /\ pay_provider_order_id q = oid
    /\ forall u p',
         truthy t = true -> py_UUID L t = Ok u ->
         In p' (payments db) -> pay_tenant_id p' = u -> pay_provider_order_id p' = oid ->
         pay_tenant_id q = u.
Proof.
  intros Hne Hin Hoid.
  rewrite (resolve_payment_str L t oid (open_session db) (truthy_str oid Hne)).
  cbn [work open_session].
  destruct (find_some_of_in (fun p => (pay_provider_order_id p =? oid)%string)
              (payments db) p Hin) as [q0 Hq0]; [now apply String.eqb_eq|].
  destruct (truthy t) eqn:Ht.
  - destruct (py_UUID L t) as [u|e] eqn:Hu.
    + destruct (find (fun p => (pay_tenant_id p =? u)%string
                               && (pay_provider_order_id p =? oid)%string) (payments db))
        as [q|] eqn:Hq.
      * exists q. split; [reflexivity|].
        apply find_some in Hq. destruct Hq as [Hqin Hb].
        apply andb_true_iff in Hb. destruct Hb as [Hb1 Hb2].
        apply String.eqb_eq in Hb1. apply String.eqb_eq in Hb2.
        split; [exact Hqin|]. split; [exact Hb2|].
        intros u' p' _ [= <-] _ _ _. exact Hb1.
      * exists q0. rewrite Hq0. split; [reflexivity|].
        apply find_some in Hq0. destruct Hq0 as [Hqin Hb]. apply String.eqb_eq in Hb.
        split; [exact Hqin|]. split; [exact Hb|].
        intros u' p' _ [= <-] Hin' Hten' Hoid'.
        pose proof (find_none _ _ Hq p' Hin') as Hf. cbn beta in Hf.
        rewrite Hten', Hoid', !String.eqb_refl in Hf. discriminate.
    + exists q0. rewrite Hq0. split; [reflexivity|].
      apply find_some in Hq0. destruct Hq0 as [Hqin Hb]. apply String.eqb_eq in Hb.
      split; [exact Hqin|]. split; [exact Hb|]. intros u p' _ [=].
  - exists q0. rewrite Hq0. split; [reflexivity|].
    apply find_some in Hq0. destruct Hq0 as [Hqin Hb]. apply String.eqb_eq in Hb.
    split; [exact Hqin|]. split; [exact Hb|]. intros u p' [=].
Qed.

Lemma tenant_hint_is_only_a_preference_witness :
  exists q,
    resolve_payment toy_lib (JStr "not-a-uuid") (JStr "order_abc") (open_session db_created)
    = (Ok (Some q), open_session db_created)
    /\ pay_provider_order_id q = "order_abc".
Proof.
  destruct (tenant_hint_is_only_a_preference toy_lib (JStr "not-a-uuid") "order_abc"
              db_created (row_1 None CREATED)) as [q [Hq [_ [Ho _]]]].
  - discriminate.
  - vm_compute. now left.
  - reflexivity.
  - exists q. split; assumption.
Defined.

(** X15. What an applied webhook does to the appointment (lines 209-216).
    The appointment is looked up by the payment's appointment id alone, and it
    mirrors the status the payment has after the webhook, not the event: PAID
    for CAPTURED, FAILED for FAILED, REFUNDED for REFUNDED, nothing for
    CREATED and AUTHORIZED.  So a notification whose status string is not
    recognised leaves the payment's status alone and still re-asserts the
    mirror of that status on the appointment.  This is for a webhook whose
    payment id the column takes (none, or at most 255 characters), so that
    the commit of line 218 goes through. *)
Theorem webhook_mirrors_the_resulting_status L cfg req db env pay ev :
  authenticated L cfg req ->
  extract_envelope (wh_json req) = Ok env ->
  fst (resolve_payment L (env_tenant_id_str env) (env_provider_order_id env)
         (open_session db)) = Ok (Some pay) ->
  fst (idempotency_check pay (env_event_id env) (open_session db)) = Ok None ->
  webhook_event pay env (wh_json req) = Ok ev ->
  fits_column 255 (ev_provider_payment_id ev) = true ->
  appointments (step L cfg (ReqWebhook req) db)
  = match mirrored (pay_status (webhook_status (env_status env) pay)),
          find (fun a => (appt_id a =? pay_appointment_id pay)%string) (appointments db) with
    | Some s, Some a => replace_appointment (set_appt_payment_status s a) (appointments db)
    | _, _ => appointments db
    end.
Proof.
  intros [sig [Hs [Hne Hv]]] Hext Hres Hdup Hev Hfit.
  pose proof (webhook_flush_accepts env ev (env_status env) pay Hfit) as Hfl.
  unfold step, handle, razorpay_webhook. rewrite Hs.
  apply String.eqb_neq in Hne. rewrite Hne. msimpl.
  rewrite Hv. msimpl. rewrite Hext. msimpl.
  destruct (resolve_payment_run L (env_tenant_id_str env) (env_provider_order_id env)
              (open_session db)) as [r Hr].
  rewrite Hr in Hres. cbn [fst] in Hres. subst r.
  unfold open_session in Hr. rewrite Hr.
  destruct (idempotency_check_run pay (env_event_id env) (open_session db)) as [r Hi].
  rewrite Hi in Hdup. cbn [fst] in Hdup. subst r.
  unfold open_session in Hi. rewrite Hi.
  rewrite Hev. msimpl.
  unfold webhook_appointment. msimpl.
  assert (Hst : pay_status (webhook_payment_id env ev (webhook_status (env_status env) pay))
                = pay_status (webhook_status (env_status env) pay)).
  { unfold webhook_payment_id. destruct (truthy _); reflexivity. }
  assert (Hap : pay_appointment_id
                  (webhook_payment_id env ev (webhook_status (env_status env) pay))
                = pay_appointment_id pay).
  { unfold webhook_payment_id, webhook_status. repeat case_head; reflexivity. }
  rewrite Hst, Hap. unfold replace_appointment.
  destruct (find _ (appointments db)) as [a|]; msimpl.
  - destruct (pay_status (webhook_status (env_status env) pay)); msimpl;
      rewrite flush_refuses_webhook_status, Hfl; reflexivity.
  - rewrite flush_refuses_webhook_status, Hfl. destruct (mirrored _); reflexivity.
Qed.

Lemma webhook_mirrors_the_resulting_status_witness :
  row_appt_status db_captured_by_webhook appt_1 = Some PAID.
Proof.
  unfold row_appt_status, db_captured_by_webhook.
  rewrite (webhook_mirrors_the_resulting_status toy_lib cfg0 wh_captured db_created
             (envelope_of "payment.captured" "pay_1" "order_abc" "captured")
             (row_1 None CREATED)
             (event_of "payment.captured" "pay_1" "order_abc" "captured")).
  - vm_compute. reflexivity.
  - exists (hmac_sha256_hexdigest toy_lib (RAZORPAY_WEBHOOK_SECRET cfg0) (wh_raw wh_captured)).
    split; [reflexivity|]. split; [discriminate|vm_compute; reflexivity].
  - vm_compute. reflexivity.
  - vm_compute. reflexivity.
  - vm_compute. reflexivity.
  - vm_compute. reflexivity.
  - vm_compute. reflexivity.
Defined.

(** ** A payment id the column does not hold *)




(** ** Signatures and tokens at the edges *)

(** X16. The two signature checks of integration/razorpay.py accept exactly
    the digest: the webhook check answers [True] if and only if the signature
    is the HMAC of the raw body under the webhook secret, the checkout check
    if and only if it is the HMAC of [order_id|payment_id] under the key
    secret (and the strings are ASCII, or [compare_digest] raises).  The
    checkout message is the plain concatenation, so only the concatenation is
    authenticated. *)
Theorem signature_checks_accept_exactly_the_digest L :
  (forall raw sig secret,
     verify_razorpay_webhook_signature L raw sig secret = Ok true
     <-> sig = hmac_sha256_hexdigest L secret raw /\ is_ascii sig = true)
  /\ (forall order_id payment_id sig secret,
        verify_razorpay_checkout_signature L order_id payment_id sig secret = Ok true
        <-> sig = hmac_sha256_hexdigest L secret (order_id ++ "|" ++ payment_id)
            /\ is_ascii sig = true).
Proof.
  assert (H : forall d sig, compare_digest d sig = Ok true <-> sig = d /\ is_ascii sig = true).
  { intros d sig. unfold compare_digest. split.
    - destruct (is_ascii d) eqn:Hd; [|discriminate].
      destruct (is_ascii sig) eqn:Hs; [|discriminate]. cbn [andb].
      intros [= E]. apply String.eqb_eq in E. now subst.
    - intros [-> Hs]. rewrite Hs. cbn [andb]. now rewrite String.eqb_refl. }
  split.
  - intros raw sig secret. unfold verify_razorpay_webhook_signature. apply H.
  - intros order_id payment_id sig secret. unfold verify_razorpay_checkout_signature. apply H.
Qed.

Lemma signature_checks_accept_exactly_the_digest_witness :
  v_razorpay_signature verify_1
  = hmac_sha256_hexdigest toy_lib (RAZORPAY_KEY_SECRET cfg0) ("order_abc" ++ "|" ++ "pay_1")
  /\ is_ascii (v_razorpay_signature verify_1) = true.
Proof.
  apply (proj2 (signature_checks_accept_exactly_the_digest toy_lib)).
  vm_compute. reflexivity.
Defined.

(** X17. The three token-guarded endpoints read the tenant off the token in
    two different ways.  Order creation uses [payload.get] and answers HTTP
    400 for a token without [tenant_id] ("Missing tenant_id in token") and for
    one that is no UUID ("Invalid tenant_id format"); verification and refund
    use [payload["tenant_id"]] unguarded (lines 229 and 304), so the same
    tokens end in an uncaught [KeyError] and [ValueError].  In every case
    nothing is read from the database, written or sent. *)
Theorem token_tenant_is_checked_by_order_creation_only L cfg W kv :
  (assoc "tenant_id" kv = None ->
   forall db order_body verify_body refund_body,
     run (create_razorpay_order L cfg W order_body (JDict kv)) db
     = (Raise (HTTPException 400 "Missing tenant_id in token"), open_session db)
     /\ run (razorpay_verify L cfg W verify_body (JDict kv)) db
        = (Raise KeyError, open_session db)
     /\ run (razorpay_refund L cfg W refund_body (JDict kv)) db
        = (Raise KeyError, open_session db))
  /\ (forall s, assoc "tenant_id" kv = Some (JStr s) -> s <> "" -> UUID_parse L s = None ->
      forall db order_body verify_body refund_body,
        run (create_razorpay_order L cfg W order_body (JDict kv)) db
        = (Raise (HTTPException 400 "Invalid tenant_id format"), open_session db)
        /\ run (razorpay_verify L cfg W verify_body (JDict kv)) db
           = (Raise ValueError, open_session db)
        /\ run (razorpay_refund L cfg W refund_body (JDict kv)) db
           = (Raise ValueError, open_session db)).
Proof.
  split.
  - intros Hk db ob vb rb.
    unfold create_razorpay_order, razorpay_verify, razorpay_refund, py_get, py_getitem.
    rewrite Hk. msimpl. auto.
  - intros s Hk Hne Hp db ob vb rb.
    unfold create_razorpay_order, razorpay_verify, razorpay_refund, py_get, py_getitem.
    rewrite Hk. msimpl. rewrite (truthy_str s Hne). msimpl.
    unfold py_UUID. rewrite Hp. msimpl. auto.
Qed.

Lemma token_tenant_is_checked_by_order_creation_only_witness :
  run (razorpay_refund toy_lib cfg0 world_ok refund_300 (JDict [("type", JStr "access")]))
      db_captured_by_webhook
  = (Raise KeyError, open_session db_captured_by_webhook).
Proof.
  apply (proj1 (token_tenant_is_checked_by_order_creation_only toy_lib cfg0 world_ok
                  [("type", JStr "access")]) eq_refl db_captured_by_webhook
               order_900 verify_1 refund_300).
Defined.

(** ** rupees_to_paisa *)

Lemma binary_round_aux_opp sx mx ex lx :
  binary_round_aux prec emax (negb sx) mx ex lx
  = SFopp (binary_round_aux prec emax sx mx ex lx)
  \/ binary_round_aux prec emax sx mx ex lx = S754_nan.
Proof.
  unfold binary_round_aux.
  destruct (shr_fexp prec emax mx ex lx) as [mrs' e'].
  destruct (shr_fexp prec emax _ e' loc_Exact) as [mrs'' e''].
  destruct (shr_m mrs''); [now left| |now right].
  destruct (e'' <=? emax - prec); now left.
Qed.

(** X18. [rupees_to_paisa] treats an amount and its negative alike: the
    paisa of [-x] are the negated paisa of [x] (rounding is half-to-even on
    the magnitude), an amount that fails to convert fails with the same
    exception for both signs, and the paisa of a positive amount are never
    negative. *)
Theorem paisa_follow_the_sign_of_the_amount x :
  (forall n, rupees_to_paisa x = Ok n -> rupees_to_paisa (SFopp x) = Ok (- n))
  /\ (forall e, rupees_to_paisa x = Raise e -> rupees_to_paisa (SFopp x) = Raise e)
  /\ (forall m e n, x = S754_finite false m e -> rupees_to_paisa x = Ok n -> 0 <= n).
Proof.
  unfold rupees_to_paisa.
  destruct float_of_Z_100 as [m' [e' H100]].
  split; [|split].
  - intros n. rewrite H100. unfold float_mul.
    destruct x as [s|s| |s m e]; cbn [SFopp SFmul py_round]; try discriminate.
    + intros [= <-]. reflexivity.
    + rewrite !xorb_false_r.
      destruct (binary_round_aux_opp s (Z.pos (m * m')) (e + e') loc_Exact) as [-> | ->];
        [|discriminate].
      destruct (binary_round_aux prec emax s (Z.pos (m * m')) (e + e') loc_Exact)
        as [s2|s2| |s2 m2 e2]; cbn [SFopp py_round]; try discriminate.
      * intros [= <-]. reflexivity.
      * intros [= <-]. f_equal. cbv zeta.
        destruct s2; cbn [negb]; [now rewrite Z.opp_involutive|reflexivity].
  - intros ex. rewrite H100. unfold float_mul.
    destruct x as [s|s| |s m e]; cbn [SFopp SFmul py_round]; try discriminate; auto.
    rewrite !xorb_false_r.
    destruct (binary_round_aux_opp s (Z.pos (m * m')) (e + e') loc_Exact) as [-> | Hn].
    + destruct (binary_round_aux prec emax s (Z.pos (m * m')) (e + e') loc_Exact)
        as [s2|s2| |s2 m2 e2]; cbn [SFopp py_round]; try discriminate; auto.
    + rewrite Hn. cbn [py_round]. intros [= <-].
      revert Hn. unfold binary_round_aux.
      destruct (shr_fexp prec emax (Z.pos (m * m')) (e + e') loc_Exact) as [mrs1 e1].
      destruct (shr_fexp prec emax _ e1 loc_Exact) as [mrs2 e2].
      destruct (shr_m mrs2); [discriminate| |reflexivity].
      destruct (e2 <=? emax - prec); discriminate.
  - intros m e n ->. apply paisa_nonneg.
Qed.

Lemma paisa_follow_the_sign_of_the_amount_witness :
  rupees_to_paisa (SFopp (float_of_cents 1999)) = Ok (- 1999).
Proof.
  apply (proj1 (paisa_follow_the_sign_of_the_amount (float_of_cents 1999)) 1999).
  vm_compute. reflexivity.
Defined.

(* ================================================================== *)
(** * The dependencies of core/deps.py *)

Lemma json_eq_str_true v s : json_eq_str v s = true <-> v = JStr s.
Proof.
  unfold json_eq_str. destruct v; split; try discriminate.
  - intros H. apply String.eqb_eq in H. now subst.
  - intros [= ->]. apply String.eqb_refl.
Qed.

Lemma py_in_true v allowed : py_in v allowed = true <-> exists r, v = JStr r /\ In r allowed.
Proof.
  unfold py_in. rewrite existsb_exists. split.
  - intros [r [Hin Heq]]. apply json_eq_str_true in Heq. eauto.
  - intros [r [-> Hin]]. exists r. split; [exact Hin|]. now apply json_eq_str_true.
Qed.

Lemma get_token_payload_ok S token p :
  get_token_payload S token = Ok p
  <-> decode_token S token = Ok p
      /\ exists kv, p = JDict kv /\ assoc "type" kv = Some (JStr "access").
Proof.
  unfold get_token_payload. split.
  - destruct (decode_token S token) as [payload|e].
    2:{ destruct e; discriminate. }
    unfold py_get. destruct payload; try discriminate. cbn [rbind].
    destruct (assoc "type" kv) as [t|] eqn:Ht; cbn [json_eq_str negb].
    + destruct (json_eq_str t "access") eqn:Hacc; cbn [negb]; [|discriminate].
      intros [= <-]. apply json_eq_str_true in Hacc. subst t. eauto.
    + discriminate.
  - intros [-> [kv [-> Ht]]]. unfold py_get. rewrite Ht. reflexivity.
Qed.

(** X19. [get_token_payload] admits access tokens only, and hands the claims
    on unchanged: it returns a payload exactly when [decode_token] returned
    it and its [type] is the string "access".  A [ValueError] of the decoder
    becomes HTTP 401 "Invalid token"; any other exception it raises is not
    caught.  A handler that depends on it does not run for a rejected token:
    nothing is read, written or sent. *)
Theorem token_guard_admits_access_tokens_only S token :
  (forall p, get_token_payload S token = Ok p
             <-> decode_token S token = Ok p
                 /\ exists kv, p = JDict kv /\ assoc "type" kv = Some (JStr "access"))
  /\ (forall kv, decode_token S token = Ok (JDict kv) ->
                 assoc "type" kv <> Some (JStr "access") ->
                 get_token_payload S token = Raise (HTTPException 401 "Access token required"))
  /\ (decode_token S token = Raise ValueError ->
      get_token_payload S token = Raise (HTTPException 401 "Invalid token"))
  /\ (forall e, decode_token S token = Raise e -> e <> ValueError ->
                get_token_payload S token = Raise e)
  /\ (forall e h db, get_token_payload S token = Raise e ->
                     run (with_token S token h) db = (Raise e, open_session db)).
Proof.
  split; [intros p; apply get_token_payload_ok|].
  split; [|split; [|split]].
  - intros kv Hd Hne. unfold get_token_payload. rewrite Hd. unfold py_get. cbn [rbind].
    destruct (assoc "type" kv) as [t|]; [|reflexivity].
    destruct (json_eq_str t "access") eqn:Hacc; [|reflexivity].
    apply json_eq_str_true in Hacc. now subst t.
  - intros Hd. unfold get_token_payload. now rewrite Hd.
  - intros e Hd Hne. unfold get_token_payload. rewrite Hd.
    destruct e; try reflexivity. contradiction.
  - intros e h db He. unfold with_token. msimpl. rewrite He. reflexivity.
Qed.

Lemma token_guard_admits_access_tokens_only_witness :
  get_token_payload (mkSecurity (fun _ => Ok (JDict [("type", JStr "refresh")]))) "token"
  = Raise (HTTPException 401 "Access token required").
Proof.
  apply (proj1 (proj2 (token_guard_admits_access_tokens_only _ _)) [("type", JStr "refresh")]);
    [reflexivity|discriminate].
Defined.

(** X20. The guard of [require_roles] admits a token exactly when
    [get_token_payload] admits it and its [role] is one of the strings
    listed; a token without role, or with a role that is no string, is
    answered with HTTP 403.  Listing more roles never rejects a token that
    was admitted, and a guard built with no role rejects everyone. *)
Theorem role_guard_admits_listed_roles_only S allowed token :
  (forall p, role_guard S allowed token = Ok p
             <-> get_token_payload S token = Ok p
                 /\ exists r, py_get p "role" JNull = Ok (JStr r) /\ In r allowed)
  /\ (forall p, get_token_payload S token = Ok p ->
                (forall r, py_get p "role" JNull = Ok (JStr r) -> ~ In r allowed) ->
                role_guard S allowed token = Raise (HTTPException 403 "Forbidden"))
  /\ (forall allowed' p, incl allowed allowed' ->
                         role_guard S allowed token = Ok p ->
                         role_guard S allowed' token = Ok p)
  /\ (forall p, role_guard S [] token <> Ok p).
Proof.
  assert (Hiff : forall al p, role_guard S al token = Ok p
             <-> get_token_payload S token = Ok p
                 /\ exists r, py_get p "role" JNull = Ok (JStr r) /\ In r al).
  { intros al p. unfold role_guard, require_roles. split.
    - destruct (get_token_payload S token) as [p0|]; cbn [rbind]; [|discriminate].
      destruct (py_get p0 "role" JNull) as [role|] eqn:Hr; cbn [rbind]; [|discriminate].
      destruct (py_in role al) eqn:Hin; cbn [negb]; [|discriminate].
      intros [= <-]. apply py_in_true in Hin. destruct Hin as [r [-> Hin]]. eauto.
    - intros [-> [r [Hr Hin]]]. cbn [rbind]. rewrite Hr. cbn [rbind].
      assert (H : py_in (JStr r) al = true) by (apply py_in_true; eauto).
      now rewrite H. }
  split; [apply Hiff|]. split; [|split].
  - intros p Hp Hno. unfold role_guard, require_roles. rewrite Hp. cbn [rbind].
    apply get_token_payload_ok in Hp. destruct Hp as [_ [kv [-> _]]].
    unfold py_get in *. cbn [rbind].
    destruct (py_in _ allowed) eqn:Hin; [|reflexivity].
    apply py_in_true in Hin. destruct Hin as [r [Hr Hin]].
    exfalso. apply (Hno r); [now rewrite Hr|exact Hin].
  - intros allowed' p Hincl H. apply Hiff in H. apply Hiff.
    destruct H as [Hp [r [Hr Hin]]]. split; [exact Hp|]. exists r. auto.
  - intros p H. apply Hiff in H. destruct H as [_ [r [_ []]]].
Qed.

Lemma role_guard_admits_listed_roles_only_witness :
  role_guard (mkSecurity (fun _ => Ok (JDict [("type", JStr "access"); ("role", JStr "OWNER")])))
             ["OWNER"; "MANAGER"] "token"
  = Ok (JDict [("type", JStr "access"); ("role", JStr "OWNER")]).
Proof.
  apply (proj1 (role_guard_admits_listed_roles_only _ _ _)).
  split; [reflexivity|]. exists "OWNER". split; [reflexivity|]. now left.
Defined.

(** X21. [get_branch_id] returns a branch id only for a branch of the
    caller's own tenant: the header parses to the id returned, and the branch
    table holds a row with that id and the tenant of the token.  A branch of
    another tenant is answered like a branch that does not exist, with HTTP
    403, and a header that is no UUID with HTTP 400 -- but only after the
    tenant has been read off the token (line 43). *)
Theorem branch_guard_is_tenant_scoped L branches x payload :
  (forall b, get_branch_id L branches x payload = Ok b
             <-> exists tenant_id,
                   token_tenant L payload tenant_id
                   /\ UUID_parse L x = Some b
                   /\ exists br, In br branches
                                 /\ branch_id br = b
                                 /\ branch_tenant_id br = tenant_id)
  /\ (forall tenant_id b,
        token_tenant L payload tenant_id ->
        UUID_parse L x = Some b ->
        (forall br, In br branches -> branch_id br = b -> branch_tenant_id br <> tenant_id) ->
        get_branch_id L branches x payload
        = Raise (HTTPException 403 "Branch not found for tenant"))
  /\ (forall tenant_id,
        token_tenant L payload tenant_id ->
        UUID_parse L x = None ->
        get_branch_id L branches x payload = Raise (HTTPException 400 "Invalid X-Branch-Id")).
Proof.
  split; [|split].
  - intros b. unfold get_branch_id, token_tenant. split.
    + destruct (py_getitem payload "tenant_id") as [t|]; cbn [rbind]; [|discriminate].
      destruct (py_UUID L t) as [tenant_id|] eqn:Hu; cbn [rbind]; [|discriminate].
      unfold py_UUID at 1. destruct (UUID_parse L x) as [bid|]; cbn [rbind]; [|discriminate].
      destruct (find _ branches) as [br|] eqn:Hf; [|discriminate].
      intros [= <-]. apply find_some in Hf. destruct Hf as [Hin Hb].
      apply andb_true_iff in Hb. destruct Hb as [H1 H2].
      apply String.eqb_eq in H1. apply String.eqb_eq in H2.
      exists tenant_id. split; [eauto|]. split; [reflexivity|]. eauto.
    + intros [tenant_id [[t [Ht Hu]] [Hx [br [Hin [Hb Hten]]]]]].
      rewrite Ht. cbn [rbind]. rewrite Hu. cbn [rbind].
      unfold py_UUID. rewrite Hx. cbn [rbind].
      destruct (find_some_of_in
                  (fun b0 => (branch_id b0 =? b)%string
                             && (branch_tenant_id b0 =? tenant_id)%string) branches br Hin)
        as [y Hy]; [now rewrite Hb, Hten, !String.eqb_refl|].
      now rewrite Hy.
  - intros tenant_id b [t [Ht Hu]] Hx Hno. unfold get_branch_id.
    rewrite Ht. cbn [rbind]. rewrite Hu. cbn [rbind].
    unfold py_UUID. rewrite Hx. cbn [rbind].
    rewrite find_none_iff; [reflexivity|].
    intros br Hin. destruct (branch_id br =? b)%string eqn:E; [|reflexivity].
    apply String.eqb_eq in E. cbn [andb]. apply String.eqb_neq. now apply Hno.
  - intros tenant_id [t [Ht Hu]] Hx. unfold get_branch_id.
    rewrite Ht. cbn [rbind]. rewrite Hu. cbn [rbind].
    unfold py_UUID. rewrite Hx. reflexivity.
Qed.

Lemma branch_guard_is_tenant_scoped_witness :
  get_branch_id toy_lib [mkBranch appt_1 cust_1] appt_1 token_1
  = Raise (HTTPException 403 "Branch not found for tenant").
Proof.
  apply (proj1 (proj2 (branch_guard_is_tenant_scoped toy_lib [mkBranch appt_1 cust_1]
                         appt_1 token_1)) tenant_1 appt_1).
  - exists (JStr tenant_1). split; vm_compute; reflexivity.
  - vm_compute. reflexivity.
  - intros br [<- | []] _. discriminate.
Defined.

(* ================================================================== *)
(** * The rate limiter of middlewares/rate_limit.py *)

Lemma bucket_set_bucket_same b key q : bucket (set_bucket b key q) key = q.
Proof.
  induction b as [|[k q0] b IH]; cbn [set_bucket bucket].
  - now rewrite String.eqb_refl.
  - destruct (key =? k)%string eqn:E; cbn [bucket]; rewrite E; [reflexivity|exact IH].
Qed.

Lemma bucket_set_bucket_other b key key' q :
  key' <> key -> bucket (set_bucket b key q) key' = bucket b key'.
Proof.
  intros Hne. induction b as [|[k q0] b IH]; cbn [set_bucket bucket].
  - apply String.eqb_neq in Hne. now rewrite Hne.
  - destruct (key =? k)%string eqn:E; cbn [bucket].
    + apply String.eqb_eq in E. subst k.
      apply String.eqb_neq in Hne. now rewrite Hne.
    + now rewrite IH.
Qed.

Lemma popleft_expired_length ws q :
  (List.length (popleft_expired ws q) <= List.length q)%nat.
Proof.
  induction q as [|t q IH]; cbn [popleft_expired]; [lia|].
  destruct (SFltb t ws); cbn [List.length] in *; lia.
Qed.

Lemma dispatch_rule self request now call_next :
  rule (snd (dispatch self request now call_next)) = rule self
  /\ key_prefix (snd (dispatch self request now call_next)) = key_prefix self.
Proof.
  unfold dispatch. destruct (float_of_int _); [|split; reflexivity].
  destruct (_ <=? _); split; reflexivity.
Qed.

Lemma dispatch_keeps_bound self request now call_next :
  (forall key, Z.of_nat (List.length (bucket (buckets self) key))
               <= Z.max 0 (max_requests (rule self))) ->
  forall key, Z.of_nat (List.length
                          (bucket (buckets (snd (dispatch self request now call_next))) key))
              <= Z.max 0 (max_requests (rule self)).
Proof.
  intros Hinv key. unfold dispatch.
  destruct (float_of_int _) as [w|]; [|apply Hinv].
  set (q := popleft_expired _ _).
  assert (Hq : Z.of_nat (List.length q) <= Z.max 0 (max_requests (rule self))).
  { pose proof (popleft_expired_length (SFsub prec emax now w)
                  (bucket (buckets self) (_key self request))) as Hl.
    pose proof (Hinv (_key self request)). unfold q. lia. }
  destruct (string_dec key (_key self request)) as [-> | Hne].
  - destruct (max_requests (rule self) <=? Z.of_nat (List.length q)) eqn:E;
      cbn [snd buckets]; rewrite bucket_set_bucket_same; [exact Hq|].
    apply Z.leb_gt in E. rewrite length_app. cbn [List.length]. lia.
  - destruct (max_requests (rule self) <=? Z.of_nat (List.length q));
      cbn [snd buckets]; rewrite bucket_set_bucket_other by exact Hne; apply Hinv.
Qed.

(** X22. However many requests arrive, in whatever order and with whatever
    clock readings, and whether the application answers or raises, no bucket
    of the limiter ever holds more than [max_requests] timestamps (none at
    all when [max_requests] is zero or negative). *)
Theorem buckets_never_exceed_the_limit rl prefix trace key :
  Z.of_nat (List.length (bucket (buckets (serve (new_middleware rl prefix) trace)) key))
  <= Z.max 0 (max_requests rl).
Proof.
  assert (H : forall self,
             (forall k, Z.of_nat (List.length (bucket (buckets self) k))
                        <= Z.max 0 (max_requests (rule self))) ->
             forall k, Z.of_nat (List.length (bucket (buckets (serve self trace)) k))
                       <= Z.max 0 (max_requests (rule self))).
  { induction trace as [|[[request now] call_next] trace IH]; intros self Hinv k;
      cbn [serve]; [apply Hinv|].
    rewrite <- (proj1 (dispatch_rule self request now call_next)).
    apply IH. intros k'. rewrite (proj1 (dispatch_rule self request now call_next)).
    now apply dispatch_keeps_bound. }
  apply (H (new_middleware rl prefix)). intros k. cbn. lia.
Qed.

Lemma limit_reached (m : Z) (n : nat) : (m <=? Z.of_nat n) = (Z.to_nat m <=? n)%nat.
Proof.
  destruct (m <=? Z.of_nat n) eqn:E; symmetry.
  - apply Z.leb_le in E. apply Nat.leb_le. lia.
  - apply Z.leb_gt in E. apply Nat.leb_gt. lia.
Qed.

Lemma burst_continues rl prefix request call_next w (t1 : float) (ts : list float) :
  float_of_int (window_sec rl) = Ok w ->
  Forall (fun t => SFltb t1 (SFsub prec emax t w) = false) ts ->
  forall self q',
    rule self = rl ->
    key_prefix self = prefix ->
    bucket (buckets self) (_key self request) = t1 :: q' ->
    answers self (map (fun t : float => (request, t, call_next)) ts)
    = (repeat (call_next request)
              (Nat.min (Z.to_nat (max_requests rl) - S (List.length q')) (List.length ts))
       ++ repeat (Ok (too_many_requests (new_middleware rl prefix)))
                 (List.length ts - (Z.to_nat (max_requests rl) - S (List.length q'))))%list.
Proof.
  intros Hw Hts. induction Hts as [|t ts Ht _ IH]; intros self q' Hrule Hpre Hq.
  { cbn [map answers List.length]. now rewrite Nat.min_0_r. }
  cbn [map answers List.length].
  assert (Hd : dispatch self request t call_next
               = if (Z.to_nat (max_requests rl) <=? S (List.length q'))%nat
                 then (Ok (too_many_requests (new_middleware rl prefix)),
                       mkRateLimitMiddleware rl prefix
                         (set_bucket (buckets self) (_key self request) (t1 :: q')))
                 else (call_next request,
                       mkRateLimitMiddleware rl prefix
                         (set_bucket (buckets self) (_key self request)
                                     ((t1 :: q') ++ [t])%list))).
  { unfold dispatch. rewrite Hrule, Hw, Hq, Hpre. cbn [popleft_expired]. rewrite Ht.
    rewrite limit_reached. cbn [List.length].
    destruct (_ <=? _)%nat; [|reflexivity].
    unfold too_many_requests. now rewrite Hrule. }
  rewrite Hd.
  destruct (Z.to_nat (max_requests rl) <=? S (List.length q'))%nat eqn:E; cbn [fst snd].
  - apply Nat.leb_le in E.
    rewrite (IH (mkRateLimitMiddleware rl prefix
                   (set_bucket (buckets self) (_key self request) (t1 :: q')))
                q' eq_refl eq_refl).
    2:{ unfold _key at 1. cbn [key_prefix buckets]. rewrite <- Hpre.
        fold (_key self request). apply bucket_set_bucket_same. }
    replace (Z.to_nat (max_requests rl) - S (List.length q'))%nat with 0%nat by lia.
    cbn [Nat.min repeat app]. rewrite !Nat.sub_0_r. reflexivity.
  - apply Nat.leb_gt in E.
    rewrite (IH (mkRateLimitMiddleware rl prefix
                   (set_bucket (buckets self) (_key self request) ((t1 :: q') ++ [t])%list))
                (q' ++ [t])%list eq_refl eq_refl).
    2:{ unfold _key at 1. cbn [key_prefix buckets]. rewrite <- Hpre.
        fold (_key self request). apply bucket_set_bucket_same. }
    rewrite length_app. cbn [List.length].
    remember (Z.to_nat (max_requests rl)) as m.
    replace (m - S (List.length q'))%nat with (S (m - S (List.length q' + 1)))%nat by lia.
    cbn [Nat.min repeat app Nat.sub]. reflexivity.
Qed.

Lemma nothing_admitted rl prefix request call_next w (ts : list float) :
  float_of_int (window_sec rl) = Ok w ->
  max_requests rl <= 0 ->
  forall self,
    rule self = rl ->
    answers self (map (fun t : float => (request, t, call_next)) ts)
    = repeat (Ok (too_many_requests (new_middleware rl prefix))) (List.length ts).
Proof.
  intros Hw Hmax. induction ts as [|t ts IH]; intros self Hrule; [reflexivity|].
  cbn [map answers List.length repeat].
  assert (Hd : exists b, dispatch self request t call_next
                         = (Ok (too_many_requests (new_middleware rl prefix)),
                            mkRateLimitMiddleware rl (key_prefix self) b)).
  { unfold dispatch. rewrite Hrule, Hw.
    assert (E : (max_requests rl <=? Z.of_nat
                   (List.length (popleft_expired (SFsub prec emax t w)
                                   (bucket (buckets self) (_key self request))))) = true)
      by (apply Z.leb_le; lia).
    rewrite E. eexists. unfold too_many_requests. rewrite Hrule. reflexivity. }
  destruct Hd as [b Hd]. rewrite Hd. cbn [fst snd]. f_equal. now apply IH.
Qed.

(** X23. A burst is cut off at the limit.  Take a fresh limiter and a run of
    requests of one client for one path, during which the first request stays
    inside the window (its timestamp is never below [now - window_sec]).
    Then exactly the first [max_requests] of them are passed on to the
    application, and every later one is answered with status 429, the detail
    "Too many requests. Try again later." and a [Retry-After] header holding
    [window_sec] in decimal -- without the application being called.  With
    [max_requests] zero or negative nothing is ever passed on. *)
Theorem burst_is_cut_off_at_the_limit rl prefix request call_next w (t1 : float)
    (ts : list float) :
  float_of_int (window_sec rl) = Ok w ->
  Forall (fun t => SFltb t1 (SFsub prec emax t w) = false) (t1 :: ts) ->
  answers (new_middleware rl prefix) (map (fun t : float => (request, t, call_next)) (t1 :: ts))
  = (repeat (call_next request)
            (Nat.min (Z.to_nat (max_requests rl)) (List.length (t1 :: ts)))
     ++ repeat (Ok (mkResponse 429
                      (JDict [("detail", JStr "Too many requests. Try again later.")])
                      [("Retry-After", str_of_int (window_sec rl))]))
               (List.length (t1 :: ts) - Z.to_nat (max_requests rl)))%list.
Proof.
  intros Hw Hts.
  change (mkResponse 429 (JDict [("detail", JStr "Too many requests. Try again later.")])
            [("Retry-After", str_of_int (window_sec rl))])
    with (too_many_requests (new_middleware rl prefix)).
  destruct (Z_le_gt_dec (max_requests rl) 0) as [Hle | Hgt].
  - rewrite (nothing_admitted rl prefix request call_next w (t1 :: ts) Hw Hle
               (new_middleware rl prefix) eq_refl).
    replace (Z.to_nat (max_requests rl)) with 0%nat by lia.
    cbn [Nat.min repeat app]. now rewrite Nat.sub_0_r.
  - inversion Hts as [|? ? _ Hrest]; subst.
    cbn [map answers].
    assert (Hd : dispatch (new_middleware rl prefix) request t1 call_next
                 = (call_next request,
                    mkRateLimitMiddleware rl prefix
                      [(_key (new_middleware rl prefix) request, [t1])])).
    { unfold dispatch. cbn [rule new_middleware buckets bucket popleft_expired
                              List.length key_prefix set_bucket app].
      rewrite Hw. assert (E : (max_requests rl <=? Z.of_nat 0) = false)
        by (apply Z.leb_gt; lia).
      rewrite E. reflexivity. }
    rewrite Hd. cbn [fst snd].
    rewrite (burst_continues rl prefix request call_next w t1 ts Hw Hrest
               (mkRateLimitMiddleware rl prefix
                  [(_key (new_middleware rl prefix) request, [t1])])
               [] eq_refl eq_refl).
    2:{ unfold _key. cbn [key_prefix buckets bucket new_middleware].
        now rewrite String.eqb_refl. }
    cbn [List.length].
    remember (Z.to_nat (max_requests rl)) as m.
    destruct m as [|m]; [lia|].
    cbn [Nat.min repeat app Nat.sub]. rewrite Nat.sub_0_r. reflexivity.
Qed.

Lemma burst_is_cut_off_at_the_limit_witness :
  map (fun r => match r with Ok x => status_code x | Raise _ => 0 end)
      (answers (new_middleware (mkRateLimitRule 60 2) "rl")
         (map (fun t => (mkHttpRequest (Some "10.0.0.1") "/api/v1/auth/login", t,
                         fun _ => Ok (mkResponse 200 JNull [])))
              [float_of_Z 1000; float_of_Z 1001; float_of_Z 1002]))
  = [200; 200; 429].
Proof.
  rewrite (burst_is_cut_off_at_the_limit (mkRateLimitRule 60 2) "rl"
             (mkHttpRequest (Some "10.0.0.1") "/api/v1/auth/login")
             (fun _ => Ok (mkResponse 200 JNull []))
             (float_of_Z 60) (float_of_Z 1000) [float_of_Z 1001; float_of_Z 1002]).
  - vm_compute. reflexivity.
  - vm_compute. reflexivity.
  - repeat constructor.
Defined.

Lemma append_cancel_l (p a b : string) : p ++ a = p ++ b -> a = b.
Proof. induction p as [|c p IH]; cbn [append]; [auto|]. intros [= H]. auto. Qed.

Lemma no_slash_cons c s : no_slash (String c s) = true -> c <> "/"%char /\ no_slash s = true.
Proof.
  unfold no_slash. cbn [list_ascii_of_string forallb]. intros H.
  apply andb_true_iff in H. destruct H as [Hc Hs]. split; [|exact Hs].
  apply negb_true_iff in Hc. now apply Ascii.eqb_neq.
Qed.

Lemma ip_and_path_split (ip1 ip2 p1 p2 : string) :
  no_slash ip1 = true -> no_slash ip2 = true ->
  ip1 ++ ":" ++ String "/" p1 = ip2 ++ ":" ++ String "/" p2 ->
  ip1 = ip2 /\ p1 = p2.
Proof.
  revert ip2. induction ip1 as [|c ip1 IH]; intros [|d ip2] H1 H2; cbn [append].
  - intros [= H]. auto.
  - intros [= Hc H]. destruct ip2 as [|e ip2]; cbn [append] in H; [discriminate|].
    injection H as He _. apply no_slash_cons in H2. destruct H2 as [_ H2].
    apply no_slash_cons in H2. destruct H2 as [H2 _]. now subst e.
  - intros [= Hc H]. destruct ip1 as [|e ip1]; cbn [append] in H; [discriminate|].
    injection H as He _. apply no_slash_cons in H1. destruct H1 as [_ H1].
    apply no_slash_cons in H1. destruct H1 as [H1 _]. now subst e.
  - intros [= -> H]. apply no_slash_cons in H1. apply no_slash_cons in H2.
    destruct (IH ip2 (proj2 H1) (proj2 H2) H) as [-> ->]. auto.
Qed.

(** X24. Clients do not count against each other.  For requests as a server
    hands them over (the client host holds no slash, the path begins with
    one), the bucket key determines the client host and the path: two
    requests that differ in either have different keys, and serving one of
    them leaves the bucket of the other as it was.  Requests that have no
    client all count under the host "unknown". *)
Theorem clients_do_not_share_buckets self request request' now call_next :
  well_formed request ->
  well_formed request' ->
  (client_ip request', url_path request') <> (client_ip request, url_path request) ->
  _key self request' <> _key self request
  /\ bucket (buckets (snd (dispatch self request now call_next))) (_key self request')
     = bucket (buckets self) (_key self request').
Proof.
  intros [Hip [p Hp]] [Hip' [p' Hp']] Hne.
  assert (Hk : _key self request' <> _key self request).
  { unfold _key. rewrite Hp, Hp'. intros H.
    apply append_cancel_l in H.
    change (":" ++ client_ip request' ++ ":" ++ String "/" p')
      with (String ":" (client_ip request' ++ ":" ++ String "/" p')) in H.
    change (":" ++ client_ip request ++ ":" ++ String "/" p)
      with (String ":" (client_ip request ++ ":" ++ String "/" p)) in H.
    injection H as H.
    destruct (ip_and_path_split _ _ _ _ Hip' Hip H) as [E1 E2].
    apply Hne. now rewrite Hp, Hp', E1, E2. }
  split; [exact Hk|].
  unfold dispatch. destruct (float_of_int _); [|reflexivity].
  destruct (_ <=? _); cbn [snd buckets]; now apply bucket_set_bucket_other.
Qed.

Lemma clients_do_not_share_buckets_witness :
  _key (new_middleware (mkRateLimitRule 60 2) "rl") (mkHttpRequest (Some "::1") "/a")
  <> _key (new_middleware (mkRateLimitRule 60 2) "rl") (mkHttpRequest None "/a").
Proof.
  apply (clients_do_not_share_buckets (new_middleware (mkRateLimitRule 60 2) "rl")
           (mkHttpRequest None "/a") (mkHttpRequest (Some "::1") "/a")
           (float_of_Z 0) (fun _ => Raise KeyError)).
  - split; [reflexivity|]. exists "a". reflexivity.
  - split; [reflexivity|]. exists "a". reflexivity.
  - discriminate.
Defined.

